(** * copy_field_to_table_rows.py: a shallow embedding and its properties

    The script post-processes documents produced by a document-understanding
    pipeline: it copies the value of the [invoice_date] field into the
    [line_item_start_date] column of every data row of the document's table.

    The documents are JSON-like Python values (dicts, lists, strings and
    numbers), read with [.get] and mutated in place.  The embedding keeps
    that shape: a type [value] of Python values, the handful of Python
    operations the script uses (with the exceptions they raise), a state and
    exception monad whose state is the document under mutation, and one
    definition per function of the script, under the script's names.

    What the embedding leaves out.  A document is a decoded JSON text: a
    tree, in which no object sits in two places, so that a reference to an
    element is a path and the identity of Python objects plays no part.
    Floats are the finite ones, each the rational it denotes; there is no
    NaN.  The text Python gives for a value, the clock and float addition
    are parameters of the script. *)

From Stdlib Require Import List String Ascii ZArith QArith Bool Lia Arith.
From Stdlib Require Import DecimalString.
Import ListNotations.

Local Open Scope string_scope.
Local Open Scope list_scope.
Local Open Scope Z_scope.

(** ** Python values *)

(** The values a decoded JSON document is made of.  A dict is kept as the
    list of its items in insertion order; keys are strings.  A float is
    the rational it denotes (finite floats only). *)
#[warnings="-register-all"]
Inductive value : Type :=
| VNone
| VBool (b : bool)
| VInt (n : Z)
| VFloat (q : Q)
| VStr (s : string)
| VList (l : list value)
| VDict (d : list (string * value)).

Definition dict : Type := list (string * value).

(** The exceptions the script can meet. *)
Inductive exn : Type := AttributeError | KeyError | TypeError.

Inductive result (A : Type) : Type :=
| Ok (a : A)
| Raise (e : exn).
Arguments Ok {A} a.
Arguments Raise {A} e.

Definition rbind {A B} (r : result A) (k : A -> result B) : result B :=
  match r with
  | Ok a => k a
  | Raise e => Raise e
  end.

Declare Scope result_scope.
Delimit Scope result_scope with result.
Notation "x <- r ;; k" := (rbind r (fun x => k))
  (at level 61, r at next level, right associativity) : result_scope.

(** ** Dict and list primitives *)

(** First binding of [k]. *)
Fixpoint dict_get (d : dict) (k : string) : option value :=
  match d with
  | [] => None
  | (k', v) :: d' => if String.eqb k' k then Some v else dict_get d' k
  end.

(** [d[k] = v]: the binding of [k] is replaced where it stands, a new key
    goes last. *)
Fixpoint dict_set (d : dict) (k : string) (v : value) : dict :=
  match d with
  | [] => [(k, v)]
  | (k', v') :: d' =>
      if String.eqb k' k then (k', v) :: d' else (k', v') :: dict_set d' k v
  end.

(** The [i]-th item replaced by its image under [f]; nothing out of range. *)
Fixpoint update_nth {A} (i : nat) (f : A -> A) (l : list A) : list A :=
  match l, i with
  | [], _ => []
  | x :: l', O => f x :: l'
  | x :: l', S i' => x :: update_nth i' f l'
  end.

(** ** Python operations *)

(** The number a value denotes, if it is one; [bool] is a subtype of
    [int]. *)
Definition num (v : value) : option Q :=
  match v with
  | VBool b => Some (inject_Z (Z.b2z b))
  | VInt n => Some (inject_Z n)
  | VFloat q => Some q
  | _ => None
  end.

(** Truth value: [bool(v)]. *)
Definition truthy (v : value) : bool :=
  match v with
  | VNone => false
  | VBool b => b
  | VInt n => negb (n =? 0)
  | VFloat q => negb (Qeq_bool q 0)
  | VStr s => negb (String.eqb s "")
  | VList l => match l with [] => false | _ => true end
  | VDict d => match d with [] => false | _ => true end
  end.

(** [a == b]. Numbers compare by value across [bool], [int] and [float];
    lists item by item; dicts as sets of items. *)
Fixpoint py_eq (a b : value) {struct a} : bool :=
  match a, b with
  | VNone, VNone => true
  | VStr s, VStr t => String.eqb s t
  | VList l, VList m =>
      (fix items (l m : list value) {struct l} : bool :=
         match l, m with
         | [], [] => true
         | x :: l', y :: m' => py_eq x y && items l' m'
         | _, _ => false
         end) l m
  | VDict d, VDict e =>
      Nat.eqb (List.length d) (List.length e) &&
      (fix items (d : dict) {struct d} : bool :=
         match d with
         | [] => true
         | (k, v) :: d' =>
             match dict_get e k with
             | Some w => py_eq v w
             | None => false
             end && items d'
         end) d
  | VInt n, VInt m => n =? m
  | _, _ =>
      match num a, num b with
      | Some x, Some y => Qeq_bool x y
      | _, _ => false
      end
  end.

(** Strict order of strings, by code unit. *)
Fixpoint string_ltb (s t : string) : bool :=
  match s, t with
  | _, EmptyString => false
  | EmptyString, String _ _ => true
  | String c s', String d t' =>
      (nat_of_ascii c <? nat_of_ascii d)%nat
      || (Ascii.eqb c d && string_ltb s' t')
  end.

(** [a > b]. Numbers, strings and lists are ordered among themselves; any
    other pair is a [TypeError]. *)
Fixpoint py_gt (a b : value) {struct a} : result bool :=
  match a, b with
  | VStr s, VStr t => Ok (string_ltb t s)
  | VList l, VList m =>
      (fix items (l m : list value) {struct l} : result bool :=
         match l, m with
         | [], _ => Ok false
         | _ :: _, [] => Ok true
         | x :: l', y :: m' => if py_eq x y then items l' m' else py_gt x y
         end) l m
  | VInt n, VInt m => Ok (m <? n)
  | _, _ =>
      match num a, num b with
      | Some x, Some y => Ok (negb (Qle_bool x y))
      | _, _ => Raise TypeError
      end
  end.

(** [max(a, b)]: the first of the two unless the second is greater. *)
Definition py_max (a b : value) : result value :=
  (g <- py_gt b a ;; Ok (if g then b else a))%result.

(** [obj.get(key, default)]; only a dict has the method. *)
Definition py_get (obj : value) (key : string) (default : value)
  : result value :=
  match obj with
  | VDict d =>
      Ok (match dict_get d key with Some v => v | None => default end)
  | _ => Raise AttributeError
  end.

(** [obj[key]] for a string key. *)
Definition py_getitem (obj : value) (key : string) : result value :=
  match obj with
  | VDict d =>
      match dict_get d key with Some v => Ok v | None => Raise KeyError end
  | _ => Raise TypeError
  end.

(** [obj[key] = v] on a dict. *)
Definition py_setitem (obj : value) (key : string) (v : value) : value :=
  match obj with
  | VDict d => VDict (dict_set d key v)
  | _ => obj
  end.

(** The items a [for] loop draws from a value: the items of a list, the
    characters of a string, the keys of a dict. *)
Definition py_iter (v : value) : result (list value) :=
  match v with
  | VList l => Ok l
  | VStr s => Ok (map (fun c => VStr (String c EmptyString)) (list_ascii_of_string s))
  | VDict d => Ok (map (fun kv => VStr (fst kv)) d)
  | _ => Raise TypeError
  end.

(** Whether [sub] occurs in [s]. *)
Definition is_substring (sub s : string) : bool :=
  match String.index 0 sub s with Some _ => true | None => false end.

(** [key in container] for a string [key]. *)
Definition py_in (key : string) (container : value) : result bool :=
  match container with
  | VDict d => Ok (match dict_get d key with Some _ => true | None => false end)
  | VList l => Ok (existsb (fun x => py_eq x (VStr key)) l)
  | VStr s => Ok (is_substring key s)
  | _ => Raise TypeError
  end.

(** Whether a value can be a dict key. *)
Definition hashable (v : value) : bool :=
  match v with
  | VList _ | VDict _ => false
  | _ => true
  end.

(** ** The state and exception monad *)

(** What the script prints. *)
Inductive line : Type :=
| Warning_field_not_found
| Error_copying (e : exn).

(** The document being processed, the number of clock readings taken so
    far, and the lines printed so far (latest first). *)
Record state : Type := mkState {
  the_document : value;
  ticks : nat;
  stdout : list line
}.

(** A computation returns or raises, and leaves a state either way: what
    was mutated before an exception stays mutated. *)
Definition M (A : Type) : Type := state -> result A * state.

Definition ret {A} (a : A) : M A := fun s => (Ok a, s).

Definition bind {A B} (m : M A) (k : A -> M B) : M B :=
  fun s =>
    match m s with
    | (Ok a, s') => k a s'
    | (Raise e, s') => (Raise e, s')
    end.

Definition raise {A} (e : exn) : M A := fun s => (Raise e, s).

Definition lift {A} (r : result A) : M A := fun s => (r, s).

Definition get_document : M value := fun s => (Ok (the_document s), s).

Definition modify_document (f : value -> value) : M unit :=
  fun s => (Ok tt, mkState (f (the_document s)) (ticks s) (stdout s)).

Definition print (l : line) : M unit :=
  fun s => (Ok tt, mkState (the_document s) (ticks s) (l :: stdout s)).

(** [try: body except Exception as e: handler e]. *)
Definition try_except {A} (body : M A) (handler : exn -> M A) : M A :=
  fun s =>
    match body s with
    | (Ok a, s') => (Ok a, s')
    | (Raise e, s') => handler e s'
    end.

Declare Scope monad_scope.
Delimit Scope monad_scope with monad.
Notation "x <- m ;; k" := (bind m (fun x => k))
  (at level 61, m at next level, right associativity) : monad_scope.
Notation "m ;;; k" := (bind m (fun _ => k))
  (at level 61, right associativity) : monad_scope.

(** ** References into the document *)

(** The script holds references to the table it found and to its cells.
    A document is a tree, so a reference to an element is the key of the
    list it sits in and its position there. *)
Record ref : Type := mkRef { ref_key : string; ref_idx : nat }.

(** The element a reference points to. *)
Definition load (r : ref) (doc : value) : value :=
  match doc with
  | VDict d =>
      match dict_get d (ref_key r) with
      | Some (VList l) => nth (ref_idx r) l VNone
      | _ => VNone
      end
  | _ => VNone
  end.

(** The element a reference points to, replaced by its image under [f]. *)
Definition update (r : ref) (f : value -> value) (doc : value) : value :=
  match doc with
  | VDict d =>
      match dict_get d (ref_key r) with
      | Some (VList l) =>
          VDict (dict_set d (ref_key r) (VList (update_nth (ref_idx r) f l)))
      | _ => doc
      end
  | _ => doc
  end.

(** The value under [key] replaced by its image under [f]. *)
Definition update_key (key : string) (f : value -> value) (obj : value)
  : value :=
  match obj with
  | VDict d =>
      match dict_get d key with
      | Some v => VDict (dict_set d key (f v))
      | None => obj
      end
  | _ => obj
  end.

(** [lst.append(x)] on the list itself. *)
Definition list_append (x : value) (lst : value) : value :=
  match lst with
  | VList l => VList (l ++ [x])
  | _ => lst
  end.

(** The [j]-th item of a list replaced by its image under [f]. *)
Definition update_item (j : nat) (f : value -> value) (lst : value) : value :=
  match lst with
  | VList l => VList (update_nth j f l)
  | _ => lst
  end.

(** ** Sample built-ins and documents *)

(** Stand-ins for Python's built-ins in the examples: the text of a
    string, of an integer and of a whole float below 1e16 (from there on
    Python writes an exponent); clock readings one second apart; exact
    addition, where Python rounds to a double.  The theorems do not
    depend on them: they hold for every [format_value], [time_time] and
    [float_add]. *)
Definition sample_format (v : value) : string :=
  match v with
  | VNone => "None"
  | VBool true => "True"
  | VBool false => "False"
  | VInt n => NilZero.string_of_int (Z.to_int n)
  | VFloat q =>
      (NilZero.string_of_int (Z.to_int (Qnum q / Zpos (Qden q))) ++ ".0")%string
  | VStr s => s
  | _ => ""
  end.

Definition sample_time (n : nat) : Q := inject_Z (1700000000 + Z.of_nat n).

Definition sample_add : Q -> Q -> Q := Qplus.

Definition field_box (label text : string) : value :=
  VDict [("type", VStr "field"); ("label", VStr label);
         ("ocr_text", VStr text)].

Definition table_box (cells : list value) : value :=
  VDict [("type", VStr "table"); ("cells", VList cells)].

Definition item_cell (row col : Z) (label : string) : value :=
  VDict [("row", VInt row); ("label", VStr label); ("col", VInt col)].

Definition header_cell : value :=
  VDict [("row", VInt 0); ("label", VStr "item")].

(** The example of the specification: an invoice date and a table with a
    header row and two data rows. *)
Definition sample_field : value := field_box "invoice_date" "2024-01-15".

Definition sample_cells : list value :=
  [header_cell; item_cell 1 1 "item"; item_cell 2 1 "item"].

Definition sample_invoice : value :=
  VDict [("predicted_boxes", VList [sample_field; table_box sample_cells])].

(** A table that comes with two cells for the same row and label. *)
Definition duplicate_invoice : value :=
  VDict [("predicted_boxes",
          VList [sample_field;
                 table_box [item_cell 1 1 "item"; item_cell 1 2 "item"]])].

(** A document without an invoice date. *)
Definition undated_invoice : value :=
  VDict [("predicted_boxes", VList [table_box sample_cells])].

(** A malformed document: the row of its second cell is a string. *)
Definition malformed_invoice : value :=
  VDict [("predicted_boxes",
          VList [sample_field;
                 table_box [item_cell 1 1 "item";
                            VDict [("row", VStr "x"); ("label", VStr "item")];
                            item_cell 2 1 "item"]])].

(** A document whose first invoice date field is empty and whose second
    is not. *)
Definition shadowed_invoice : value :=
  VDict [("predicted_boxes",
          VList [field_box "invoice_date" ""; sample_field;
                 table_box sample_cells])].

(** A document with an invoice date and no table. *)
Definition tableless_invoice : value :=
  VDict [("predicted_boxes", VList [sample_field])].

(** A row with cells in columns 1 and 2. *)
Definition two_columns : list value :=
  [item_cell 1 1 "item"; item_cell 1 2 "price"].

Definition two_column_invoice : value :=
  VDict [("predicted_boxes", VList [sample_field; table_box two_columns])].

(** A cell without a row. *)
Definition rowless_cell : value := VDict [("label", VStr "note")].

(** A list in which the invoice date comes after a table and before an
    item that is not a record. *)
Definition scan_invoice : value :=
  VDict [("predicted_boxes",
          VList [table_box []; sample_field; VStr "junk"])].

(** Cells whose rows are the integer 1, the float 1.0, none, and
    [True]. *)
Definition mixed_cells : list value :=
  [VDict [("row", VInt 1)]; VDict [("row", VFloat 1)]; rowless_cell;
   VDict [("row", VBool true)]].

Definition mixed_table : dict :=
  [("type", VStr "table"); ("cells", VList mixed_cells)].

(** A table with a cell whose column is [None]. *)
Definition bad_column_invoice : value :=
  VDict [("predicted_boxes",
          VList [table_box
                   [VDict [("row", VInt 1); ("label", VStr "item");
                           ("col", VNone)]]])].

(** ** The script *)

Section Script.

(** Python's built-ins the script calls and the embedding leaves open:
    the text an f-string gives for a value, the successive readings of
    [time.time()], and float addition. *)
Variable format_value : value -> string.
Variable time_time : nat -> Q.
Variable float_add : Q -> Q -> Q.

(** [time.time()]: the next reading of the clock. *)
Definition py_time : M value :=
  fun s => (Ok (VFloat (time_time (ticks s))),
            mkState (the_document s) (S (ticks s)) (stdout s)).

(** [a + k] for an integer literal [k]. *)
Definition py_add (a : value) (k : Z) : result value :=
  match a with
  | VBool b => Ok (VInt (Z.b2z b + k))
  | VInt n => Ok (VInt (n + k))
  | VFloat q => Ok (VFloat (float_add q (inject_Z k)))
  | _ => Raise TypeError
  end.

(** [document.get("moderated_boxes", []) if document.get("moderated_boxes")
    else document.get("predicted_boxes", [])], with the key the list was
    read from. *)
Definition select_boxes (document : value) : result (string * value) :=
  (m <- py_get document "moderated_boxes" VNone ;;
   if truthy m then
     boxes <- py_get document "moderated_boxes" (VList []) ;;
     Ok ("moderated_boxes", boxes)
   else
     boxes <- py_get document "predicted_boxes" (VList []) ;;
     Ok ("predicted_boxes", boxes))%result.

(** The loop of [get_field_value]. *)
Fixpoint get_field_value_loop (boxes : list value) (field_label : value)
  : result value :=
  match boxes with
  | [] => Ok (VStr "")
  | box :: rest =>
      (ty <- py_get box "type" VNone ;;
       if py_eq ty (VStr "field") then
         lb <- py_get box "label" VNone ;;
         if py_eq lb field_label then py_get box "ocr_text" (VStr "")
         else get_field_value_loop rest field_label
       else get_field_value_loop rest field_label)%result
  end.

Definition get_field_value (document : value) (field_label : value)
  : result value :=
  (kb <- select_boxes document ;;
   boxes <- py_iter (snd kb) ;;
   get_field_value_loop boxes field_label)%result.

(** The first loop of [find_or_create_table]: the position of the first
    box of type table, counting from [i]. *)
Fixpoint find_table_loop (boxes : list value) (i : nat)
  : result (option nat) :=
  match boxes with
  | [] => Ok None
  | box :: rest =>
      (ty <- py_get box "type" VNone ;;
       if py_eq ty (VStr "table") then Ok (Some i)
       else find_table_loop rest (S i))%result
  end.

(** The search of [find_or_create_table] for an existing table. *)
Definition find_table (document : value) : result (option ref) :=
  (kb <- select_boxes document ;;
   boxes <- py_iter (snd kb) ;;
   found <- find_table_loop boxes 0 ;;
   Ok (option_map (mkRef (fst kb)) found))%result.

Definition new_table (now : value) : value :=
  VDict [ ("id", VStr ("generated-table-" ++ format_value now)%string);
          ("label", VStr "table");
          ("xmin", VInt 0);
          ("ymin", VInt 0);
          ("xmax", VInt 0);
          ("ymax", VInt 0);
          ("score", VFloat 1);
          ("ocr_text", VStr "table");
          ("status", VStr "correctly_predicted");
          ("type", VStr "table");
          ("cells", VList []) ].

(** [document[key].append(box)], returning a reference to the new item. *)
Definition append_box (key : string) (box : value) : M ref :=
  (document <- get_document ;;
   boxes <- lift (py_getitem document key) ;;
   match boxes with
   | VList l =>
       modify_document (fun doc => py_setitem doc key (list_append box boxes)) ;;;
       ret (mkRef key (List.length l))
   | _ => raise AttributeError
   end)%monad.

Definition find_or_create_table : M ref :=
  (document <- get_document ;;
   found <- lift (find_table document) ;;
   match found with
   | Some box => ret box
   | None =>
       now <- py_time ;;
       let new_table := new_table now in
       m <- lift (py_get document "moderated_boxes" VNone) ;;
       if truthy m then append_box "moderated_boxes" new_table
       else append_box "predicted_boxes" new_table
   end)%monad.

(** The first loop of [set_cell_value]: the position of the first cell of
    the row with the label, counting from [j]. *)
Fixpoint find_cell_loop (cells : list value) (row_idx label : value)
  (j : nat) : result (option nat) :=
  match cells with
  | [] => Ok None
  | cell :: rest =>
      (r <- py_get cell "row" VNone ;;
       if py_eq r row_idx then
         l <- py_get cell "label" VNone ;;
         if py_eq l label then Ok (Some j)
         else find_cell_loop rest row_idx label (S j)
       else find_cell_loop rest row_idx label (S j))%result
  end.

(** The second loop of [set_cell_value]. *)
Fixpoint max_col_loop (cells : list value) (row_idx : value)
  (max_col : value) : result value :=
  match cells with
  | [] => Ok max_col
  | cell :: rest =>
      (r <- py_get cell "row" VNone ;;
       if py_eq r row_idx then
         c <- py_get cell "col" (VInt 0) ;;
         max_col <- py_max max_col c ;;
         max_col_loop rest row_idx max_col
       else max_col_loop rest row_idx max_col)%result
  end.

Definition new_cell (label row_idx now col val : value) : value :=
  VDict [ ("id", VStr ("generated-cell-" ++ format_value label ++ "-"
                         ++ format_value row_idx ++ "-" ++ format_value now)%string);
          ("row", row_idx);
          ("col", col);
          ("row_span", VInt 0);
          ("col_span", VInt 0);
          ("label", label);
          ("xmin", VInt 0);
          ("ymin", VInt 0);
          ("xmax", VInt 0);
          ("ymax", VInt 0);
          ("score", VFloat 1);
          ("text", val);
          ("row_label", VStr "");
          ("verification_status", VStr "correctly_predicted");
          ("status", VStr "");
          ("failed_validation", VStr "");
          ("label_id", VStr "");
          ("lookup_edited", VBool false) ].

(** [table.get("cells", [])] through the reference. *)
Definition table_cells (table : ref) : M value :=
  (document <- get_document ;;
   lift (py_get (load table document) "cells" (VList [])))%monad.

(** [cell["text"] = value] for the [j]-th cell of the table. *)
Definition set_cell_text (table : ref) (j : nat) (val : value) : M unit :=
  modify_document
    (update table
       (update_key "cells"
          (update_item j (fun cell => py_setitem cell "text" val)))).

(** [table["cells"].append(cell)]. *)
Definition append_cell (table : ref) (cell : value) : M unit :=
  (document <- get_document ;;
   cells <- lift (py_getitem (load table document) "cells") ;;
   match cells with
   | VList _ =>
       modify_document (update table (update_key "cells" (list_append cell)))
   | _ => raise AttributeError
   end)%monad.

Definition set_cell_value (row_idx label val : value) : M value :=
  (table <- find_or_create_table ;;
   cells <- table_cells table ;;
   cells <- lift (py_iter cells) ;;
   found <- lift (find_cell_loop cells row_idx label 0) ;;
   match found with
   | Some j => set_cell_text table j val ;;; ret (VBool true)
   | None =>
       cells <- table_cells table ;;
       cells <- lift (py_iter cells) ;;
       max_col <- lift (max_col_loop cells row_idx (VInt 0)) ;;
       now <- py_time ;;
       col <- lift (py_add max_col 1) ;;
       let new_cell := new_cell label row_idx now col val in
       document <- get_document ;;
       has_cells <- lift (py_in "cells" (load table document)) ;;
       (if has_cells then ret tt
        else modify_document
               (update table (fun t => py_setitem t "cells" (VList [])))) ;;;
       append_cell table new_cell ;;;
       ret (VBool true)
   end)%monad.

(** The dict [group_cells_by_row] builds: its items in insertion order,
    keys compared as Python compares dict keys. *)
Definition rows_dict : Type := list (value * list value).

Fixpoint rows_mem (rows : rows_dict) (k : value) : bool :=
  match rows with
  | [] => false
  | (k', _) :: rows' => py_eq k' k || rows_mem rows' k
  end.

(** [row_idx not in rows]: hashes the key first. *)
Definition rows_lacks (rows : rows_dict) (k : value) : result bool :=
  if hashable k then Ok (negb (rows_mem rows k)) else Raise TypeError.

(** [rows[k].append(cell)]. *)
Fixpoint rows_append (rows : rows_dict) (k : value) (cell : value)
  : rows_dict :=
  match rows with
  | [] => []
  | (k', cs) :: rows' =>
      if py_eq k' k then (k', cs ++ [cell]) :: rows'
      else (k', cs) :: rows_append rows' k cell
  end.

(** The loop of [group_cells_by_row]. *)
Fixpoint group_cells_loop (cells : list value) (rows : rows_dict)
  : result rows_dict :=
  match cells with
  | [] => Ok rows
  | cell :: rest =>
      (row_idx <- py_get cell "row" (VInt 0) ;;
       lacks <- rows_lacks rows row_idx ;;
       let rows := if lacks then rows ++ [(row_idx, [])] else rows in
       group_cells_loop rest (rows_append rows row_idx cell))%result
  end.

Definition group_cells_by_row (table : value) : result rows_dict :=
  if negb (truthy table) then Ok []
  else
    (has_cells <- py_in "cells" table ;;
     if negb has_cells then Ok []
     else
       cells <- py_get table "cells" (VList []) ;;
       cells <- py_iter cells ;;
       group_cells_loop cells [])%result.

(** The loop of [copy_invoice_date_to_line_items] over [rows.keys()]. *)
Fixpoint copy_loop (keys : list value) (invoice_date : value) : M unit :=
  match keys with
  | [] => ret tt
  | row_idx :: rest =>
      (positive <- lift (py_gt row_idx (VInt 0)) ;;
       (if positive then
          set_cell_value row_idx (VStr "line_item_start_date") invoice_date ;;;
          ret tt
        else ret tt) ;;;
       copy_loop rest invoice_date)%monad
  end.

(** The body of the [try] block; [ret tt] stands for [return document]. *)
Definition copy_body : M unit :=
  (document <- get_document ;;
   invoice_date <- lift (get_field_value document (VStr "invoice_date")) ;;
   if negb (truthy invoice_date) then print Warning_field_not_found
   else
     table <- find_or_create_table ;;
     document <- get_document ;;
     rows <- lift (group_cells_by_row (load table document)) ;;
     copy_loop (map fst rows) invoice_date)%monad.

(** Returns the document, which is the one in the state. *)
Definition copy_invoice_date_to_line_items : M value :=
  (try_except copy_body (fun e => print (Error_copying e)) ;;;
   get_document)%monad.

(** The world outside the documents: the clock and the output. *)
Definition world : Type := (nat * list line)%type.

(** [handler]: each document of [input_data] in turn is the document of
    the state while it is processed; the list of the documents as they
    are left is the list returned. *)
Fixpoint handler (input_data : list value) (w : world)
  : result (list value) * world :=
  match input_data with
  | [] => (Ok [], w)
  | document :: rest =>
      match copy_invoice_date_to_line_items (mkState document (fst w) (snd w)) with
      | (Ok _, s) =>
          match handler rest (ticks s, stdout s) with
          | (Ok docs, w') => (Ok (the_document s :: docs), w')
          | (Raise e, w') => (Raise e, w')
          end
      | (Raise e, s) => (Raise e, (ticks s, stdout s))
      end
  end.

(** ** The data model of the specification *)

(** A cell's [row] and [col] are integers where they are present. *)
Definition int_or_absent (d : dict) (k : string) : bool :=
  match dict_get d k with
  | None | Some (VInt _) => true
  | Some _ => false
  end.

Definition is_cell (c : value) : bool :=
  match c with
  | VDict d => int_or_absent d "row" && int_or_absent d "col"
  | _ => false
  end.

(** An element is a record; its [cells], where present, are a sequence of
    cells. *)
Definition is_element (b : value) : bool :=
  match b with
  | VDict t =>
      match dict_get t "cells" with
      | None => true
      | Some (VList cs) => forallb is_cell cs
      | Some _ => false
      end
  | _ => false
  end.

Definition is_element_list (o : option value) : bool :=
  match o with
  | None => true
  | Some (VList l) => forallb is_element l
  | Some _ => false
  end.

(** A document is a mapping whose optional [moderated_boxes] and
    [predicted_boxes] are sequences of elements. *)
Definition is_document (doc : value) : bool :=
  match doc with
  | VDict d =>
      is_element_list (dict_get d "moderated_boxes")
      && is_element_list (dict_get d "predicted_boxes")
  | _ => false
  end.

(** ** Observations of a document *)

(** The cell sequence of a table element. *)
Definition cells_of (table : value) : list value :=
  match table with
  | VDict t =>
      match dict_get t "cells" with
      | Some (VList cs) => cs
      | _ => []
      end
  | _ => []
  end.

(** The cells of the document's table: of the first element of type table
    in the authoritative list, none when there is no such element. *)
Definition the_cells (doc : value) : list value :=
  match find_table doc with
  | Ok (Some r) => cells_of (load r doc)
  | _ => []
  end.

(** The document with [cs] as the cell sequence of the element at [r]. *)
Definition with_cells (r : ref) (cs : list value) (doc : value) : value :=
  update r (fun t => py_setitem t "cells" (VList cs)) doc.

(** The fields of a cell as the script reads them. *)
Definition cell_field (c : value) (k : string) : value :=
  match c with
  | VDict d => match dict_get d k with Some v => v | None => VNone end
  | _ => VNone
  end.

(** The document has its table at [r], and the table is the dict [t]. *)
Definition table_at (doc : value) (r : ref) (t : dict) : Prop :=
  find_table doc = Ok (Some r) /\ load r doc = VDict t.

(** ** The script seen from the cells of the table *)

(** What [set_cell_value] does to the cell sequence [cs] of the table at
    clock reading [n]: what it returns, and the cells and the clock it
    leaves. *)
Definition cell_write (row_idx label val : value) (n : nat)
  (cs : list value) : result value * (list value * nat) :=
  match find_cell_loop cs row_idx label 0 with
  | Raise e => (Raise e, (cs, n))
  | Ok (Some j) =>
      (Ok (VBool true),
       (update_nth j (fun cell => py_setitem cell "text" val) cs, n))
  | Ok None =>
      match max_col_loop cs row_idx (VInt 0) with
      | Raise e => (Raise e, (cs, n))
      | Ok max_col =>
          match py_add max_col 1 with
          | Raise e => (Raise e, (cs, S n))
          | Ok col =>
              (Ok (VBool true),
               (cs ++ [new_cell label row_idx (VFloat (time_time n)) col val],
                S n))
          end
      end
  end.

(** What the loop of [copy_invoice_date_to_line_items] does to them. *)
Fixpoint rows_write (keys : list value) (val : value) (n : nat)
  (cs : list value) : result unit * (list value * nat) :=
  match keys with
  | [] => (Ok tt, (cs, n))
  | row_idx :: rest =>
      match py_gt row_idx (VInt 0) with
      | Raise e => (Raise e, (cs, n))
      | Ok false => rows_write rest val n cs
      | Ok true =>
          match cell_write row_idx (VStr "line_item_start_date") val n cs with
          | (Raise e, st) => (Raise e, st)
          | (Ok _, (cs', n')) => rows_write rest val n' cs'
          end
      end
  end.

(** A cell before and after the copy loop has written [val]: as it was,
    or, for a cell of a row above the header that carries the target
    label, with [val] as its text. *)
Definition touched (val : value) (c c' : value) : Prop :=
  c' = c \/
  (c' = py_setitem c "text" val /\
   exists k, py_gt k (VInt 0) = Ok true /\
     py_eq (cell_field c "row") k = true /\
     py_eq (cell_field c "label") (VStr "line_item_start_date") = true).

(** A cell the copy loop has made for one of the row indices [keys]. *)
Definition fresh (keys : list value) (val : value) (c : value) : Prop :=
  exists k now col, In k keys /\ py_gt k (VInt 0) = Ok true /\
    c = new_cell (VStr "line_item_start_date") k now col val.

(** The cells before and after the copy loop: the old ones in place,
    touched or not, then the new ones. *)
Definition rewritten (keys : list value) (val : value)
  (cs cs' : list value) : Prop :=
  exists pre ext, cs' = pre ++ ext /\
    Forall2 (touched val) cs pre /\ Forall (fresh keys val) ext.

(** The first cell of row [k] with the target label holds [val]. *)
Definition settled (val k : value) (cs : list value) : Prop :=
  exists j d,
    find_cell_loop cs k (VStr "line_item_start_date") 0 = Ok (Some j) /\
    nth j cs VNone = VDict d /\ dict_get d "text" = Some val.

(** The keys of a grouping. *)
Definition keys_of (r : result rows_dict) : result (list value) :=
  rbind r (fun rows => Ok (map fst rows)).

(** Two cells claim the same (row, label) pair. *)
Definition same_slot (c c' : value) : bool :=
  py_eq (cell_field c "row") (cell_field c' "row")
  && py_eq (cell_field c "label") (cell_field c' "label").

(** No two cells of the sequence claim the same (row, label) pair. *)
Fixpoint unique_slots (cs : list value) : bool :=
  match cs with
  | [] => true
  | c :: rest =>
      forallb (fun c' => negb (same_slot c c')) rest && unique_slots rest
  end.

(** The state a computation leaves. *)
Definition exec {A} (m : M A) (s : state) : state := snd (m s).

(** The state after [k] runs of the copy operation. *)
Fixpoint repeat_copy (k : nat) (s : state) : state :=
  match k with
  | O => s
  | S k' => repeat_copy k' (exec copy_invoice_date_to_line_items s)
  end.

(** ** Grouping, in the words of the specification *)

(** The row index a cell is grouped under: its [row], 0 when it has
    none. *)
Definition row_z (c : value) : Z :=
  match c with
  | VDict d => match dict_get d "row" with Some (VInt k) => k | _ => 0 end
  | _ => 0
  end.

(** The distinct items of a list, each at its first occurrence. *)
Fixpoint first_seen (l : list Z) : list Z :=
  match l with
  | [] => []
  | x :: l' => x :: filter (fun y => negb (y =? x)) (first_seen l')
  end.

(** The mapping from row index to the cells of that row, in the order
    of the table: one entry per row index that some cell carries, in
    first-seen order. *)
Definition rows_spec (cs : list value) : rows_dict :=
  map (fun k => (VInt k, filter (fun c => row_z c =? k) cs))
      (first_seen (map row_z cs)).

(** ** The document, in the words of the specification *)

(** The elements of the authoritative list: the moderated list when it is
    present and not empty, the predicted list otherwise. *)
Definition elements (doc : value) : list value :=
  match select_boxes doc with
  | Ok (_, VList l) => l
  | _ => []
  end.

(** A field element with the label [lbl]. *)
Definition is_field_labelled (lbl : string) (b : value) : bool :=
  py_eq (cell_field b "type") (VStr "field")
  && py_eq (cell_field b "label") (VStr lbl).

(** The field element the field reader reports: the first with the
    label. *)
Definition field_element (lbl : string) (doc : value) : option value :=
  find (is_field_labelled lbl) (elements doc).

(** The text of a field element, empty when it has none. *)
Definition ocr_text (b : value) : value :=
  match b with
  | VDict d => match dict_get d "ocr_text" with Some v => v | None => VStr "" end
  | _ => VStr ""
  end.

(** A cell of the header row: its row index is 0, or it has none and is
    grouped under 0. *)
Definition is_header (c : value) : bool :=
  match py_get c "row" (VInt 0) with
  | Ok r => py_eq r (VInt 0)
  | Raise _ => false
  end.

(** A cell that has no [row] key. *)
Definition lacks_row (c : value) : bool :=
  match c with
  | VDict d => match dict_get d "row" with None => true | Some _ => false end
  | _ => false
  end.

(** The column index of a cell, 0 when it has none. *)
Definition col_z (c : value) : Z :=
  match c with
  | VDict d => match dict_get d "col" with Some (VInt k) => k | _ => 0 end
  | _ => 0
  end.

(** The cell is on row [k]: its [row] is [k]. *)
Definition on_row (k : Z) (c : value) : bool :=
  py_eq (cell_field c "row") (VInt k).

(** The column indices of the cells of row [k]. *)
Definition row_cols (k : Z) (cs : list value) : list Z :=
  map col_z (filter (on_row k) cs).

(** [m] is the greatest item of [l]. *)
Definition is_max (m : Z) (l : list Z) : Prop :=
  In m l /\ forall x, In x l -> x <= m.

(** ** Nothing is removed *)

(** The list of elements the document holds under [K]. *)
Definition list_at (K : string) (doc : value) : list value :=
  match doc with
  | VDict d => match dict_get d K with Some (VList l) => l | _ => [] end
  | _ => []
  end.

(** Every cell of [cs] is in [cs'] where it was, with the fields it had,
    its text apart. *)
Definition cells_kept (cs cs' : list value) : Prop :=
  forall j c, nth_error cs j = Some c ->
  exists c', nth_error cs' j = Some c' /\
    forall key, key <> "text" -> cell_field c' key = cell_field c key.

(** The element [b'] has the fields of [b], its cells apart, and keeps
    the cells of [b]. *)
Definition element_kept (b b' : value) : Prop :=
  (forall key, key <> "cells" -> cell_field b' key = cell_field b key)
  /\ cells_kept (cells_of b) (cells_of b').

(** Every element of every list of [doc] is in [doc'] where it was, and
    so is every cell of it. *)
Definition document_kept (doc doc' : value) : Prop :=
  forall K i b, nth_error (list_at K doc) i = Some b ->
  exists b', nth_error (list_at K doc') i = Some b' /\ element_kept b b'.

(** ** Observations for the scans *)

Definition is_dict (v : value) : bool :=
  match v with
  | VDict _ => true
  | _ => false
  end.

(** An element the field reader passes over: a record that is not a
    field with the label. *)
Definition passed_over (lbl : string) (b : value) : bool :=
  is_dict b && negb (is_field_labelled lbl b).

(** ** Grouping, for any cells *)

(** The key a cell is grouped under: what [cell.get("row", 0)] gives. *)
Definition row_key (c : value) : value :=
  match c with
  | VDict d => match dict_get d "row" with Some v => v | None => VInt 0 end
  | _ => VInt 0
  end.

(** A cell the grouping accepts: a record whose row can be a dict key. *)
Definition groupable (c : value) : bool :=
  is_dict c && hashable (row_key c).

(** The cell belongs to the group of key [k]. *)
Definition in_group (k c : value) : bool := py_eq k (row_key c).

(** The keys of a list, each at its first occurrence, equal keys being
    those Python takes for equal. *)
Fixpoint distinct_keys (l : list value) : list value :=
  match l with
  | [] => []
  | x :: l' => x :: filter (fun y => negb (py_eq x y)) (distinct_keys l')
  end.

(** One group per key, holding the cells of that key in table order. *)
Definition rows_of (cs : list value) : rows_dict :=
  map (fun k => (k, filter (in_group k) cs)) (distinct_keys (map row_key cs)).

(** No two keys of the list are equal. *)
Fixpoint distinct (l : list value) : bool :=
  match l with
  | [] => true
  | x :: l' => forallb (fun y => negb (py_eq x y)) l' && distinct l'
  end.

(** ** Computations that print nothing *)

Definition quiet {A} (m : M A) : Prop :=
  forall s, stdout (snd (m s)) = stdout s.

(** ** The cells the copy operation adds *)

(** Row [k] has a cell of the target column. *)
Definition has_target (k : Z) (cs : list value) : bool :=
  existsb
    (fun c => on_row k c
              && py_eq (cell_field c "label") (VStr "line_item_start_date"))
    cs.

(** Row [k] is above the header and has no cell of the target column. *)
Definition wants_cell (cs : list value) (k : Z) : bool :=
  (0 <? k) && negb (has_target k cs).

(** The rows the copy operation has to give a cell, in first-seen
    order. *)
Definition rows_to_fill (cs : list value) : list Z :=
  filter (wants_cell cs) (first_seen (map row_z cs)).

(** One new cell of the target column for each row of [ks], from the
    clock reading [n] on, each in the column after the last one its row
    has in [cs]. *)
Fixpoint stamped_cells (ks : list Z) (n : nat) (cs : list value)
  (v : value) : list value :=
  match ks with
  | [] => []
  | k :: ks' =>
      new_cell (VStr "line_item_start_date") (VInt k)
        (VFloat (time_time n))
        (VInt (fold_left Z.max (row_cols k cs) 0 + 1)) v
      :: stamped_cells ks' (S n) cs v
  end.

(** A cell as it was, or with [v] as its text. *)
Definition kept_or_written (v : value) (c c' : value) : Prop :=
  c' = c \/ c' = py_setitem c "text" v.

(** ** The batch on documents of the data model *)

(** The text of the invoice date of a document, empty when it has
    none. *)
Definition field_text (doc : value) : value :=
  match field_element "invoice_date" doc with
  | Some b => ocr_text b
  | None => VStr ""
  end.

(** The output after a batch: one warning, latest first, for each
    document whose invoice date counts as false. *)
Definition warnings (docs : list value) (out : list line) : list line :=
  fold_left
    (fun o d => if truthy (field_text d) then o
                else Warning_field_not_found :: o)
    docs out.

(** ** The document, read without the script *)

(** The key of the authoritative list: [moderated_boxes] when the
    document holds under it a value that counts as true, and
    [predicted_boxes] otherwise. *)
Definition authoritative_key (doc : value) : string :=
  match doc with
  | VDict d =>
      match dict_get d "moderated_boxes" with
      | Some m => if truthy m then "moderated_boxes" else "predicted_boxes"
      | None => "predicted_boxes"
      end
  | _ => "predicted_boxes"
  end.

(** The authoritative list of a document. *)
Definition authoritative_list (doc : value) : list value :=
  list_at (authoritative_key doc) doc.

(** An element of type table. *)
Definition is_table (b : value) : bool :=
  py_eq (cell_field b "type") (VStr "table").

(** The position of the first item of a list that satisfies [p]. *)
Fixpoint first_index (p : value -> bool) (l : list value) : option nat :=
  match l with
  | [] => None
  | x :: l' => if p x then Some O else option_map S (first_index p l')
  end.

(** The first table element of the authoritative list. *)
Definition first_table (doc : value) : option value :=
  find is_table (authoritative_list doc).

(** * Properties *)

(** ** Dicts and lists *)

Lemma dict_get_set_eq (d : dict) (k : string) (v : value) :
  dict_get (dict_set d k v) k = Some v.
Proof.
  induction d as [|[k' v'] d IH]; simpl.
  - now rewrite String.eqb_refl.
  - destruct (String.eqb k' k) eqn:E; simpl; rewrite E; auto.
Qed.

Lemma dict_get_set_ne (d : dict) (k k' : string) (v : value) :
  k <> k' -> dict_get (dict_set d k v) k' = dict_get d k'.
Proof.
  intros Hne. induction d as [|[k0 v0] d IH]; simpl.
  - destruct (String.eqb k k') eqn:E; auto.
    apply String.eqb_eq in E. contradiction.
  - destruct (String.eqb k0 k) eqn:E; simpl.
    + apply String.eqb_eq in E. subst k0.
      destruct (String.eqb k k') eqn:E'; auto.
      apply String.eqb_eq in E'. contradiction.
    + now rewrite IH.
Qed.

Lemma dict_set_same (d : dict) (k : string) (v : value) :
  dict_get d k = Some v -> dict_set d k v = d.
Proof.
  induction d as [|[k' v'] d IH]; simpl; [discriminate|].
  destruct (String.eqb k' k) eqn:E; intros H.
  - now inversion H.
  - now rewrite IH.
Qed.

Lemma dict_set_twice (d : dict) (k : string) (v w : value) :
  dict_set (dict_set d k v) k w = dict_set d k w.
Proof.
  induction d as [|[k' v'] d IH]; simpl.
  - now rewrite String.eqb_refl.
  - destruct (String.eqb k' k) eqn:E; simpl; rewrite E; auto.
    now rewrite IH.
Qed.

Lemma update_nth_length {A} (i : nat) (f : A -> A) (l : list A) :
  List.length (update_nth i f l) = List.length l.
Proof.
  revert i. induction l as [|x l IH]; intros [|i]; simpl; auto.
Qed.

Lemma nth_update_nth_eq {A} (i : nat) (f : A -> A) (l : list A) (a : A) :
  (i < List.length l)%nat -> nth i (update_nth i f l) a = f (nth i l a).
Proof.
  revert i. induction l as [|x l IH]; intros [|i]; simpl; intros H;
    try lia; auto.
  apply IH. lia.
Qed.

Lemma nth_update_nth_ne {A} (i j : nat) (f : A -> A) (l : list A) (a : A) :
  i <> j -> nth j (update_nth i f l) a = nth j l a.
Proof.
  revert i j. induction l as [|x l IH]; intros [|i] [|j]; simpl; intros H;
    auto; try congruence.
Qed.

Lemma update_nth_ext {A} (i : nat) (f g : A -> A) (l : list A) (a : A) :
  f (nth i l a) = g (nth i l a) -> update_nth i f l = update_nth i g l.
Proof.
  revert i. induction l as [|x l IH]; intros [|i]; simpl; intros H; auto.
  - now rewrite H.
  - now rewrite (IH i H).
Qed.

Lemma update_nth_same {A} (i : nat) (f : A -> A) (l : list A) (a : A) :
  f (nth i l a) = nth i l a -> update_nth i f l = l.
Proof.
  revert i. induction l as [|x l IH]; intros [|i]; simpl; intros H; auto.
  - now rewrite H.
  - now rewrite (IH i H).
Qed.

Lemma update_nth_twice {A} (i : nat) (f g : A -> A) (l : list A) :
  update_nth i g (update_nth i f l) = update_nth i (fun x => g (f x)) l.
Proof.
  revert i. induction l as [|x l IH]; intros [|i]; simpl; auto.
  now rewrite IH.
Qed.

(** ** Python equality and order *)

Lemma py_eq_str_r (v : value) (s : string) :
  py_eq v (VStr s) = true -> v = VStr s.
Proof.
  destruct v; simpl; try discriminate.
  intros H. apply String.eqb_eq in H. now subst.
Qed.

(** ** Finding the table *)

Lemma select_boxes_inv (doc : value) (K : string) (bs : value) :
  select_boxes doc = Ok (K, bs) ->
  exists d, doc = VDict d /\
    ((K = "moderated_boxes" /\
      truthy (match dict_get d "moderated_boxes" with
              | Some v => v | None => VNone end) = true) \/
     (K = "predicted_boxes" /\
      truthy (match dict_get d "moderated_boxes" with
              | Some v => v | None => VNone end) = false)) /\
    bs = match dict_get d K with Some v => v | None => VList [] end.
Proof.
  unfold select_boxes. destruct doc; simpl; try discriminate.
  intros H. exists d. split; [reflexivity|].
  destruct (truthy _) eqn:T; simpl in H; inversion H; subst; auto.
Qed.

Lemma find_table_loop_some (l : list value) (j k : nat) :
  find_table_loop l j = Ok (Some k) ->
  exists i t, k = (j + i)%nat /\ (i < List.length l)%nat /\
    nth i l VNone = VDict t /\ dict_get t "type" = Some (VStr "table").
Proof.
  revert j. induction l as [|x l IH]; simpl; intros j H; [discriminate|].
  destruct x; simpl in H; try discriminate.
  destruct (py_eq _ (VStr "table")) eqn:E.
  - inversion H; subst. exists 0%nat, d. repeat split; try lia.
    apply py_eq_str_r in E. destruct (dict_get d "type"); congruence.
  - apply IH in H. destruct H as (i & t & -> & Hi & Hn & Ht).
    exists (S i), t. repeat split; auto; lia.
Qed.

Lemma find_table_loop_update (f : value -> value) (l : list value)
  (i j : nat) :
  find_table_loop l j = Ok (Some (j + i)%nat) ->
  (forall t, nth i l VNone = VDict t ->
     exists t', f (VDict t) = VDict t' /\
       dict_get t' "type" = dict_get t "type") ->
  find_table_loop (update_nth i f l) j = Ok (Some (j + i)%nat).
Proof.
  revert i j. induction l as [|x l IH]; intros i j H Hf;
    [discriminate|].
  simpl in H. destruct x; simpl in H; try discriminate.
  destruct (py_eq _ (VStr "table")) eqn:E.
  - inversion H as [Hj]. assert (i = 0%nat) by lia. subst i. simpl.
    destruct (Hf d eq_refl) as (t' & -> & Ht'). simpl.
    rewrite Ht', E. now rewrite Nat.add_0_r.
  - destruct i as [|i].
    + apply find_table_loop_some in H. destruct H as (? & ? & ? & _). lia.
    + simpl. rewrite E.
      replace (j + S i)%nat with (S j + i)%nat in * by lia.
      apply IH; auto.
Qed.

Lemma find_table_loop_none_app (l : list value) (t : dict) (j : nat) :
  find_table_loop l j = Ok None ->
  dict_get t "type" = Some (VStr "table") ->
  find_table_loop (l ++ [VDict t]) j = Ok (Some (j + List.length l)%nat).
Proof.
  revert j. induction l as [|x l IH]; simpl; intros j H Ht.
  - rewrite Ht. simpl. now rewrite Nat.add_0_r.
  - destruct x; simpl in *; try discriminate.
    destruct (py_eq _ (VStr "table")); [discriminate|].
    rewrite IH; auto. f_equal. f_equal. lia.
Qed.

Lemma get_field_value_loop_update (f : value -> value) (l : list value)
  (i : nat) (t t' : dict) (lbl : value) :
  nth i l VNone = VDict t ->
  dict_get t "type" = Some (VStr "table") ->
  f (VDict t) = VDict t' ->
  dict_get t' "type" = Some (VStr "table") ->
  get_field_value_loop (update_nth i f l) lbl = get_field_value_loop l lbl.
Proof.
  revert i. induction l as [|x l IH]; intros [|i] Hn Ht Hf Ht'; simpl in *;
    auto.
  - subst x. rewrite Hf. simpl. now rewrite Ht, Ht'.
  - rewrite (IH i); auto.
Qed.

Lemma get_field_value_loop_app (l : list value) (t : dict) (lbl : value) :
  dict_get t "type" = Some (VStr "table") ->
  get_field_value_loop (l ++ [VDict t]) lbl = get_field_value_loop l lbl.
Proof.
  intros Ht. induction l as [|x l IH]; simpl.
  - now rewrite Ht.
  - now rewrite IH.
Qed.

Lemma find_table_inv (doc : value) (r : ref) :
  find_table doc = Ok (Some r) ->
  exists d l t, doc = VDict d /\
    dict_get d (ref_key r) = Some (VList l) /\
    select_boxes doc = Ok (ref_key r, VList l) /\
    find_table_loop l 0 = Ok (Some (ref_idx r)) /\
    (ref_idx r < List.length l)%nat /\
    nth (ref_idx r) l VNone = VDict t /\
    dict_get t "type" = Some (VStr "table").
Proof.
  unfold find_table. intros H.
  destruct (select_boxes doc) as [[K bs]|] eqn:S; simpl in H;
    [|discriminate].
  destruct (py_iter bs) as [items|] eqn:I; simpl in H; [|discriminate].
  destruct (find_table_loop items 0) as [[i|]|] eqn:F; simpl in H;
    try discriminate.
  inversion H; subst r; simpl. clear H.
  destruct (find_table_loop_some _ _ _ F) as (i' & t & Hi & Hlt & Hn & Ht).
  simpl in Hi. subst i'.
  destruct (select_boxes_inv _ _ _ S) as (d & -> & HK & Hbs).
  assert (exists l, bs = VList l) as [l ->].
  { destruct bs; simpl in I; try discriminate; eauto.
    - inversion I; subst items.
      match type of Hn with nth _ ?m _ = _ =>
        destruct (nth_in_or_default i m VNone) as [Hin|Hd]; [|congruence]
      end.
      apply in_map_iff in Hin. destruct Hin as (c & Hc & _). congruence.
    - inversion I; subst items.
      rewrite length_map in Hlt.
      destruct (nth_in_or_default i (map (fun kv => VStr (fst kv)) d0) VNone)
        as [Hin|Hd]; [|congruence].
      apply in_map_iff in Hin. destruct Hin as (kv & Hkv & _). congruence. }
  simpl in I. inversion I; subst items.
  exists d, l, t. repeat split; auto.
  destruct (dict_get d K) as [v|] eqn:G.
  - now subst v.
  - inversion Hbs; subst l. simpl in Hlt. lia.
Qed.

Lemma find_table_some (doc : value) (r : ref) :
  find_table doc = Ok (Some r) -> exists t, table_at doc r t.
Proof.
  intros H. destruct (find_table_inv _ _ H) as (d & l & t & -> & G & _ & _ & _ & N & _).
  exists t. split; auto. unfold load. now rewrite G.
Qed.

(** ** Replacing the cells of the table *)

Lemma select_boxes_replace (d : dict) (K : string) (l l' : list value) :
  select_boxes (VDict d) = Ok (K, VList l) ->
  dict_get d K = Some (VList l) ->
  (l <> [] -> l' <> []) ->
  select_boxes (VDict (dict_set d K (VList l'))) = Ok (K, VList l').
Proof.
  intros S G Hne.
  destruct (select_boxes_inv _ _ _ S) as (d0 & E & HK & _).
  inversion E; subst d0; clear E.
  unfold select_boxes. simpl.
  destruct HK as [[-> T]|[-> T]].
  - rewrite G in T. rewrite dict_get_set_eq.
    assert (truthy (VList l') = true) as ->.
    { destruct l; simpl in T; [discriminate|].
      destruct l'; simpl; auto. exfalso. now apply Hne. }
    reflexivity.
  - rewrite dict_get_set_ne by discriminate. rewrite T. simpl.
    now rewrite dict_get_set_eq.
Qed.

Lemma update_ext (r : ref) (f g : value -> value) (doc : value) :
  f (load r doc) = g (load r doc) -> update r f doc = update r g doc.
Proof.
  unfold update, load. destruct doc; auto.
  destruct (dict_get d (ref_key r)) as [[]|]; auto.
  intros H. now rewrite (update_nth_ext _ f g _ VNone H).
Qed.

Lemma update_twice (r : ref) (f g : value -> value) (doc : value) :
  update r g (update r f doc) = update r (fun x => g (f x)) doc.
Proof.
  unfold update. destruct doc; auto.
  destruct (dict_get d (ref_key r)) as [[]|] eqn:G; try now rewrite G.
  rewrite dict_get_set_eq, dict_set_twice, update_nth_twice. reflexivity.
Qed.

Lemma update_same (r : ref) (f : value -> value) (doc : value) :
  f (load r doc) = load r doc -> update r f doc = doc.
Proof.
  unfold update, load. destruct doc; auto.
  destruct (dict_get d (ref_key r)) as [[]|] eqn:G; auto.
  intros H. rewrite (update_nth_same _ f _ VNone H).
  now rewrite dict_set_same.
Qed.

Lemma update_at (F : value -> value) (doc : value) (r : ref) (t : dict)
  (cs : list value) :
  load r doc = VDict t ->
  F (VDict t) = VDict (dict_set t "cells" (VList cs)) ->
  update r F doc = with_cells r cs doc.
Proof.
  intros L HF. unfold with_cells. apply update_ext. now rewrite L, HF.
Qed.

Lemma with_cells_twice (r : ref) (cs1 cs2 : list value) (doc : value) :
  with_cells r cs2 (with_cells r cs1 doc) = with_cells r cs2 doc.
Proof.
  unfold with_cells. rewrite update_twice. apply update_ext.
  destruct (load r doc); simpl; auto. now rewrite dict_set_twice.
Qed.

Lemma with_cells_same (doc : value) (r : ref) (t : dict) (cs : list value) :
  load r doc = VDict t ->
  dict_get t "cells" = Some (VList cs) ->
  with_cells r cs doc = doc.
Proof.
  intros L G. unfold with_cells. apply update_same. rewrite L. simpl.
  now rewrite dict_set_same.
Qed.

Lemma with_cells_table_at (doc : value) (r : ref) (t : dict)
  (cs : list value) :
  table_at doc r t ->
  table_at (with_cells r cs doc) r (dict_set t "cells" (VList cs)).
Proof.
  intros [F L].
  destruct (find_table_inv _ _ F) as (d & l & t0 & -> & G & S & FL & Hlt & N & Ty).
  unfold load in L. rewrite G, N in L. inversion L; subst t0; clear L.
  unfold with_cells, update. rewrite G.
  set (l' := update_nth _ _ l).
  assert (S' : select_boxes (VDict (dict_set d (ref_key r) (VList l')))
               = Ok (ref_key r, VList l')).
  { apply select_boxes_replace with (l := l); auto.
    subst l'. intros Hl E. apply Hl.
    apply (f_equal (@List.length _)) in E. rewrite update_nth_length in E.
    now destruct l. }
  split.
  - unfold find_table. rewrite S'. simpl. subst l'.
    change (ref_idx r) with (0 + ref_idx r)%nat.
    rewrite find_table_loop_update; simpl; auto.
    + now destruct r.
    + intros t' Ht'. rewrite N in Ht'. inversion Ht'; subst t'.
      eexists. split; [reflexivity|]. now rewrite dict_get_set_ne.
  - unfold load. rewrite dict_get_set_eq. subst l'.
    rewrite nth_update_nth_eq by auto. now rewrite N.
Qed.

Lemma with_cells_field (doc : value) (r : ref) (t : dict)
  (cs : list value) (lbl : value) :
  table_at doc r t ->
  get_field_value (with_cells r cs doc) lbl = get_field_value doc lbl.
Proof.
  intros [F L].
  destruct (find_table_inv _ _ F) as (d & l & t0 & -> & G & S & FL & Hlt & N & Ty).
  unfold with_cells, update. rewrite G.
  set (l' := update_nth _ _ l).
  assert (S' : select_boxes (VDict (dict_set d (ref_key r) (VList l')))
               = Ok (ref_key r, VList l')).
  { apply select_boxes_replace with (l := l); auto.
    subst l'. intros Hl E. apply Hl.
    apply (f_equal (@List.length _)) in E. rewrite update_nth_length in E.
    now destruct l. }
  unfold get_field_value. rewrite S, S'. simpl. subst l'.
  apply get_field_value_loop_update with (t := t0)
    (t' := dict_set t0 "cells" (VList cs)); auto.
  now rewrite dict_get_set_ne.
Qed.

Lemma with_cells_cells (doc : value) (r : ref) (t : dict)
  (cs : list value) :
  table_at doc r t -> the_cells (with_cells r cs doc) = cs.
Proof.
  intros H. destruct (with_cells_table_at _ _ _ cs H) as [F L].
  unfold the_cells. rewrite F, L. simpl. now rewrite dict_get_set_eq.
Qed.

(** ** The script on a document with a table *)

Lemma find_or_create_table_found (doc : value) (r : ref) (n : nat)
  (out : list line) :
  find_table doc = Ok (Some r) ->
  find_or_create_table (mkState doc n out) = (Ok r, mkState doc n out).
Proof.
  intros F. unfold find_or_create_table, bind, get_document, lift. simpl.
  now rewrite F.
Qed.

Lemma set_cell_value_sim (doc : value) (r : ref) (t : dict)
  (cs : list value) (row_idx label val : value) (n : nat) (out : list line) :
  table_at doc r t ->
  dict_get t "cells" = Some (VList cs) ->
  set_cell_value row_idx label val (mkState doc n out) =
  (fst (cell_write row_idx label val n cs),
   mkState (with_cells r (fst (snd (cell_write row_idx label val n cs))) doc)
     (snd (snd (cell_write row_idx label val n cs))) out).
Proof.
  intros [F L] G.
  pose proof (with_cells_same _ _ _ _ L G) as Same.
  unfold set_cell_value, bind at 1.
  rewrite (find_or_create_table_found _ _ _ _ F).
  unfold cell_write, table_cells, set_cell_text, append_cell, bind,
    get_document, lift, modify_document, py_time, ret. simpl.
  rewrite L. simpl. rewrite G. simpl.
  destruct (find_cell_loop cs row_idx label 0) as [[j|]|e]; simpl.
  - f_equal. f_equal. apply update_at with (t := t); auto.
    simpl. now rewrite G.
  - rewrite L. simpl. rewrite G. simpl.
    destruct (max_col_loop cs row_idx (VInt 0)) as [m|e]; simpl.
    + destruct (py_add m 1) as [col|e]; simpl.
      * rewrite L. simpl. rewrite G.
        f_equal. f_equal. apply update_at with (t := t); auto.
        simpl. now rewrite G.
      * now rewrite Same.
    + now rewrite Same.
  - now rewrite Same.
Qed.

Lemma copy_loop_sim (doc : value) (r : ref) (t : dict) (val : value)
  (out : list line) (keys : list value) :
  table_at doc r t ->
  forall (cs : list value) (n : nat),
  copy_loop keys val (mkState (with_cells r cs doc) n out) =
  (fst (rows_write keys val n cs),
   mkState (with_cells r (fst (snd (rows_write keys val n cs))) doc)
     (snd (snd (rows_write keys val n cs))) out).
Proof.
  intros T. induction keys as [|k keys IH]; intros cs n; simpl.
  - reflexivity.
  - unfold bind at 1. unfold lift at 1.
    destruct (py_gt k (VInt 0)) as [[|]|e]; simpl.
    + unfold bind at 1. unfold bind at 1.
      rewrite (set_cell_value_sim _ r (dict_set t "cells" (VList cs)) cs).
      * rewrite with_cells_twice.
        destruct (cell_write k (VStr "line_item_start_date") val n cs)
          as [[b|e] [cs' n']]; simpl; auto.
      * now apply with_cells_table_at.
      * apply dict_get_set_eq.
    + unfold bind at 1. unfold ret at 1. apply IH.
    + reflexivity.
Qed.

(** ** Creating the table *)

(** The document with the box [b] appended to the list under [K]. *)
Lemma appended_table_at (d : dict) (K : string) (l : list value) (t : dict) :
  find_table (VDict d) = Ok None ->
  select_boxes (VDict d) = Ok (K, VList l) ->
  dict_get d K = Some (VList l) ->
  dict_get t "type" = Some (VStr "table") ->
  table_at (VDict (dict_set d K (VList (l ++ [VDict t]))))
    (mkRef K (List.length l)) t.
Proof.
  intros F S G Ty.
  assert (FL : find_table_loop l 0 = Ok None).
  { unfold find_table in F. rewrite S in F. simpl in F.
    destruct (find_table_loop l 0) as [[i|]|]; simpl in F; congruence. }
  assert (S' : select_boxes (VDict (dict_set d K (VList (l ++ [VDict t]))))
               = Ok (K, VList (l ++ [VDict t]))).
  { apply select_boxes_replace with (l := l); auto.
    intros _ E. now destruct l. }
  split.
  - unfold find_table. rewrite S'. simpl.
    now rewrite (find_table_loop_none_app _ _ _ FL Ty).
  - unfold load. simpl. rewrite dict_get_set_eq.
    rewrite app_nth2 by lia. now rewrite Nat.sub_diag.
Qed.

Lemma appended_field (d : dict) (K : string) (l : list value) (t : dict)
  (lbl : value) :
  select_boxes (VDict d) = Ok (K, VList l) ->
  dict_get d K = Some (VList l) ->
  dict_get t "type" = Some (VStr "table") ->
  get_field_value (VDict (dict_set d K (VList (l ++ [VDict t])))) lbl
  = get_field_value (VDict d) lbl.
Proof.
  intros S G Ty.
  assert (S' : select_boxes (VDict (dict_set d K (VList (l ++ [VDict t]))))
               = Ok (K, VList (l ++ [VDict t]))).
  { apply select_boxes_replace with (l := l); auto.
    intros _ E. now destruct l. }
  unfold get_field_value. rewrite S, S'. simpl.
  now apply get_field_value_loop_app.
Qed.

(** What [find_or_create_table] does, whatever the clock shows: it finds
    the table and leaves the document as it is, or raises and leaves the
    document as it is, or appends a new table to the authoritative list. *)
Lemma find_or_create_table_effect (doc : value) :
  (exists r, find_table doc = Ok (Some r) /\
     forall n out,
     find_or_create_table (mkState doc n out) = (Ok r, mkState doc n out))
  \/ (forall n out, exists e n',
     find_or_create_table (mkState doc n out) = (Raise e, mkState doc n' out))
  \/ (exists d K l, doc = VDict d /\ find_table doc = Ok None /\
     select_boxes doc = Ok (K, VList l) /\ dict_get d K = Some (VList l) /\
     forall n out,
     find_or_create_table (mkState doc n out) =
     (Ok (mkRef K (List.length l)),
      mkState (VDict (dict_set d K
                 (VList (l ++ [new_table (VFloat (time_time n))]))))
        (S n) out)).
Proof.
  destruct (find_table doc) as [[r|]|e] eqn:F.
  - left. exists r. split; auto. intros. now apply find_or_create_table_found.
  - pose proof F as F'. unfold find_table in F'.
    destruct (select_boxes doc) as [[K bs]|] eqn:Sel; simpl in F';
      [|discriminate].
    destruct (select_boxes_inv _ _ _ Sel) as (d & -> & HK & Hbs).
    assert (A :
      (forall n out, exists e n',
          append_box K (new_table (VFloat (time_time n)))
            (mkState (VDict d) (S n) out) = (Raise e, mkState (VDict d) n' out))
      \/ (exists l, bs = VList l /\ dict_get d K = Some (VList l) /\
          forall n out,
          append_box K (new_table (VFloat (time_time n)))
            (mkState (VDict d) (S n) out) =
          (Ok (mkRef K (List.length l)),
           mkState (VDict (dict_set d K
                      (VList (l ++ [new_table (VFloat (time_time n))]))))
             (S n) out))).
    { unfold append_box, bind, get_document, lift,
        modify_document, ret, raise. simpl.
      destruct (dict_get d K) as [v|] eqn:G; [|left; eauto].
      subst bs. destruct v; try (left; eauto; fail).
      right. exists l. repeat split; auto. }
    assert (E : forall n out,
      find_or_create_table (mkState (VDict d) n out) =
      append_box K (new_table (VFloat (time_time n)))
        (mkState (VDict d) (S n) out)).
    { intros n out.
      unfold find_or_create_table, bind, get_document, lift, py_time.
      simpl. rewrite F. simpl.
      destruct HK as [[-> T]|[-> T]]; now rewrite T. }
    destruct A as [A|(l & -> & G & A)].
    + right. left. intros n out. rewrite E. apply A.
    + right. right. exists d, K, l. repeat split; auto.
      intros n out. rewrite E. apply A.
  - right. left. intros n out. exists e, n.
    unfold find_or_create_table, bind, get_document, lift. simpl.
    now rewrite F.
Qed.

Lemma new_table_dict (now : value) :
  exists t, new_table now = VDict t /\
    dict_get t "type" = Some (VStr "table") /\
    dict_get t "cells" = Some (VList []).
Proof. unfold new_table. eexists. split; [reflexivity|]. split; reflexivity. Qed.

(** ** Grouping *)

Lemma group_cells_by_row_nil_or_cells (t : dict) (rows : rows_dict) :
  group_cells_by_row (VDict t) = Ok rows ->
  rows = [] \/ exists cs, dict_get t "cells" = Some (VList cs).
Proof.
  unfold group_cells_by_row. destruct (truthy (VDict t)); simpl;
    [|intros H; inversion H; auto].
  destruct (dict_get t "cells") as [c|]; simpl;
    [|intros H; inversion H; auto].
  destruct c; simpl; try discriminate.
  - destruct s as [|a s]; simpl; [intros H; inversion H; auto|discriminate].
  - eauto.
  - destruct d as [|kv d]; simpl; [intros H; inversion H; auto|discriminate].
Qed.

(** ** The effect of the copy operation on the document *)

Lemma copy_body_falsy (doc : value) (n : nat) (out : list line) (v : value) :
  get_field_value doc (VStr "invoice_date") = Ok v ->
  truthy v = false ->
  copy_body (mkState doc n out) =
  (Ok tt, mkState doc n (Warning_field_not_found :: out)).
Proof.
  intros G T. unfold copy_body, bind, get_document, lift, print. simpl.
  rewrite G, T. reflexivity.
Qed.

Lemma copy_body_raise (doc : value) (n : nat) (out : list line) (e : exn) :
  get_field_value doc (VStr "invoice_date") = Raise e ->
  copy_body (mkState doc n out) = (Raise e, mkState doc n out).
Proof.
  intros G. unfold copy_body, bind, get_document, lift. simpl.
  now rewrite G.
Qed.

Lemma copy_body_table (doc : value) (r : ref) (t : dict) (n : nat)
  (out : list line) (v : value) :
  table_at doc r t ->
  get_field_value doc (VStr "invoice_date") = Ok v ->
  truthy v = true ->
  copy_body (mkState doc n out) =
  match group_cells_by_row (VDict t) with
  | Ok rows => copy_loop (map fst rows) v (mkState doc n out)
  | Raise e => (Raise e, mkState doc n out)
  end.
Proof.
  intros [F L] G T. unfold copy_body, bind, get_document, lift. simpl.
  rewrite G, T. simpl. rewrite (find_or_create_table_found _ _ _ _ F).
  simpl. rewrite L. reflexivity.
Qed.

Lemma group_cells_by_row_cells (t : dict) (cs : list value) :
  dict_get t "cells" = Some (VList cs) ->
  group_cells_by_row (VDict t) = group_cells_loop cs [].
Proof.
  intros G. unfold group_cells_by_row.
  destruct t; [discriminate|]. simpl in *. now rewrite G.
Qed.

Lemma copy_body_rewrite (doc : value) (r : ref) (t : dict)
  (cs : list value) (v : value) (rows : rows_dict) :
  table_at doc r t -> dict_get t "cells" = Some (VList cs) ->
  get_field_value doc (VStr "invoice_date") = Ok v ->
  truthy v = true ->
  group_cells_by_row (VDict t) = Ok rows ->
  forall n out,
  copy_body (mkState doc n out) =
  (fst (rows_write (map fst rows) v n cs),
   mkState
     (with_cells r (fst (snd (rows_write (map fst rows) v n cs))) doc)
     (snd (snd (rows_write (map fst rows) v n cs))) out).
Proof.
  intros Ta Gc G T Gr n out.
  rewrite (copy_body_table _ _ _ _ _ _ Ta G T), Gr.
  destruct Ta as [F' L].
  rewrite <- (with_cells_same _ _ _ _ L Gc) at 1.
  now rewrite (copy_loop_sim doc r t v out (map fst rows) (conj F' L)).
Qed.

(** The copy operation, whatever the clock shows, leaves the document as
    it is, or rewrites the cells of its table, or appends an empty table
    to it. *)
Lemma copy_body_effect (doc : value) :
  (forall n out, the_document (exec copy_body (mkState doc n out)) = doc)
  \/ (exists r t cs v rows,
        table_at doc r t /\ dict_get t "cells" = Some (VList cs) /\
        get_field_value doc (VStr "invoice_date") = Ok v /\
        truthy v = true /\
        group_cells_by_row (VDict t) = Ok rows /\
        forall n out,
        exec copy_body (mkState doc n out) =
        mkState
          (with_cells r (fst (snd (rows_write (map fst rows) v n cs))) doc)
          (snd (snd (rows_write (map fst rows) v n cs))) out)
  \/ (exists d K l v,
        doc = VDict d /\ find_table doc = Ok None /\
        select_boxes doc = Ok (K, VList l) /\
        dict_get d K = Some (VList l) /\
        get_field_value doc (VStr "invoice_date") = Ok v /\
        truthy v = true /\
        forall n out,
        exec copy_body (mkState doc n out) =
        mkState
          (VDict (dict_set d K
                    (VList (l ++ [new_table (VFloat (time_time n))]))))
          (S n) out).
Proof.
  unfold exec.
  destruct (get_field_value doc (VStr "invoice_date")) as [v|e] eqn:G.
  2:{ left. intros. now rewrite (copy_body_raise _ _ _ _ G). }
  destruct (truthy v) eqn:T.
  2:{ left. intros. now rewrite (copy_body_falsy _ _ _ _ G T). }
  destruct (find_or_create_table_effect doc)
    as [(r & F & E)|[E|(d & K & l & -> & F & Sel & Gk & E)]].
  - destruct (find_table_some _ _ F) as [t Ta].
    destruct (group_cells_by_row (VDict t)) as [rows|e] eqn:Gr.
    2:{ left. intros. rewrite (copy_body_table _ _ _ _ _ _ Ta G T).
        now rewrite Gr. }
    destruct (group_cells_by_row_nil_or_cells _ _ Gr) as [->|[cs Gc]].
    + left. intros. rewrite (copy_body_table _ _ _ _ _ _ Ta G T).
      now rewrite Gr.
    + right. left. exists r, t, cs, v, rows. repeat split; auto;
        try apply Ta.
      intros. now rewrite (copy_body_rewrite _ _ _ _ _ _ Ta Gc G T Gr).
  - left. intros. unfold copy_body, bind, get_document, lift. simpl.
    rewrite G, T. simpl. destruct (E n out) as (e & n' & ->). reflexivity.
  - right. right. exists d, K, l, v. repeat split; auto.
    intros n out.
    specialize (E n out).
    destruct (new_table_dict (VFloat (time_time n))) as (t & Et & Ty & Ce).
    rewrite Et in *.
    destruct (appended_table_at d K l t F Sel Gk Ty) as [_ L].
    unfold copy_body, bind, get_document, lift.
    cbn [the_document]. rewrite G. cbn [negb]. rewrite T. cbn [negb].
    rewrite E. cbn [the_document]. rewrite L.
    unfold group_cells_by_row, py_in, py_get.
    destruct t; [discriminate|]. cbn [truthy negb rbind].
    rewrite Ce. reflexivity.
Qed.

(** ** What the copy loop does to the cells *)

Lemma py_setitem_twice (c : value) (k : string) (v w : value) :
  py_setitem (py_setitem c k v) k w = py_setitem c k w.
Proof. destruct c; simpl; auto. now rewrite dict_set_twice. Qed.

Lemma cell_field_setitem_ne (c : value) (k k' : string) (v : value) :
  k <> k' -> cell_field (py_setitem c k v) k' = cell_field c k'.
Proof.
  intros H. destruct c; simpl; auto. now rewrite dict_get_set_ne.
Qed.

Lemma find_cell_loop_some (cs : list value) (row_idx label : value)
  (j0 j : nat) :
  find_cell_loop cs row_idx label j0 = Ok (Some j) ->
  exists i d, j = (j0 + i)%nat /\ (i < List.length cs)%nat /\
    nth i cs VNone = VDict d /\
    py_eq (cell_field (VDict d) "row") row_idx = true /\
    py_eq (cell_field (VDict d) "label") label = true.
Proof.
  revert j0. induction cs as [|c cs IH]; simpl; intros j0 H; [discriminate|].
  destruct c; simpl in H; try discriminate.
  assert (Next : find_cell_loop cs row_idx label (S j0) = Ok (Some j) ->
    exists i d0, j = (j0 + i)%nat /\ (i < S (List.length cs))%nat /\
      nth i (VDict d :: cs) VNone = VDict d0 /\
      py_eq (cell_field (VDict d0) "row") row_idx = true /\
      py_eq (cell_field (VDict d0) "label") label = true).
  { intros H'. apply IH in H'. destruct H' as (i & d0 & -> & Hi & Hn & Hr).
    exists (S i), d0. repeat split; try lia; tauto. }
  destruct (py_eq _ row_idx) eqn:Er; auto.
  destruct (py_eq _ label) eqn:El; auto.
  inversion H; subst j. exists 0%nat, d. simpl.
  repeat split; auto; lia.
Qed.

Lemma touched_trans (v c c1 c2 : value) :
  touched v c c1 -> touched v c1 c2 -> touched v c c2.
Proof.
  intros [->|[-> W]] [->|[-> W']]; unfold touched; auto.
  right. split; auto. apply py_setitem_twice.
Qed.

Lemma fresh_touched (keys : list value) (v c c' : value) :
  fresh keys v c -> touched v c c' -> fresh keys v c'.
Proof.
  intros F [->|[-> _]]; auto.
  destruct F as (k & now & col & Hin & Hk & ->). exists k, now, col.
  repeat split; auto.
Qed.

Lemma Forall2_touched_refl (v : value) (cs : list value) :
  Forall2 (touched v) cs cs.
Proof. induction cs; constructor; auto. now left. Qed.

Lemma Forall2_touched_trans (v : value) (l1 l2 l3 : list value) :
  Forall2 (touched v) l1 l2 -> Forall2 (touched v) l2 l3 ->
  Forall2 (touched v) l1 l3.
Proof.
  intros H. revert l3. induction H; intros l3 H3; inversion H3; subst;
    constructor; eauto using touched_trans.
Qed.

Lemma Forall_fresh_touched (keys : list value) (v : value)
  (l l' : list value) :
  Forall (fresh keys v) l -> Forall2 (touched v) l l' ->
  Forall (fresh keys v) l'.
Proof.
  intros H H2. induction H2; inversion H; subst; constructor;
    eauto using fresh_touched.
Qed.

Lemma rewritten_refl (keys : list value) (v : value) (cs : list value) :
  rewritten keys v cs cs.
Proof.
  exists cs, []. rewrite app_nil_r. split; auto.
  split; [apply Forall2_touched_refl|constructor].
Qed.

Lemma rewritten_trans (keys : list value) (v : value)
  (cs cs1 cs2 : list value) :
  rewritten keys v cs cs1 -> rewritten keys v cs1 cs2 ->
  rewritten keys v cs cs2.
Proof.
  intros (pre1 & ext1 & -> & T1 & F1) (pre2 & ext2 & -> & T2 & F2).
  apply Forall2_app_inv_l in T2.
  destruct T2 as (pa & pb & Ta & Tb & ->).
  exists pa, (pb ++ ext2). split; [now rewrite app_assoc|]. split.
  - eapply Forall2_touched_trans; eauto.
  - apply Forall_app. split; auto.
    now apply (Forall_fresh_touched keys v ext1).
Qed.

Lemma rewritten_mono (keys keys' : list value) (v : value)
  (cs cs' : list value) :
  incl keys keys' -> rewritten keys v cs cs' -> rewritten keys' v cs cs'.
Proof.
  intros I (pre & ext & -> & T & F). exists pre, ext. repeat split; auto.
  eapply Forall_impl; [|exact F].
  intros c (k & now & col & Hin & Hk & ->). exists k, now, col. auto.
Qed.

Lemma Forall2_touched_update (v : value) (cs : list value) (j : nat) :
  touched v (nth j cs VNone) (py_setitem (nth j cs VNone) "text" v) ->
  Forall2 (touched v) cs
    (update_nth j (fun cell => py_setitem cell "text" v) cs).
Proof.
  revert j. induction cs as [|c cs IH]; intros [|j] H; simpl in *;
    constructor; auto using Forall2_touched_refl. now left.
Qed.

Lemma cell_write_rewritten (k v : value) (n : nat) (cs : list value) :
  py_gt k (VInt 0) = Ok true ->
  rewritten [k] v cs
    (fst (snd (cell_write k (VStr "line_item_start_date") v n cs))).
Proof.
  intros Hk. unfold cell_write.
  destruct (find_cell_loop cs k _ 0) as [[j|]|e] eqn:F; simpl.
  - destruct (find_cell_loop_some _ _ _ _ _ F) as (i & d & Hj & Hi & Hn & Hr & Hl).
    simpl in Hj. subst i.
    exists (update_nth j (fun cell => py_setitem cell "text" v) cs), [].
    rewrite app_nil_r. split; auto. split; [|constructor].
    apply Forall2_touched_update. right. split; auto.
    exists k. rewrite Hn. auto.
  - destruct (max_col_loop cs k (VInt 0)) as [m|e]; simpl;
      [|apply rewritten_refl].
    destruct (py_add m 1) as [col|e]; simpl; [|apply rewritten_refl].
    eexists cs, [_]. split; [reflexivity|].
    split; [apply Forall2_touched_refl|].
    constructor; [|constructor].
    exists k, (VFloat (time_time n)), col. simpl. auto.
  - apply rewritten_refl.
Qed.

Lemma rows_write_rewritten (keys : list value) (v : value) :
  forall (n : nat) (cs : list value),
  rewritten keys v cs (fst (snd (rows_write keys v n cs))).
Proof.
  induction keys as [|k keys IH]; intros n cs; simpl.
  - apply rewritten_refl.
  - assert (I1 : incl [k] (k :: keys)) by (intros x [->|[]]; now left).
    assert (I2 : incl keys (k :: keys)) by (intros x Hx; now right).
    destruct (py_gt k (VInt 0)) as [[|]|e] eqn:Hk; simpl.
    + pose proof (cell_write_rewritten k v n cs Hk) as W.
      destruct (cell_write k _ v n cs) as [[b|e] [cs' n']]; simpl in *.
      * apply rewritten_trans with (cs1 := cs').
        -- now apply (rewritten_mono [k]).
        -- apply (rewritten_mono keys); auto.
      * now apply (rewritten_mono [k]).
    + apply (rewritten_mono keys); auto.
    + apply rewritten_refl.
Qed.

(** ** Running the copy loop again *)

Lemma Qeq_bool_refl' (q : Q) : Qeq_bool q q = true.
Proof. apply Qeq_bool_iff. reflexivity. Qed.

(** A row index above the header is a number, and equal to itself. *)
Lemma py_gt_pos_refl (k : value) :
  py_gt k (VInt 0) = Ok true -> py_eq k k = true.
Proof.
  destruct k; simpl; try discriminate; intros _.
  - apply Qeq_bool_refl'.
  - apply Z.eqb_refl.
  - apply Qeq_bool_refl'.
Qed.

Lemma touched_py_get (v c c' : value) (key : string) (dflt : value) :
  touched v c c' -> key <> "text" -> py_get c' key dflt = py_get c key dflt.
Proof.
  intros [->|[-> _]] Hk; auto.
  destruct c; simpl; auto. now rewrite dict_get_set_ne by congruence.
Qed.

Lemma find_cell_loop_touched (v : value) (cs cs' : list value)
  (k label : value) :
  Forall2 (touched v) cs cs' ->
  forall j, find_cell_loop cs' k label j = find_cell_loop cs k label j.
Proof.
  induction 1 as [|c c' cs cs' T _ IH]; intros j; simpl; auto.
  rewrite (touched_py_get v c c' "row" VNone T) by discriminate.
  rewrite (touched_py_get v c c' "label" VNone T) by discriminate.
  now rewrite !IH.
Qed.

Lemma find_cell_loop_app (cs ext : list value) (k label : value) :
  forall j,
  find_cell_loop (cs ++ ext) k label j =
  match find_cell_loop cs k label j with
  | Ok None => find_cell_loop ext k label (j + List.length cs)
  | r => r
  end.
Proof.
  induction cs as [|c cs IH]; intros j; simpl.
  - now rewrite Nat.add_0_r.
  - destruct (py_get c "row" VNone) as [r|e]; simpl; auto.
    replace (j + S (List.length cs))%nat with (S j + List.length cs)%nat
      by lia.
    destruct (py_eq r k); auto.
    destruct (py_get c "label" VNone) as [l|e]; simpl; auto.
    destruct (py_eq l label); auto.
Qed.

Lemma settled_write (v k : value) (cs : list value) (n : nat) :
  settled v k cs ->
  cell_write k (VStr "line_item_start_date") v n cs
  = (Ok (VBool true), (cs, n)).
Proof.
  intros (j & d & F & N & Tx). unfold cell_write. rewrite F.
  rewrite (update_nth_same j _ cs VNone); auto.
  rewrite N. simpl. now rewrite dict_set_same.
Qed.

Lemma cell_write_settles (v k : value) (cs cs' : list value) (n n' : nat)
  (b : value) :
  py_gt k (VInt 0) = Ok true ->
  cell_write k (VStr "line_item_start_date") v n cs = (Ok b, (cs', n')) ->
  settled v k cs'.
Proof.
  intros Hk. unfold cell_write.
  destruct (find_cell_loop cs k _ 0) as [[j|]|e] eqn:F; try discriminate.
  - intros H. inversion H; subst; clear H.
    destruct (find_cell_loop_some _ _ _ _ _ F) as (i & d & Hj & Hi & Hn & Hr & Hl).
    simpl in Hj. subst i.
    exists j, (dict_set d "text" v). repeat split.
    + rewrite (find_cell_loop_touched v cs); auto.
      apply Forall2_touched_update. right. split; auto.
      exists k. rewrite Hn. auto.
    + rewrite nth_update_nth_eq by auto. now rewrite Hn.
    + apply dict_get_set_eq.
  - destruct (max_col_loop cs k (VInt 0)) as [m|e]; try discriminate.
    destruct (py_add m 1) as [col|e]; try discriminate.
    intros H. inversion H; subst; clear H.
    eexists (List.length cs), _. repeat split.
    + rewrite find_cell_loop_app, F. simpl.
      now rewrite (py_gt_pos_refl k Hk).
    + rewrite app_nth2 by lia. rewrite Nat.sub_diag. reflexivity.
    + reflexivity.
Qed.

Lemma settled_rewritten (keys : list value) (v k : value)
  (cs cs' : list value) :
  settled v k cs -> rewritten keys v cs cs' -> settled v k cs'.
Proof.
  intros (j & d & F & N & Tx) (pre & ext & -> & T & _).
  destruct (find_cell_loop_some _ _ _ _ _ F) as (i & d0 & Hj & Hi & _).
  simpl in Hj. subst i.
  assert (Hlen : List.length pre = List.length cs)
    by (symmetry; eapply Forall2_length; eauto).
  assert (Tj : touched v (nth j cs VNone) (nth j pre VNone)).
  { clear - T Hi. revert j Hi. induction T; intros [|j] Hj; simpl in *;
      try lia; auto. apply IHT. lia. }
  rewrite N in Tj.
  exists j, (dict_set d "text" v). repeat split.
  - rewrite find_cell_loop_app, (find_cell_loop_touched v cs pre _ _ T), F.
    reflexivity.
  - rewrite app_nth1 by lia.
    destruct Tj as [->|[-> _]]; simpl; auto. now rewrite dict_set_same.
  - apply dict_get_set_eq.
Qed.

Lemma cell_write_raise (k label v : value) (n n1 : nat)
  (cs cs1 : list value) (e : exn) :
  cell_write k label v n cs = (Raise e, (cs1, n1)) ->
  cs1 = cs /\
  forall n2, exists n3, cell_write k label v n2 cs = (Raise e, (cs, n3)).
Proof.
  unfold cell_write.
  destruct (find_cell_loop cs k label 0) as [[j|]|e0]; try discriminate.
  - destruct (max_col_loop cs k (VInt 0)) as [m|e0].
    + destruct (py_add m 1) as [col|e0]; try discriminate.
      intros H. inversion H; subst. split; eauto.
    + intros H. inversion H; subst. split; eauto.
  - intros H. inversion H; subst. split; eauto.
Qed.

(** The loop run again on the cells it has left returns the same and
    leaves them as they are. *)
Lemma rows_write_again (v : value) (keys : list value) :
  forall (n n1 : nat) (cs cs' : list value) (res : result unit),
  rows_write keys v n cs = (res, (cs', n1)) ->
  forall n2, exists n3, rows_write keys v n2 cs' = (res, (cs', n3)).
Proof.
  induction keys as [|k keys IH]; intros n n1 cs cs' res H n2; simpl in *.
  - inversion H; subst. eauto.
  - destruct (py_gt k (VInt 0)) as [[|]|e] eqn:Hk.
    + destruct (cell_write k _ v n cs) as [[b|e] [cs_a n_a]] eqn:W.
      * assert (St : settled v k cs').
        { apply (settled_rewritten keys v k cs_a).
          - eapply cell_write_settles; eauto.
          - pose proof (rows_write_rewritten keys v n_a cs_a) as R.
            now rewrite H in R. }
        rewrite (settled_write v k cs' n2 St).
        eapply IH; eauto.
      * inversion H; subst.
        destruct (cell_write_raise _ _ _ _ _ _ _ _ W) as [-> Again].
        destruct (Again n2) as [n3 ->]. eauto.
    + eapply IH; eauto.
    + inversion H; subst. eauto.
Qed.

(** ** Grouping the cells the loop has left *)

Lemma rows_mem_keys (rows rows' : rows_dict) (k : value) :
  map fst rows = map fst rows' -> rows_mem rows k = rows_mem rows' k.
Proof.
  revert rows'. induction rows as [|[k1 b1] rows IH];
    intros [|[k2 b2] rows'] H; simpl in *; try discriminate; auto.
  inversion H; subst. now rewrite (IH rows').
Qed.

Lemma rows_append_keys (rows : rows_dict) (k c : value) :
  map fst (rows_append rows k c) = map fst rows.
Proof.
  induction rows as [|[k1 b1] rows IH]; simpl; auto.
  destruct (py_eq k1 k); simpl; auto. now rewrite IH.
Qed.

Lemma rows_mem_in (rows : rows_dict) (k : value) :
  In k (map fst rows) -> py_eq k k = true -> rows_mem rows k = true.
Proof.
  intros Hin Hk. induction rows as [|[k1 b1] rows IH]; simpl in *;
    [contradiction|].
  destruct Hin as [->|Hin].
  - now rewrite Hk.
  - rewrite IH; auto. apply orb_true_r.
Qed.

Lemma group_cells_loop_touched (v : value) (cs pre : list value) :
  Forall2 (touched v) cs pre ->
  forall rows rows', map fst rows = map fst rows' ->
  keys_of (group_cells_loop pre rows') = keys_of (group_cells_loop cs rows).
Proof.
  induction 1 as [|c c' cs pre T _ IH]; intros rows rows' E; simpl.
  - now rewrite E.
  - rewrite (touched_py_get v c c' "row" (VInt 0) T) by discriminate.
    destruct (py_get c "row" (VInt 0)) as [k|e]; simpl; auto.
    unfold rows_lacks. rewrite (rows_mem_keys rows rows' k E).
    destruct (hashable k); simpl; auto.
    apply IH. rewrite !rows_append_keys.
    destruct (negb (rows_mem rows' k)); auto.
    rewrite !map_app. now rewrite E.
Qed.

Lemma group_cells_loop_app (cs ext : list value) :
  forall rows,
  group_cells_loop (cs ++ ext) rows =
  rbind (group_cells_loop cs rows) (group_cells_loop ext).
Proof.
  induction cs as [|c cs IH]; intros rows; simpl; auto.
  destruct (py_get c "row" (VInt 0)) as [k|e]; simpl; auto.
  destruct (rows_lacks rows k) as [b|e]; simpl; auto.
Qed.

Lemma group_cells_loop_fresh (keys : list value) (v : value)
  (ext : list value) :
  Forall (fresh keys v) ext ->
  forall rows,
  incl keys (map fst rows) ->
  exists rows', group_cells_loop ext rows = Ok rows' /\
    map fst rows' = map fst rows.
Proof.
  induction 1 as [|c ext Fc _ IH]; intros rows I; simpl; eauto.
  destruct Fc as (k & now & col & Hin & Hk & ->). simpl.
  assert (M : rows_mem rows k = true).
  { apply rows_mem_in; auto. now apply py_gt_pos_refl. }
  assert (Hh : hashable k = true) by (destruct k; simpl in *; auto; discriminate).
  unfold rows_lacks. rewrite Hh, M. simpl.
  destruct (IH (rows_append rows k
    (new_cell (VStr "line_item_start_date") k now col v))) as (rows' & E & Ek).
  - now rewrite rows_append_keys.
  - exists rows'. split; auto. now rewrite Ek, rows_append_keys.
Qed.

Lemma group_cells_loop_rewritten (v : value) (cs cs' : list value)
  (rows : rows_dict) :
  group_cells_loop cs [] = Ok rows ->
  rewritten (map fst rows) v cs cs' ->
  exists rows', group_cells_loop cs' [] = Ok rows' /\
    map fst rows' = map fst rows.
Proof.
  intros G (pre & ext & -> & T & F).
  pose proof (group_cells_loop_touched v cs pre T [] [] eq_refl) as K.
  rewrite G in K. simpl in K.
  destruct (group_cells_loop pre []) as [rows1|e] eqn:G1; simpl in K;
    [|discriminate].
  inversion K as [K1].
  rewrite group_cells_loop_app, G1. simpl.
  destruct (group_cells_loop_fresh (map fst rows) v ext F rows1)
    as (rows' & E & Ek).
  - rewrite K1. apply incl_refl.
  - exists rows'. split; auto; congruence.
Qed.

(** ** The copy operation and its [try] block *)

(** The operation returns the document it leaves and never raises; the
    document is the one its [try] block leaves. *)
Lemma copy_returns_document (s : state) :
  fst (copy_invoice_date_to_line_items s)
  = Ok (the_document (exec copy_body s))
  /\ the_document (exec copy_invoice_date_to_line_items s)
    = the_document (exec copy_body s)
  /\ ticks (exec copy_invoice_date_to_line_items s)
    = ticks (exec copy_body s).
Proof.
  unfold copy_invoice_date_to_line_items, exec, bind, try_except,
    get_document, print.
  destruct (copy_body s) as [[[]|e] s']; simpl; auto.
Qed.

(** ** Running the copy operation twice *)

Lemma copy_body_twice (doc : value) (n n2 : nat) (out out2 : list line) :
  let doc1 := the_document (exec copy_body (mkState doc n out)) in
  the_document (exec copy_body (mkState doc1 n2 out2)) = doc1.
Proof.
  intros doc1. subst doc1.
  destruct (copy_body_effect doc)
    as [U|[(r & t & cs & v & rows & Ta & Gc & G & T & Gr & E)
          |(d & K & l & v & -> & F & Sel & Gk & G & T & E)]].
  - now rewrite !U.
  - rewrite E. cbn [the_document].
    set (cs1 := fst (snd (rows_write (map fst rows) v n cs))).
    assert (R : rewritten (map fst rows) v cs cs1)
      by apply rows_write_rewritten.
    rewrite (group_cells_by_row_cells _ _ Gc) in Gr.
    destruct (group_cells_loop_rewritten v cs cs1 rows Gr R)
      as (rows' & Gr' & Ek).
    pose proof (with_cells_table_at _ _ _ cs1 Ta) as Ta1.
    assert (Gc1 : dict_get (dict_set t "cells" (VList cs1)) "cells"
                  = Some (VList cs1)) by apply dict_get_set_eq.
    rewrite <- (group_cells_by_row_cells _ _ Gc1) in Gr'.
    assert (G1 : get_field_value (with_cells r cs1 doc) (VStr "invoice_date")
                 = Ok v) by now rewrite (with_cells_field _ _ _ _ _ Ta).
    unfold exec.
    rewrite (copy_body_rewrite _ _ _ _ _ _ Ta1 Gc1 G1 T Gr'). cbn [snd the_document].
    rewrite Ek.
    destruct (rows_write (map fst rows) v n cs) as [res [cs1' n1]] eqn:W.
    simpl in cs1. subst cs1.
    destruct (rows_write_again v (map fst rows) _ _ _ _ _ W n2) as [n3 ->].
    simpl. apply with_cells_twice.
  - rewrite E. cbn [the_document].
    destruct (new_table_dict (VFloat (time_time n))) as (t & Et & Ty & Ce).
    rewrite Et.
    pose proof (appended_table_at d K l t F Sel Gk Ty) as Ta.
    assert (G1 : get_field_value
                   (VDict (dict_set d K (VList (l ++ [VDict t]))))
                   (VStr "invoice_date") = Ok v)
      by now rewrite (appended_field d K l t _ Sel Gk Ty).
    assert (Gr : group_cells_by_row (VDict t) = Ok [])
      by now rewrite (group_cells_by_row_cells _ _ Ce).
    unfold exec.
    rewrite (copy_body_rewrite _ _ _ _ _ _ Ta Ce G1 T Gr). simpl.
    destruct Ta as [_ L]. apply (with_cells_same _ _ _ _ L Ce).
Qed.

(** ** At most one cell for a (row, label) pair *)

Lemma same_slot_touched_l (v c c' x : value) :
  touched v c c' -> same_slot c' x = same_slot c x.
Proof.
  intros [->|[-> _]]; auto. unfold same_slot.
  now rewrite !cell_field_setitem_ne by discriminate.
Qed.

Lemma same_slot_touched_r (v c c' x : value) :
  touched v c c' -> same_slot x c' = same_slot x c.
Proof.
  intros [->|[-> _]]; auto. unfold same_slot.
  now rewrite !cell_field_setitem_ne by discriminate.
Qed.

Lemma unique_slots_touched (v : value) (cs cs' : list value) :
  Forall2 (touched v) cs cs' -> unique_slots cs' = unique_slots cs.
Proof.
  induction 1 as [|c c' cs cs' T Ts IH]; simpl; auto.
  rewrite IH. f_equal.
  clear IH. induction Ts as [|x x' cs cs' Tx _ IH]; simpl; auto.
  rewrite IH. f_equal. f_equal.
  rewrite (same_slot_touched_l v c c' x' T).
  apply (same_slot_touched_r v x x' c Tx).
Qed.

Lemma unique_slots_snoc (cs : list value) (c : value) :
  unique_slots (cs ++ [c])
  = unique_slots cs && forallb (fun c' => negb (same_slot c' c)) cs.
Proof.
  induction cs as [|x cs IH]; simpl; auto.
  rewrite forallb_app, IH. simpl.
  destruct (forallb _ cs), (same_slot x c), (unique_slots cs);
    simpl; auto; now rewrite ?andb_false_r.
Qed.

Lemma find_cell_loop_none (cs : list value) (k label : value) :
  forall j, find_cell_loop cs k label j = Ok None ->
  forallb (fun c => negb (py_eq (cell_field c "row") k
                          && py_eq (cell_field c "label") label)) cs = true.
Proof.
  induction cs as [|c cs IH]; intros j H; [reflexivity|].
  cbn [forallb]. cbn [find_cell_loop] in H.
  destruct c; cbn [py_get rbind] in H; try discriminate.
  cbn [cell_field].
  destruct (py_eq match dict_get d "row" with
                  | Some v => v | None => VNone end k).
  - destruct (py_eq match dict_get d "label" with
                    | Some v => v | None => VNone end label);
      [discriminate|].
    cbn [andb negb]. now apply IH in H.
  - cbn [andb negb]. now apply IH in H.
Qed.

Lemma cell_write_unique (k v : value) (n : nat) (cs : list value) :
  py_gt k (VInt 0) = Ok true ->
  unique_slots cs = true ->
  unique_slots
    (fst (snd (cell_write k (VStr "line_item_start_date") v n cs))) = true.
Proof.
  intros Hk U. unfold cell_write.
  destruct (find_cell_loop cs k _ 0) as [[j|]|e] eqn:F; simpl; auto.
  - transitivity (unique_slots cs); [|exact U].
    apply (unique_slots_touched v).
    destruct (find_cell_loop_some _ _ _ _ _ F) as (i & d & Hj & Hi & Hn & Hr & Hl).
    simpl in Hj. subst i.
    apply Forall2_touched_update. right. split; auto.
    exists k. rewrite Hn. auto.
  - destruct (max_col_loop cs k (VInt 0)) as [m|e]; simpl; auto.
    destruct (py_add m 1) as [col|e]; simpl; auto.
    rewrite unique_slots_snoc, U. simpl.
    apply (find_cell_loop_none _ _ _ _ F).
Qed.

Lemma rows_write_unique (v : value) (keys : list value) :
  forall (n : nat) (cs : list value),
  unique_slots cs = true ->
  unique_slots (fst (snd (rows_write keys v n cs))) = true.
Proof.
  induction keys as [|k keys IH]; intros n cs U; simpl; auto.
  destruct (py_gt k (VInt 0)) as [[|]|e] eqn:Hk; simpl; auto.
  pose proof (cell_write_unique k v n cs Hk U) as W.
  destruct (cell_write k _ v n cs) as [[b|e] [cs' n']]; simpl in *; auto.
Qed.

(** The cells of the table after the [try] block. *)
Lemma copy_body_cells (doc : value) (n : nat) (out : list line) :
  the_cells (the_document (exec copy_body (mkState doc n out)))
  = the_cells doc
  \/ exists v keys,
       the_cells (the_document (exec copy_body (mkState doc n out)))
       = fst (snd (rows_write keys v n (the_cells doc))).
Proof.
  destruct (copy_body_effect doc)
    as [U|[(r & t & cs & v & rows & Ta & Gc & G & T & Gr & E)
          |(d & K & l & v & -> & F & Sel & Gk & G & T & E)]].
  - left. now rewrite U.
  - right. exists v, (map fst rows). rewrite E. cbn [the_document].
    rewrite (with_cells_cells _ _ _ _ Ta).
    destruct Ta as [F L]. unfold the_cells. rewrite F, L. simpl.
    now rewrite Gc.
  - left. rewrite E. cbn [the_document].
    destruct (new_table_dict (VFloat (time_time n))) as (t & Et & Ty & Ce).
    rewrite Et.
    destruct (appended_table_at d K l t F Sel Gk Ty) as [F' L].
    unfold the_cells. rewrite F', L, F. simpl. now rewrite Ce.
Qed.

(** ** Grouping the cells of a well-formed table *)

Lemma first_seen_in (l : list Z) (x : Z) : In x (first_seen l) <-> In x l.
Proof.
  induction l as [|a l IH]; simpl; [tauto|].
  rewrite filter_In, IH. split.
  - intros [H|[H _]]; auto.
  - intros [H|H]; auto.
    destruct (Z.eq_dec a x); auto. right. split; auto.
    apply negb_true_iff, Z.eqb_neq. congruence.
Qed.

Lemma first_seen_NoDup (l : list Z) : NoDup (first_seen l).
Proof.
  induction l as [|a l IH]; simpl; constructor.
  - rewrite filter_In. intros [_ H].
    now rewrite Z.eqb_refl in H.
  - now apply NoDup_filter.
Qed.

Lemma first_seen_snoc (l : list Z) (x : Z) :
  first_seen (l ++ [x])
  = if existsb (Z.eqb x) l then first_seen l else first_seen l ++ [x].
Proof.
  induction l as [|a l IH]; simpl; auto.
  rewrite IH. destruct (x =? a) eqn:E; simpl.
  - apply Z.eqb_eq in E. subst a.
    destruct (existsb (Z.eqb x) l); auto.
    rewrite filter_app. simpl. rewrite Z.eqb_refl. simpl.
    now rewrite app_nil_r.
  - destruct (existsb (Z.eqb x) l); auto.
    rewrite filter_app. simpl. now rewrite E.
Qed.

Lemma existsb_first_seen (l : list Z) (x : Z) :
  existsb (fun k => k =? x) (first_seen l) = existsb (Z.eqb x) l.
Proof.
  apply eq_true_iff_eq. rewrite !existsb_exists. split.
  - intros (k & Hin & E). apply Z.eqb_eq in E. subst k.
    exists x. rewrite first_seen_in in Hin. split; auto. apply Z.eqb_refl.
  - intros (k & Hin & E). apply Z.eqb_eq in E. subst k.
    exists x. rewrite first_seen_in. split; auto. apply Z.eqb_refl.
Qed.

Lemma is_cell_dict (c : value) :
  is_cell c = true -> exists d, c = VDict d.
Proof. destruct c; simpl; try discriminate. eauto. Qed.

Lemma is_cell_row (c : value) :
  is_cell c = true -> py_get c "row" (VInt 0) = Ok (VInt (row_z c)).
Proof.
  destruct c; simpl; try discriminate. unfold int_or_absent.
  destruct (dict_get d "row") as [[]|]; simpl; try discriminate; auto.
Qed.

Lemma rows_mem_map (B : Z -> list value) (ks : list Z) (k : Z) :
  rows_mem (map (fun k' => (VInt k', B k')) ks) (VInt k)
  = existsb (fun k' => k' =? k) ks.
Proof. induction ks as [|a ks IH]; simpl; auto. now rewrite IH. Qed.

Lemma rows_append_map (B : Z -> list value) (ks : list Z) (k : Z)
  (c : value) :
  NoDup ks ->
  rows_append (map (fun k' => (VInt k', B k')) ks) (VInt k) c
  = map (fun k' => (VInt k', if k' =? k then B k' ++ [c] else B k')) ks.
Proof.
  induction 1 as [|a ks Hn Hd IH]; simpl; auto.
  destruct (a =? k) eqn:E.
  - apply Z.eqb_eq in E. subst a. f_equal.
    apply map_ext_in. intros k' Hin.
    destruct (k' =? k) eqn:E'; auto.
    apply Z.eqb_eq in E'. now subst k'.
  - now rewrite IH.
Qed.

Lemma filter_row_none (cs : list value) (k : Z) :
  existsb (Z.eqb k) (map row_z cs) = false ->
  filter (fun c => row_z c =? k) cs = [].
Proof.
  induction cs as [|c cs IH]; simpl; auto.
  rewrite orb_false_iff. intros [E H]. rewrite Z.eqb_sym, E. auto.
Qed.

Lemma rows_spec_snoc (pre : list value) (c : value) :
  rows_append
    (if negb (rows_mem (rows_spec pre) (VInt (row_z c)))
     then rows_spec pre ++ [(VInt (row_z c), [])] else rows_spec pre)
    (VInt (row_z c)) c
  = rows_spec (pre ++ [c]).
Proof.
  set (k := row_z c).
  match goal with |- rows_append ?X _ _ = _ =>
    assert (R0 : X =
      map (fun k' => (VInt k', filter (fun c => row_z c =? k') pre))
        (first_seen (map row_z (pre ++ [c]))))
  end.
  { unfold rows_spec. rewrite rows_mem_map, existsb_first_seen.
    rewrite map_app. simpl. fold k. rewrite first_seen_snoc.
    destruct (existsb (Z.eqb k) (map row_z pre)) eqn:M; simpl; auto.
    rewrite map_app. simpl. now rewrite (filter_row_none _ _ M). }
  rewrite R0, rows_append_map by apply first_seen_NoDup.
  unfold rows_spec. apply map_ext. intros k'.
  rewrite filter_app. simpl. fold k. rewrite (Z.eqb_sym k k').
  destruct (k' =? k); auto. now rewrite app_nil_r.
Qed.

Lemma group_cells_loop_spec (cs : list value) :
  Forall (fun c => is_cell c = true) cs ->
  forall pre,
  group_cells_loop cs (rows_spec pre) = Ok (rows_spec (pre ++ cs)).
Proof.
  induction 1 as [|c cs Hc _ IH]; intros pre; simpl.
  - now rewrite app_nil_r.
  - rewrite (is_cell_row c Hc). simpl.
    rewrite rows_spec_snoc, IH. now rewrite <- app_assoc.
Qed.

Lemma first_seen_nonempty (cs : list value) (k : Z) :
  In k (first_seen (map row_z cs)) ->
  filter (fun c => row_z c =? k) cs <> [].
Proof.
  rewrite first_seen_in, in_map_iff. intros (c & E & Hin) Hnil.
  assert (In c (filter (fun c => row_z c =? k) cs)).
  { apply filter_In. split; auto. now apply Z.eqb_eq. }
  rewrite Hnil in H. contradiction.
Qed.

Lemma NoDup_map_VInt (l : list Z) : NoDup l -> NoDup (map VInt l).
Proof.
  induction 1 as [|x l Hn _ IH]; simpl; constructor; auto.
  rewrite in_map_iff. intros (y & E & Hin). inversion E; subst. contradiction.
Qed.

Lemma forallb_true_Forall {A} (f : A -> bool) (l : list A) :
  forallb f l = true -> Forall (fun x => f x = true) l.
Proof. intros H. apply Forall_forall. now apply forallb_forall. Qed.

Lemma group_cells_by_row_no_cells (t : dict) :
  dict_get t "cells" = None -> group_cells_by_row (VDict t) = Ok [].
Proof.
  intros G. unfold group_cells_by_row.
  destruct (truthy (VDict t)); simpl; auto. now rewrite G.
Qed.

Lemma group_cells_by_row_typed (t : dict) (cs : list value) :
  dict_get t "cells" = Some (VList cs) ->
  Forall (fun c => is_cell c = true) cs ->
  group_cells_by_row (VDict t) = Ok (rows_spec cs).
Proof.
  intros G Ty. rewrite (group_cells_by_row_cells _ _ G).
  apply (group_cells_loop_spec cs Ty []).
Qed.

(** C8. For a table whose cells follow the data model, [group_cells_by_row]
    returns the mapping of the specification: its keys are exactly the row
    indices some cell carries (a cell without a row counts for row 0), in
    first-seen order and without repetition; each key is bound to the
    cells of that row in the order of the table, never to an empty list.
    For a falsy table, and for a table without [cells], it returns the
    empty mapping. In none of these cases does it raise. *)
Theorem group_cells_by_row_spec :
  (forall table, truthy table = false -> group_cells_by_row table = Ok [])
  /\ (forall t, dict_get t "cells" = None ->
        group_cells_by_row (VDict t) = Ok [])
  /\ (forall t cs,
        dict_get t "cells" = Some (VList cs) ->
        Forall (fun c => is_cell c = true) cs ->
        group_cells_by_row (VDict t) = Ok (rows_spec cs)
        /\ (forall k, In (VInt k) (map fst (rows_spec cs))
                      <-> exists c, In c cs /\ row_z c = k)
        /\ NoDup (map fst (rows_spec cs))
        /\ (forall k b, In (k, b) (rows_spec cs) -> b <> [])).
Proof.
  split; [|split].
  - intros table T. unfold group_cells_by_row. now rewrite T.
  - apply group_cells_by_row_no_cells.
  - intros t cs G Ty. split; [|split; [|split]].
    + now apply group_cells_by_row_typed.
    + intros k. unfold rows_spec. rewrite map_map. simpl.
      rewrite in_map_iff. split.
      * intros (k' & E & Hin). inversion E; subst k'.
        apply first_seen_in, in_map_iff in Hin.
        destruct Hin as (c & E' & Hin). eauto.
      * intros (c & Hin & E). exists k. split; auto.
        apply first_seen_in, in_map_iff. eauto.
    + unfold rows_spec. rewrite map_map. simpl.
      apply NoDup_map_VInt, first_seen_NoDup.
    + unfold rows_spec. intros k b Hin. apply in_map_iff in Hin.
      destruct Hin as (k' & E & Hin). inversion E; subst.
      now apply first_seen_nonempty.
Qed.

(** ** Writing into a well-formed table *)

Lemma is_cell_setitem_text (c v : value) :
  is_cell (py_setitem c "text" v) = is_cell c.
Proof.
  destruct c; simpl; auto. unfold int_or_absent.
  now rewrite !dict_get_set_ne by discriminate.
Qed.

Lemma find_cell_loop_typed (cs : list value) (k label : value) :
  Forall (fun c => is_cell c = true) cs ->
  forall j, exists o, find_cell_loop cs k label j = Ok o.
Proof.
  induction 1 as [|c cs Hc _ IH]; intros j; simpl; eauto.
  destruct (is_cell_dict c Hc) as [d ->]. simpl.
  destruct (py_eq _ k); auto. destruct (py_eq _ label); eauto.
Qed.

Lemma on_row_typed (c : value) (k : Z) :
  is_cell c = true ->
  py_get c "row" VNone = Ok (cell_field c "row") /\
  py_get c "col" (VInt 0) = Ok (VInt (col_z c)).
Proof.
  destruct c; simpl; try discriminate. unfold int_or_absent.
  intros H. apply andb_true_iff in H. destruct H as [_ H]. split; auto.
  destruct (dict_get d "col") as [[]|]; try discriminate; auto.
Qed.

Lemma max_col_loop_typed (cs : list value) (k : Z) :
  Forall (fun c => is_cell c = true) cs ->
  forall m,
  max_col_loop cs (VInt k) (VInt m)
  = Ok (VInt (fold_left Z.max (row_cols k cs) m)).
Proof.
  induction 1 as [|c cs Hc _ IH]; intros m; simpl; auto.
  destruct (on_row_typed c k Hc) as [-> ->]. simpl.
  unfold row_cols. simpl. unfold on_row at 1.
  destruct (py_eq (cell_field c "row") (VInt k)); simpl; auto.
  unfold py_max. simpl.
  replace (if m <? col_z c then VInt (col_z c) else VInt m)
    with (VInt (Z.max m (col_z c))).
  - apply IH.
  - destruct (Z.ltb_spec m (col_z c)); f_equal; lia.
Qed.

Lemma cell_write_typed (k : Z) (label v : value) (n : nat)
  (cs : list value) :
  Forall (fun c => is_cell c = true) cs ->
  exists cs' n',
    cell_write (VInt k) label v n cs = (Ok (VBool true), (cs', n')) /\
    Forall (fun c => is_cell c = true) cs'.
Proof.
  intros Ty. unfold cell_write.
  destruct (find_cell_loop_typed cs (VInt k) label Ty 0) as [[j|] ->].
  - eexists _, _. split; [reflexivity|].
    clear - Ty. revert j. induction Ty as [|c cs Hc Hcs IH]; intros [|j];
      simpl; constructor; auto. now rewrite is_cell_setitem_text.
  - rewrite (max_col_loop_typed cs k Ty 0). simpl.
    eexists _, _. split; [reflexivity|].
    apply Forall_app. split; auto.
Qed.

Lemma rows_write_typed (v : value) (ks : list Z) :
  forall (n : nat) (cs : list value),
  Forall (fun c => is_cell c = true) cs ->
  exists cs' n',
    rows_write (map VInt ks) v n cs = (Ok tt, (cs', n')) /\
    Forall (fun c => is_cell c = true) cs'.
Proof.
  induction ks as [|k ks IH]; intros n cs Ty; simpl; eauto.
  destruct (0 <? k); auto.
  destruct (cell_write_typed k (VStr "line_item_start_date") v n cs Ty)
    as (cs1 & n1 & -> & Ty1). auto.
Qed.

(** Once the loop has returned, every row above the header is settled. *)
Lemma rows_write_settled (v : value) (keys : list value) :
  forall (n n' : nat) (cs cs' : list value),
  rows_write keys v n cs = (Ok tt, (cs', n')) ->
  forall k, In k keys -> py_gt k (VInt 0) = Ok true -> settled v k cs'.
Proof.
  induction keys as [|k0 keys IH]; intros n n' cs cs' H k Hin Hk;
    simpl in *; [contradiction|].
  destruct (py_gt k0 (VInt 0)) as [[|]|e] eqn:Hk0; try discriminate.
  - destruct (cell_write k0 _ v n cs) as [[b|e] [cs1 n1]] eqn:W;
      try discriminate.
    destruct Hin as [->|Hin]; [|eapply IH; eauto].
    apply (settled_rewritten keys v k cs1).
    + eapply cell_write_settles; eauto.
    + pose proof (rows_write_rewritten keys v n1 cs1) as R.
      now rewrite H in R.
  - destruct Hin as [->|Hin]; [congruence|eapply IH; eauto].
Qed.

(** ** Well-formed documents *)

Lemma is_element_dict (b : value) :
  is_element b = true -> exists t, b = VDict t.
Proof. destruct b; simpl; try discriminate. eauto. Qed.

Lemma is_element_cells (t : dict) :
  is_element (VDict t) = true ->
  Forall (fun c => is_cell c = true) (cells_of (VDict t)) /\
  (dict_get t "cells" = None \/
   dict_get t "cells" = Some (VList (cells_of (VDict t)))).
Proof.
  simpl. destruct (dict_get t "cells") as [[]|]; try discriminate; auto.
  intros H. split; auto. now apply forallb_true_Forall.
Qed.

Lemma is_document_inv (doc : value) :
  is_document doc = true ->
  exists d K l, doc = VDict d /\
    select_boxes doc = Ok (K, VList l) /\
    Forall (fun b => is_element b = true) l /\
    (dict_get d K = Some (VList l) \/ (dict_get d K = None /\ l = [])).
Proof.
  destruct doc; simpl; try discriminate. intros H.
  apply andb_true_iff in H. destruct H as [Hm Hp].
  assert (L : forall K, is_element_list (dict_get d K) = true ->
    exists l, match dict_get d K with Some v => v | None => VList [] end
              = VList l /\
      Forall (fun b => is_element b = true) l /\
      (dict_get d K = Some (VList l) \/ (dict_get d K = None /\ l = []))).
  { intros K HK. destruct (dict_get d K) as [[]|]; simpl in HK;
      try discriminate.
    - exists l. repeat split; auto.
      now apply forallb_true_Forall.
    - exists []. repeat split; auto. }
  unfold select_boxes. simpl.
  destruct (truthy _).
  - destruct (L _ Hm) as (l & E & F & G). simpl. rewrite E.
    exists d, "moderated_boxes", l. auto.
  - destruct (L _ Hp) as (l & E & F & G). simpl. rewrite E.
    exists d, "predicted_boxes", l. auto.
Qed.

Lemma find_table_loop_typed (l : list value) :
  Forall (fun b => is_element b = true) l ->
  forall j, exists o, find_table_loop l j = Ok o.
Proof.
  induction 1 as [|b l Hb _ IH]; intros j; simpl; eauto.
  destruct (is_element_dict b Hb) as [t ->]. simpl.
  destruct (py_eq _ (VStr "table")); eauto.
Qed.

(** A well-formed document has no table, or has a well-formed table. *)
Lemma is_document_table (doc : value) :
  is_document doc = true ->
  find_table doc = Ok None \/
  exists r t, table_at doc r t /\ is_element (VDict t) = true.
Proof.
  intros H. destruct (is_document_inv doc H) as (d & K & l & -> & Sel & Ty & G).
  destruct (find_table_loop_typed l Ty 0) as [[i|] F].
  - right.
    assert (F' : find_table (VDict d) = Ok (Some (mkRef K i))).
    { unfold find_table. rewrite Sel. simpl. now rewrite F. }
    destruct (find_table_some _ _ F') as [t Ta].
    exists (mkRef K i), t. split; auto.
    destruct (find_table_inv _ _ F') as (d0 & l0 & t0 & E & G0 & Sel0 & _ & Hlt & N & _).
    inversion E; subst d0. simpl in *.
    rewrite Sel in Sel0. inversion Sel0; subst l0.
    destruct Ta as [_ L]. unfold load in L. simpl in *. rewrite G0 in L.
    change (is_element (VDict t) = true).
    rewrite <- L. rewrite Forall_forall in Ty. apply Ty. now apply nth_In.
  - left. unfold find_table. rewrite Sel. simpl. now rewrite F.
Qed.

(** ** The field reader *)

Lemma get_field_value_loop_find (l : list value) (lbl : string) (v : value) :
  get_field_value_loop l (VStr lbl) = Ok v ->
  v = match find (is_field_labelled lbl) l with
      | Some b => ocr_text b
      | None => VStr ""
      end.
Proof.
  induction l as [|b l IH]; simpl; intros H; [now inversion H|].
  destruct b; simpl in H; try discriminate.
  unfold is_field_labelled at 1. cbn [cell_field].
  destruct (py_eq _ (VStr "field")); simpl; auto.
  destruct (py_eq _ (VStr lbl)); simpl; auto.
  now inversion H.
Qed.

Lemma get_field_value_loop_typed (l : list value) (lbl : value) :
  Forall (fun b => is_element b = true) l ->
  exists v, get_field_value_loop l lbl = Ok v.
Proof.
  induction 1 as [|b l Hb _ IH]; simpl; eauto.
  destruct (is_element_dict b Hb) as [t ->]. simpl.
  destruct (py_eq _ (VStr "field")); auto.
  destruct (py_eq _ lbl); eauto.
Qed.

(** What the field reader returns is the text of the field element, or
    the empty string when there is none. *)
Lemma get_field_value_find (doc : value) (lbl : string) (v : value) :
  get_field_value doc (VStr lbl) = Ok v ->
  v = match field_element lbl doc with
      | Some b => ocr_text b
      | None => VStr ""
      end.
Proof.
  unfold get_field_value, field_element, elements.
  destruct (select_boxes doc) as [[K bs]|]; simpl; [|discriminate].
  destruct bs; simpl; try discriminate.
  - destruct s as [|a s]; simpl; [|discriminate]. intros H. now inversion H.
  - apply get_field_value_loop_find.
  - destruct d as [|kv d]; simpl; [|discriminate]. intros H. now inversion H.
Qed.

Lemma get_field_value_typed (doc : value) (lbl : string) :
  is_document doc = true ->
  get_field_value doc (VStr lbl)
  = Ok match field_element lbl doc with
       | Some b => ocr_text b
       | None => VStr ""
       end.
Proof.
  intros H. destruct (is_document_inv doc H) as (d & K & l & -> & Sel & Ty & G).
  destruct (get_field_value_loop_typed l (VStr lbl) Ty) as [v E].
  assert (E' : get_field_value (VDict d) (VStr lbl) = Ok v).
  { unfold get_field_value. rewrite Sel. simpl. exact E. }
  rewrite E'. f_equal. now apply get_field_value_find.
Qed.

(** ** The copy operation on a well-formed document *)

Lemma copy_body_no_table (doc : value) (n : nat) (out : list line) :
  find_table doc = Ok None ->
  the_cells doc = [] /\
  the_cells (the_document (exec copy_body (mkState doc n out))) = [].
Proof.
  intros F. assert (C : the_cells doc = [])
    by (unfold the_cells; now rewrite F).
  split; auto.
  destruct (copy_body_cells doc n out) as [->|(v & keys & E)]; auto.
  destruct (copy_body_effect doc)
    as [U|[(r & t & cs & v' & rows & [F' _] & _)
          |(d & K & l & v' & -> & _ & Sel & Gk & G & T & E')]].
  - now rewrite U.
  - congruence.
  - rewrite E'. cbn [the_document].
    destruct (new_table_dict (VFloat (time_time n))) as (t & Et & Ty & Ce).
    rewrite Et.
    destruct (appended_table_at d K l t F Sel Gk Ty) as [F' L].
    unfold the_cells. rewrite F', L. simpl. now rewrite Ce.
Qed.

Lemma copy_body_typed (doc : value) (n : nat) (out : list line) (v : value) :
  is_document doc = true ->
  get_field_value doc (VStr "invoice_date") = Ok v ->
  truthy v = true ->
  Forall (fun c => is_cell c = true) (the_cells doc) /\
  exists cs' n',
    rows_write (map VInt (first_seen (map row_z (the_cells doc)))) v n
      (the_cells doc) = (Ok tt, (cs', n')) /\
    the_cells (the_document (exec copy_body (mkState doc n out))) = cs' /\
    Forall (fun c => is_cell c = true) cs'.
Proof.
  intros D G T.
  destruct (is_document_table doc D) as [F|(r & t & Ta & El)].
  - destruct (copy_body_no_table doc n out F) as [-> ->]. simpl.
    split; [constructor|]. exists [], n. repeat split; constructor.
  - destruct (is_element_cells t El) as [Ty Gc].
    assert (C : the_cells doc = cells_of (VDict t)).
    { destruct Ta as [F L]. unfold the_cells. now rewrite F, L. }
    rewrite C. clear C. remember (cells_of (VDict t)) as cs eqn:Ecs.
    split; auto.
    destruct (rows_write_typed v (first_seen (map row_z cs)) n cs Ty)
      as (cs' & n' & W & Ty').
    exists cs', n'. repeat split; auto.
    assert (C : the_cells doc = cs).
    { destruct Ta as [F L]. unfold the_cells. now rewrite F, L. }
    destruct Gc as [Gc|Gc].
    + assert (N : cs = []) by (subst cs; simpl; now rewrite Gc).
      rewrite N in *. simpl in W. inversion W; subst cs' n'.
      unfold exec. rewrite (copy_body_table _ _ _ _ _ _ Ta G T).
      rewrite (group_cells_by_row_no_cells t Gc). simpl. now rewrite C.
    + pose proof (group_cells_by_row_typed t _ Gc Ty) as Gr.
      unfold exec. rewrite (copy_body_rewrite _ _ _ _ _ _ Ta Gc G T Gr).
      cbn [snd the_document]. rewrite (with_cells_cells _ _ _ _ Ta).
      unfold rows_spec. rewrite map_map. simpl.
      change (map (fun x : Z => VInt x)) with (map VInt).
      now rewrite W.
Qed.

(** ** The header row *)

Lemma py_gt_pos_num (k : value) :
  py_gt k (VInt 0) = Ok true -> exists q, num k = Some q /\ (0 < q)%Q.
Proof.
  destruct k; simpl; try discriminate; intros H; inversion H as [H'];
    eexists; split; try reflexivity.
  - apply negb_true_iff in H'. change (inject_Z 0) with 0%Q in H'.
    apply Qnot_le_lt. intros L.
    apply Qle_bool_iff in L. congruence.
  - apply Z.ltb_lt in H'. unfold Qlt. simpl. lia.
  - apply negb_true_iff in H'. change (inject_Z 0) with 0%Q in H'.
    apply Qnot_le_lt. intros L.
    apply Qle_bool_iff in L. congruence.
Qed.

Lemma py_eq_num (r k : value) (q : Q) :
  py_eq r k = true -> num k = Some q ->
  exists p, num r = Some p /\ (p == q)%Q.
Proof.
  intros E N.
  destruct k; simpl in N; try discriminate; inversion N; subst q; clear N;
    destruct r; simpl in E; try discriminate;
    try (eexists; split; [reflexivity|]; now apply Qeq_bool_iff).
  apply Z.eqb_eq in E. subst. eexists; split; reflexivity.
Qed.

Lemma py_eq_zero_num (r : value) (p : Q) :
  num r = Some p -> py_eq r (VInt 0) = Qeq_bool p 0.
Proof.
  destruct r; simpl; try discriminate; intros H; inversion H; subst; auto.
  unfold Qeq_bool. simpl. now rewrite Z.mul_1_r.
Qed.

(** A cell of a row above the header is not a header cell. *)
Lemma py_eq_pos_not_zero (r k : value) :
  py_gt k (VInt 0) = Ok true -> py_eq r k = true ->
  py_eq r (VInt 0) = false.
Proof.
  intros Hk E.
  destruct (py_gt_pos_num k Hk) as (q & N & Hq).
  destruct (py_eq_num r k q E N) as (p & Np & Hp).
  rewrite (py_eq_zero_num r p Np).
  destruct (Qeq_bool p 0) eqn:Z0; auto.
  apply Qeq_bool_iff in Z0. rewrite Z0 in Hp. rewrite <- Hp in Hq.
  exfalso. now apply (Qlt_irrefl 0).
Qed.

Lemma py_eq_none_pos (k : value) :
  py_gt k (VInt 0) = Ok true -> py_eq VNone k = false.
Proof. destruct k; simpl; auto; discriminate. Qed.

Lemma touched_header (v c c' : value) :
  touched v c c' ->
  is_header c' = is_header c /\ (is_header c = true -> c' = c).
Proof.
  intros [->|[-> (k & Hk & Er & _)]]; auto.
  destruct c; simpl; auto.
  unfold is_header. simpl. rewrite dict_get_set_ne by discriminate.
  split; auto. simpl in Er.
  destruct (dict_get d "row") as [r|].
  - rewrite (py_eq_pos_not_zero r k Hk Er). discriminate.
  - rewrite (py_eq_none_pos k Hk) in Er. discriminate.
Qed.

Lemma fresh_not_header (keys : list value) (v c : value) :
  fresh keys v c -> is_header c = false.
Proof.
  intros (k & now & col & _ & Hk & ->). unfold is_header. simpl.
  apply (py_eq_pos_not_zero k k Hk). now apply py_gt_pos_refl.
Qed.

Lemma rewritten_header (keys : list value) (v : value)
  (cs cs' : list value) :
  rewritten keys v cs cs' ->
  filter is_header cs' = filter is_header cs.
Proof.
  intros (pre & ext & -> & T & F). rewrite filter_app.
  assert (E : filter is_header ext = []).
  { induction F as [|c ext Hc _ IH]; simpl; auto.
    now rewrite (fresh_not_header keys v c Hc). }
  rewrite E, app_nil_r.
  induction T as [|c c' cs pre Tc _ IH]; simpl; auto.
  destruct (touched_header v c c' Tc) as [-> Same].
  destruct (is_header c) eqn:H; auto. now rewrite IH, Same.
Qed.

(** The cells of the table after the operation are the cells before it,
    rewritten by the copy loop. *)
Lemma copy_cells_rewritten (s : state) :
  exists keys v,
    rewritten keys v (the_cells (the_document s))
      (the_cells (the_document (exec copy_invoice_date_to_line_items s))).
Proof.
  destruct (copy_returns_document s) as (_ & -> & _).
  destruct s as [doc n out]. cbn [the_document].
  destruct (copy_body_cells doc n out) as [->|(v & keys & ->)].
  - exists [], VNone. apply rewritten_refl.
  - exists keys, v. apply rows_write_rewritten.
Qed.

(** C6. The copy operation never writes to row 0: the cells of the header
    row (row index 0, or no row index) are after the operation what they
    were before it, none modified and none added. *)
Theorem copy_keeps_header_row (s : state) :
  filter is_header
    (the_cells (the_document (exec copy_invoice_date_to_line_items s)))
  = filter is_header (the_cells (the_document s)).
Proof.
  destruct (copy_cells_rewritten s) as (keys & v & R).
  now apply (rewritten_header keys v).
Qed.

(** ** Cells without a row *)

Lemma touched_lacks_row (v c c' : value) :
  touched v c c' -> lacks_row c = true -> c' = c.
Proof.
  intros [->|[-> (k & Hk & Er & _)]] L; auto.
  destruct c; simpl in *; auto.
  destruct (dict_get d "row"); [discriminate|].
  rewrite (py_eq_none_pos k Hk) in Er. discriminate.
Qed.

Lemma rewritten_lacks_row (keys : list value) (v : value)
  (cs cs' : list value) (j : nat) (c : value) :
  rewritten keys v cs cs' ->
  nth_error cs j = Some c -> lacks_row c = true ->
  nth_error cs' j = Some c.
Proof.
  intros (pre & ext & -> & T & _) N L.
  revert j N. induction T as [|x x' cs pre Tx _ IH]; intros [|j] N;
    simpl in *; try discriminate.
  - inversion N; subst x. now rewrite (touched_lacks_row v c x' Tx L).
  - now apply IH.
Qed.

Lemma group_cells_loop_lacking (cs : list value) :
  Forall (fun c => lacks_row c = true) cs ->
  forall acc,
  group_cells_loop cs [(VInt 0, acc)] = Ok [(VInt 0, acc ++ cs)].
Proof.
  induction 1 as [|c cs Hc _ IH]; intros acc; simpl.
  - now rewrite app_nil_r.
  - destruct c; simpl in Hc; try discriminate. simpl.
    destruct (dict_get d "row"); [discriminate|]. simpl.
    rewrite IH. now rewrite <- app_assoc.
Qed.

Lemma group_cells_by_row_lacking (t : dict) (c : value) (cs : list value) :
  dict_get t "cells" = Some (VList (c :: cs)) ->
  Forall (fun c => lacks_row c = true) (c :: cs) ->
  group_cells_by_row (VDict t) = Ok [(VInt 0, c :: cs)].
Proof.
  intros G L. rewrite (group_cells_by_row_cells _ _ G).
  inversion L as [|c0 cs0 Hc Hcs]; subst. simpl.
  destruct c; simpl in Hc; try discriminate. simpl.
  destruct (dict_get d "row"); [discriminate|]. simpl.
  apply (group_cells_loop_lacking cs Hcs [VDict d]).
Qed.

Lemma lacks_row_z (c : value) : lacks_row c = true -> row_z c = 0.
Proof.
  destruct c; simpl; try discriminate.
  now destruct (dict_get d "row").
Qed.

(** C10. A cell without a [row] key is grouped under row index 0: in a
    well-formed table the entry of key 0 holds it, and a table all of
    whose cells lack the key has that one entry, so that no row index
    above 0 is enumerated. The copy operation treats such a cell as a
    header cell: it is after the operation where and what it was before
    it. *)
Theorem cell_without_row_is_header :
  (forall t cs c,
     dict_get t "cells" = Some (VList cs) ->
     Forall (fun c => is_cell c = true) cs ->
     In c cs -> lacks_row c = true ->
     exists rows b, group_cells_by_row (VDict t) = Ok rows /\
       In (VInt 0, b) rows /\ In c b)
  /\ (forall t c cs,
        dict_get t "cells" = Some (VList (c :: cs)) ->
        Forall (fun c => lacks_row c = true) (c :: cs) ->
        group_cells_by_row (VDict t) = Ok [(VInt 0, c :: cs)])
  /\ (forall s j c,
        nth_error (the_cells (the_document s)) j = Some c ->
        lacks_row c = true ->
        nth_error
          (the_cells (the_document (exec copy_invoice_date_to_line_items s)))
          j = Some c).
Proof.
  split; [|split].
  - intros t cs c G Ty Hin L.
    exists (rows_spec cs), (filter (fun c => row_z c =? 0) cs).
    split; [now apply group_cells_by_row_typed|]. split.
    + unfold rows_spec. apply in_map_iff. exists 0. split; auto.
      apply first_seen_in, in_map_iff. exists c. split; auto.
      now apply lacks_row_z.
    + apply filter_In. split; auto. now rewrite (lacks_row_z c L).
  - apply group_cells_by_row_lacking.
  - intros s j c N L.
    destruct (copy_cells_rewritten s) as (keys & v & R).
    now apply (rewritten_lacks_row keys v _ _ j c R).
Qed.

(** ** The invoice date in every data row *)

Lemma is_cell_on_row (c : value) (r : Z) :
  is_cell c = true ->
  py_eq (cell_field c "row") (VInt r) = true ->
  cell_field c "row" = VInt r.
Proof.
  destruct c; simpl; try discriminate. unfold int_or_absent.
  destruct (dict_get d "row") as [[]|]; simpl; try discriminate.
  intros _ E. apply Z.eqb_eq in E. now subst.
Qed.

Lemma cell_field_row_z (c : value) (r : Z) :
  cell_field c "row" = VInt r -> row_z c = r.
Proof.
  destruct c; simpl; try discriminate.
  destruct (dict_get d "row") as [[]|]; try discriminate.
  intros H. now inversion H.
Qed.

(** In a well-formed document whose invoice date has a non-empty text,
    the cells the script finds are filled: every row index above 0 has
    its cell, and the cells of row 0 are what they were. *)
Lemma copy_fills_cells (doc : value) (n : nat) (out : list line)
  (b : value) (text : string) :
  is_document doc = true ->
  field_element "invoice_date" doc = Some b ->
  ocr_text b = VStr text ->
  text <> "" ->
  let doc' :=
    the_document (exec copy_invoice_date_to_line_items (mkState doc n out)) in
  fst (copy_invoice_date_to_line_items (mkState doc n out)) = Ok doc'
  /\ (forall c r,
        In c (the_cells doc) -> cell_field c "row" = VInt r -> 0 < r ->
        exists c', In c' (the_cells doc') /\
          cell_field c' "row" = VInt r /\
          cell_field c' "label" = VStr "line_item_start_date" /\
          cell_field c' "text" = VStr text)
  /\ filter is_header (the_cells doc') = filter is_header (the_cells doc).
Proof.
  intros D Fe Ot Ne doc'.
  destruct (copy_returns_document (mkState doc n out)) as (Ret & Doc & _).
  split; [|split].
  - subst doc'. now rewrite Doc.
  - intros c r Hin Hr Hpos.
    assert (G : get_field_value doc (VStr "invoice_date") = Ok (VStr text))
      by now rewrite (get_field_value_typed doc _ D), Fe, Ot.
    assert (T : truthy (VStr text) = true).
    { simpl. apply negb_true_iff, String.eqb_neq. exact Ne. }
    destruct (copy_body_typed doc n out (VStr text) D G T)
      as (Ty & cs' & n' & W & C & Ty').
    subst doc'. rewrite Doc, C.
    assert (Hk : py_gt (VInt r) (VInt 0) = Ok true)
      by (simpl; f_equal; now apply Z.ltb_lt).
    assert (Hin' : In (VInt r)
                     (map VInt (first_seen (map row_z (the_cells doc))))).
    { apply in_map, first_seen_in, in_map_iff. exists c. split; auto.
      now apply cell_field_row_z. }
    destruct (rows_write_settled _ _ _ _ _ _ W _ Hin' Hk)
      as (j & d & F & N & Tx).
    destruct (find_cell_loop_some _ _ _ _ _ F)
      as (i & d0 & Hj & Hi & Hn & Er & El).
    simpl in Hj. subst i. rewrite N in Hn. inversion Hn; subst d0.
    exists (VDict d). repeat split.
    + rewrite <- N. now apply nth_In.
    + apply is_cell_on_row; auto.
      rewrite Forall_forall in Ty'. apply Ty'. rewrite <- N.
      now apply nth_In.
    + now apply py_eq_str_r.
    + simpl. now rewrite Tx.
  - destruct (copy_cells_rewritten (mkState doc n out)) as (keys & v & R).
    now apply (rewritten_header keys v).
Qed.

(** ** A document without an invoice date *)

(** C4. When the invoice_date field is absent, or its text is the empty
    string, the copy operation returns the document and leaves it as it
    is: no table is created, no cell is added, nothing is modified. *)
Theorem copy_without_invoice_date (s : state) :
  field_element "invoice_date" (the_document s) = None
  \/ (exists b, field_element "invoice_date" (the_document s) = Some b /\
        ocr_text b = VStr "") ->
  fst (copy_invoice_date_to_line_items s) = Ok (the_document s)
  /\ the_document (exec copy_invoice_date_to_line_items s) = the_document s
  /\ ticks (exec copy_invoice_date_to_line_items s) = ticks s.
Proof.
  intros H.
  assert (B : the_document (exec copy_body s) = the_document s /\
              ticks (exec copy_body s) = ticks s).
  { destruct s as [doc n out]. cbn [the_document ticks] in *. unfold exec.
    destruct (get_field_value doc (VStr "invoice_date")) as [v|e] eqn:G.
    - rewrite (copy_body_falsy doc n out v G); auto.
      rewrite (get_field_value_find doc _ v G).
      destruct H as [->|(b & -> & ->)]; reflexivity.
    - rewrite (copy_body_raise doc n out e G); auto. }
  destruct (copy_returns_document s) as (Ret & Doc & Tk).
  rewrite Ret, Doc, Tk. destruct B as [-> ->]. auto.
Qed.

(** ** The table of a document without element lists *)

(** C3 fails on the code. On a document with neither [moderated_boxes]
    nor [predicted_boxes], [find_or_create_table] does not create the
    list: it raises [KeyError] and leaves the document as it is. *)
Theorem find_or_create_table_without_lists (d : dict) (n : nat)
  (out : list line) :
  dict_get d "moderated_boxes" = None ->
  dict_get d "predicted_boxes" = None ->
  find_or_create_table (mkState (VDict d) n out)
  = (Raise KeyError, mkState (VDict d) (S n) out).
Proof.
  intros Hm Hp.
  unfold find_or_create_table, find_table, select_boxes, append_box, bind,
    get_document, lift, py_time.
  simpl. repeat (progress (rewrite ?Hm, ?Hp; simpl)). reflexivity.
Qed.

(** ** The batch *)

Lemma handler_ok (input_data : list value) :
  forall w, exists docs w',
    handler input_data w = (Ok docs, w') /\
    List.length docs = List.length input_data.
Proof.
  induction input_data as [|d rest IH]; intros w; simpl; eauto.
  destruct (copy_returns_document (mkState d (fst w) (snd w))) as (Ret & _).
  destruct (copy_invoice_date_to_line_items (mkState d (fst w) (snd w)))
    as [res s]. simpl in Ret. subst res.
  destruct (IH (ticks s, stdout s)) as (docs & w' & -> & L).
  eexists _, _. split; [reflexivity|]. simpl. now rewrite L.
Qed.

Lemma handler_app (pre post : list value) :
  forall w docs1 w1 docs2 w2,
  handler pre w = (Ok docs1, w1) ->
  handler post w1 = (Ok docs2, w2) ->
  handler (pre ++ post) w = (Ok (docs1 ++ docs2), w2).
Proof.
  induction pre as [|d pre IH]; intros w docs1 w1 docs2 w2 H1 H2; simpl in *.
  - inversion H1; subst. exact H2.
  - destruct (copy_invoice_date_to_line_items (mkState d (fst w) (snd w)))
      as [[r|e] s]; [|discriminate].
    destruct (handler pre (ticks s, stdout s)) as [[ds|e] w'] eqn:Hp;
      [|discriminate].
    inversion H1; subst.
    now rewrite (IH _ _ _ _ _ Hp H2).
Qed.

(** C5. [handler] never propagates an exception and returns as many
    documents as it was given. Each document is processed in its turn,
    from the clock and the output its predecessors have left, and is
    returned in the state the [try] block of the copy operation has left
    it in, whether the block returned or raised. An exception of the
    block is absorbed by the operation: it prints the error and returns
    the document. *)
Theorem handler_processes_every_document :
  (forall input_data w, exists docs w',
      handler input_data w = (Ok docs, w') /\
      List.length docs = List.length input_data)
  /\ (forall pre d post w, exists docs_pre w_pre docs w',
        handler pre w = (Ok docs_pre, w_pre) /\
        handler (pre ++ d :: post) w = (Ok docs, w') /\
        nth_error docs (List.length pre)
        = Some (the_document
                  (exec copy_body (mkState d (fst w_pre) (snd w_pre)))))
  /\ (forall s e s',
        copy_body s = (Raise e, s') ->
        copy_invoice_date_to_line_items s
        = (Ok (the_document s'),
           mkState (the_document s') (ticks s')
             (Error_copying e :: stdout s'))).
Proof.
  split; [exact (fun i w => handler_ok i w)|split].
  - intros pre d post w.
    destruct (handler_ok pre w) as (docs_pre & w_pre & Hpre & Lpre).
    destruct (handler_ok (d :: post) w_pre) as (docs2 & w' & H2 & L2).
    exists docs_pre, w_pre, (docs_pre ++ docs2), w'.
    split; auto. split; [now apply (handler_app pre (d :: post) w _ w_pre)|].
    rewrite nth_error_app2 by lia. rewrite Lpre, Nat.sub_diag.
    simpl in H2.
    destruct (copy_returns_document (mkState d (fst w_pre) (snd w_pre)))
      as (_ & Doc & _). unfold exec in Doc.
    destruct (copy_invoice_date_to_line_items
                (mkState d (fst w_pre) (snd w_pre))) as [[r|e] s];
      [|discriminate].
    destruct (handler post (ticks s, stdout s)) as [[ds|e] w2];
      [|discriminate].
    inversion H2; subst. simpl in *. now rewrite Doc.
  - intros s e s' H.
    unfold copy_invoice_date_to_line_items, try_except, bind, print,
      get_document. now rewrite H.
Qed.

(** ** Repeated runs *)

Lemma copy_unique (s : state) :
  unique_slots (the_cells (the_document s)) = true ->
  unique_slots
    (the_cells (the_document (exec copy_invoice_date_to_line_items s)))
  = true.
Proof.
  intros U. destruct (copy_returns_document s) as (_ & -> & _).
  destruct s as [doc n out]. cbn [the_document] in *.
  destruct (copy_body_cells doc n out) as [->|(v & keys & ->)]; auto.
  now apply rows_write_unique.
Qed.

(** C2, as the code has it. Running the copy operation twice leaves the
    document as running it once does, for every document. A table in
    which no two cells claim the same (row, label) pair stays so after
    any number of runs; the operation does not remove the duplicates a
    table has when it arrives. *)
Theorem copy_twice_and_unique (s : state) :
  the_document
    (exec copy_invoice_date_to_line_items
       (exec copy_invoice_date_to_line_items s))
  = the_document (exec copy_invoice_date_to_line_items s)
  /\ (unique_slots (the_cells (the_document s)) = true ->
      forall k,
      unique_slots (the_cells (the_document (repeat_copy k s))) = true).
Proof.
  split.
  - destruct (copy_returns_document s) as (_ & D1 & _).
    destruct (copy_returns_document (exec copy_invoice_date_to_line_items s))
      as (_ & D2 & _).
    rewrite D2. destruct (exec copy_invoice_date_to_line_items s)
      as [doc1 n1 out1]. cbn [the_document] in *. subst doc1.
    destruct s as [doc n out]. apply copy_body_twice.
  - intros U k. revert s U. induction k as [|k IH]; intros s U; simpl; auto.
    apply IH. now apply copy_unique.
Qed.

(** ** The column of a new cell *)

Lemma set_cell_value_no_cells (doc : value) (r : ref) (t : dict)
  (row_idx label val : value) (n : nat) (out : list line) :
  table_at doc r t ->
  dict_get t "cells" = None ->
  set_cell_value row_idx label val (mkState doc n out) =
  (Ok (VBool true),
   mkState
     (with_cells r
        [new_cell label row_idx (VFloat (time_time n)) (VInt 1) val] doc)
     (S n) out).
Proof.
  intros [F L] G.
  unfold set_cell_value, bind at 1.
  rewrite (find_or_create_table_found _ _ _ _ F).
  unfold table_cells, set_cell_text, append_cell, bind,
    get_document, lift, modify_document, py_time, ret. simpl.
  rewrite L. simpl. rewrite G. simpl.
  rewrite L. simpl. rewrite G. simpl.
  assert (L1 : load r (update r (fun t0 => py_setitem t0 "cells" (VList []))
                 doc) = VDict (dict_set t "cells" (VList []))).
  { apply (with_cells_table_at doc r t [] (conj F L)). }
  rewrite L1. simpl. rewrite dict_get_set_eq. simpl.
  f_equal. f_equal. rewrite update_twice. apply update_at with (t := t); auto.
  simpl. rewrite dict_get_set_eq. now rewrite dict_set_twice.
Qed.

Lemma fold_left_max_ge (l : list Z) :
  forall a, a <= fold_left Z.max l a /\
    (forall x, In x l -> x <= fold_left Z.max l a) /\
    (fold_left Z.max l a = a \/ In (fold_left Z.max l a) l).
Proof.
  induction l as [|y l IH]; intros a; simpl.
  - repeat split; auto; try lia; intros x [].
  - destruct (IH (Z.max a y)) as (Ha & Hx & Hin). repeat split.
    + lia.
    + intros x [->|Hi]; [lia|auto].
    + destruct Hin as [E|Hi]; auto.
      rewrite E. destruct (Z.max_spec a y) as [[_ ->]|[_ ->]]; auto.
Qed.

Lemma fold_left_max_is_max (l : list Z) (m : Z) :
  (forall x, In x l -> 0 <= x) -> is_max m l -> fold_left Z.max l 0 = m.
Proof.
  intros Nn [Hin Hmax].
  destruct (fold_left_max_ge l 0) as (H0 & Hx & Hor).
  pose proof (Hx m Hin) as Hm.
  destruct Hor as [E|Hi].
  - rewrite E in *. specialize (Nn m Hin). lia.
  - specialize (Hmax _ Hi). lia.
Qed.

(** C7. When [set_cell_value] finds no cell with the row and the label in
    a well-formed table, the cell it appends has the row, the label and
    the value, and its column index is 1 when the row has no cell and,
    column indices being non-negative, the greatest column index of the
    cells of the row plus 1 otherwise. *)
Theorem set_cell_value_new_column (doc : value) (r : ref) (t : dict)
  (k : Z) (label val : value) (n : nat) (out : list line) :
  table_at doc r t ->
  is_element (VDict t) = true ->
  find_cell_loop (cells_of (VDict t)) (VInt k) label 0 = Ok None ->
  (forall x, In x (row_cols k (cells_of (VDict t))) -> 0 <= x) ->
  exists col,
    set_cell_value (VInt k) label val (mkState doc n out)
    = (Ok (VBool true),
       mkState
         (with_cells r
            (cells_of (VDict t)
             ++ [new_cell label (VInt k) (VFloat (time_time n)) (VInt col)
                   val])
            doc)
         (S n) out)
    /\ (row_cols k (cells_of (VDict t)) = [] -> col = 1)
    /\ (forall m, is_max m (row_cols k (cells_of (VDict t))) ->
        col = m + 1).
Proof.
  intros Ta El Fn Nn.
  destruct (is_element_cells t El) as [Ty Gc].
  remember (cells_of (VDict t)) as cs eqn:Ecs.
  exists (fold_left Z.max (row_cols k cs) 0 + 1). split; [|split].
  - destruct Gc as [Gc|Gc].
    + assert (N : cs = []) by (subst cs; simpl; now rewrite Gc).
      rewrite N. simpl.
      now apply set_cell_value_no_cells with (t := t).
    + rewrite (set_cell_value_sim doc r t cs _ _ _ _ _ Ta Gc).
      unfold cell_write. rewrite Fn.
      rewrite (max_col_loop_typed cs k Ty 0). reflexivity.
  - intros ->. reflexivity.
  - intros m Hm. now rewrite (fold_left_max_is_max _ m Nn Hm).
Qed.

(** ** What is written stays in place *)

Lemma cells_kept_refl (cs : list value) : cells_kept cs cs.
Proof. intros j c H. eauto. Qed.

Lemma cells_kept_trans (cs1 cs2 cs3 : list value) :
  cells_kept cs1 cs2 -> cells_kept cs2 cs3 -> cells_kept cs1 cs3.
Proof.
  intros H1 H2 j c N. destruct (H1 j c N) as (c2 & N2 & F2).
  destruct (H2 j c2 N2) as (c3 & N3 & F3). exists c3. split; auto.
  intros key Hk. now rewrite F3, F2.
Qed.

Lemma element_kept_refl (b : value) : element_kept b b.
Proof. split; auto using cells_kept_refl. Qed.

Lemma document_kept_refl (doc : value) : document_kept doc doc.
Proof. intros K i b H. eauto using element_kept_refl. Qed.

Lemma document_kept_trans (d1 d2 d3 : value) :
  document_kept d1 d2 -> document_kept d2 d3 -> document_kept d1 d3.
Proof.
  intros H1 H2 K i b N. destruct (H1 K i b N) as (b2 & N2 & F2 & C2).
  destruct (H2 K i b2 N2) as (b3 & N3 & F3 & C3). exists b3. split; auto.
  split; [intros key Hk; now rewrite F3, F2|].
  eapply cells_kept_trans; eauto.
Qed.

Lemma cells_kept_app (cs ext : list value) : cells_kept cs (cs ++ ext).
Proof.
  intros j c N. exists c. split; auto.
  rewrite nth_error_app1; auto. apply nth_error_Some. congruence.
Qed.

Lemma cells_kept_update (cs : list value) (j : nat) (v : value) :
  cells_kept cs (update_nth j (fun c => py_setitem c "text" v) cs).
Proof.
  revert j. induction cs as [|x cs IH]; intros [|j] i c N; simpl in *;
    try (destruct i; discriminate).
  - destruct i; simpl in *; eauto.
    inversion N; subst. eexists. split; [reflexivity|].
    intros key Hk. apply cell_field_setitem_ne. congruence.
  - destruct i; simpl in *; eauto. now apply IH.
Qed.

Lemma cell_write_kept (row_idx label v : value) (n : nat)
  (cs : list value) :
  cells_kept cs (fst (snd (cell_write row_idx label v n cs))).
Proof.
  unfold cell_write.
  destruct (find_cell_loop cs row_idx label 0) as [[j|]|e]; simpl;
    auto using cells_kept_refl, cells_kept_update.
  destruct (max_col_loop cs row_idx (VInt 0)) as [m|e]; simpl;
    auto using cells_kept_refl.
  destruct (py_add m 1) as [col|e]; simpl;
    auto using cells_kept_refl, cells_kept_app.
Qed.

Lemma rewritten_kept (keys : list value) (v : value) (cs cs' : list value) :
  rewritten keys v cs cs' -> cells_kept cs cs'.
Proof.
  intros (pre & ext & -> & T & _).
  apply cells_kept_trans with (cs2 := pre); [|apply cells_kept_app].
  clear ext. induction T as [|c c' cs pre Tc _ IH]; intros j x N;
    destruct j; simpl in *; try discriminate; auto.
  inversion N; subst x. exists c'. split; auto.
  intros key Hk. destruct Tc as [->|[-> _]]; auto.
  apply cell_field_setitem_ne. congruence.
Qed.

Lemma nth_error_update_nth {A} (i j : nat) (f : A -> A) (l : list A) :
  nth_error (update_nth i f l) j
  = if Nat.eqb i j then option_map f (nth_error l j) else nth_error l j.
Proof.
  revert i j. induction l as [|x l IH]; intros [|i] [|j]; simpl; auto.
  now destruct (Nat.eqb i j).
Qed.

Lemma list_at_update (r : ref) (f : value -> value) (doc : value)
  (K : string) :
  list_at K (update r f doc)
  = if String.eqb (ref_key r) K
    then update_nth (ref_idx r) f (list_at K doc)
    else list_at K doc.
Proof.
  unfold update, list_at. destruct doc as [| | | | | |d];
    try (destruct (String.eqb (ref_key r) K), (ref_idx r); reflexivity).
  destruct (String.eqb (ref_key r) K) eqn:E.
  - apply String.eqb_eq in E. subst K.
    destruct (dict_get d (ref_key r)) as [[]|] eqn:G; simpl;
      rewrite ?G, ?dict_get_set_eq; try reflexivity;
      destruct (ref_idx r); reflexivity.
  - apply String.eqb_neq in E.
    destruct (dict_get d (ref_key r)) as [[]|] eqn:G; simpl; auto.
    now rewrite dict_get_set_ne.
Qed.

Lemma load_nth_error (r : ref) (doc b : value) :
  nth_error (list_at (ref_key r) doc) (ref_idx r) = Some b ->
  load r doc = b.
Proof.
  unfold load, list_at. destruct doc as [| | | | | |d];
    try (destruct (ref_idx r); discriminate).
  destruct (dict_get d (ref_key r)) as [[]|];
    try (destruct (ref_idx r); discriminate).
  intros H. now apply nth_error_nth.
Qed.

(** Rewriting the element at [r] keeps the document when it keeps the
    element. *)
Lemma update_kept (r : ref) (f : value -> value) (doc : value) :
  element_kept (load r doc) (f (load r doc)) ->
  document_kept doc (update r f doc).
Proof.
  intros E K i b N. rewrite list_at_update.
  destruct (String.eqb (ref_key r) K) eqn:EK.
  - apply String.eqb_eq in EK. subst K.
    rewrite nth_error_update_nth, N.
    destruct (Nat.eqb (ref_idx r) i) eqn:Ei; simpl.
    + apply Nat.eqb_eq in Ei. subst i.
      rewrite (load_nth_error r doc b N) in E. eauto.
    + eauto using element_kept_refl.
  - eauto using element_kept_refl.
Qed.

Lemma with_cells_kept (doc : value) (r : ref) (t : dict)
  (cs' : list value) :
  load r doc = VDict t ->
  cells_kept (cells_of (VDict t)) cs' ->
  document_kept doc (with_cells r cs' doc).
Proof.
  intros L C. apply update_kept. rewrite L. split.
  - intros key Hk. simpl. rewrite dict_get_set_ne; auto.
  - simpl. now rewrite dict_get_set_eq.
Qed.

Lemma append_kept (d : dict) (K : string) (l : list value) (x : value) :
  dict_get d K = Some (VList l) ->
  document_kept (VDict d) (VDict (dict_set d K (VList (l ++ [x])))).
Proof.
  intros G K' i b N. exists b. split; [|apply element_kept_refl].
  unfold list_at in *. destruct (String.eqb K K') eqn:E.
  - apply String.eqb_eq in E. subst K'. rewrite dict_get_set_eq.
    rewrite G in N. rewrite nth_error_app1; auto.
    apply nth_error_Some. congruence.
  - apply String.eqb_neq in E. now rewrite dict_get_set_ne.
Qed.

Lemma find_or_create_table_kept (s : state) :
  document_kept (the_document s)
    (the_document (exec find_or_create_table s)).
Proof.
  destruct s as [doc n out]. cbn [the_document]. unfold exec.
  destruct (find_or_create_table_effect doc)
    as [(r & F & E)|[E|(d & K & l & -> & F & Sel & Gk & E)]].
  - rewrite E. apply document_kept_refl.
  - destruct (E n out) as (e & n' & ->). apply document_kept_refl.
  - rewrite E. now apply append_kept.
Qed.

Lemma copy_kept (s : state) :
  document_kept (the_document s)
    (the_document (exec copy_invoice_date_to_line_items s)).
Proof.
  destruct (copy_returns_document s) as (_ & -> & _).
  destruct s as [doc n out]. cbn [the_document].
  destruct (copy_body_effect doc)
    as [U|[(r & t & cs & v & rows & Ta & Gc & G & T & Gr & E)
          |(d & K & l & v & -> & F & Sel & Gk & G & T & E)]].
  - rewrite U. apply document_kept_refl.
  - rewrite E. cbn [the_document]. destruct Ta as [F L].
    apply with_cells_kept with (t := t); auto.
    simpl. rewrite Gc. apply (rewritten_kept (map fst rows) v).
    apply rows_write_rewritten.
  - rewrite E. now apply append_kept.
Qed.

Lemma set_cell_value_via (s s1 : state) (r : ref)
  (row_idx label val : value) :
  find_or_create_table s = (Ok r, s1) ->
  find_table (the_document s1) = Ok (Some r) ->
  set_cell_value row_idx label val s = set_cell_value row_idx label val s1.
Proof.
  intros H F. unfold set_cell_value, bind at 1.
  rewrite H. symmetry. unfold bind at 1.
  destruct s1 as [doc1 n1 out1].
  now rewrite (find_or_create_table_found _ _ _ _ F).
Qed.

Lemma set_cell_value_raise (s s1 : state) (e : exn)
  (row_idx label val : value) :
  find_or_create_table s = (Raise e, s1) ->
  set_cell_value row_idx label val s = (Raise e, s1).
Proof. intros H. unfold set_cell_value, bind at 1. now rewrite H. Qed.

(** A table whose [cells] is not a list is left as it is. *)
Lemma set_cell_value_bad_cells (doc : value) (r : ref) (t : dict)
  (c row_idx label val : value) (n : nat) (out : list line) :
  table_at doc r t ->
  dict_get t "cells" = Some c ->
  (forall l, c <> VList l) ->
  the_document (exec (set_cell_value row_idx label val) (mkState doc n out))
  = doc.
Proof.
  intros [F L] G Hc. unfold exec, set_cell_value, bind at 1.
  rewrite (find_or_create_table_found _ _ _ _ F).
  unfold table_cells, set_cell_text, append_cell, bind,
    get_document, lift, modify_document, py_time, ret, raise. simpl.
  rewrite L. simpl. rewrite G.
  destruct c as [| | | |s|l|d]; simpl; auto.
  - destruct s; simpl; auto.
    repeat (progress (rewrite ?L, ?G; simpl)). reflexivity.
  - now destruct (Hc l).
  - destruct d; simpl; auto.
    repeat (progress (rewrite ?L, ?G; simpl)). reflexivity.
Qed.

Lemma set_cell_value_found_kept (doc : value) (r : ref) (t : dict)
  (row_idx label val : value) (n : nat) (out : list line) :
  table_at doc r t ->
  document_kept doc
    (the_document
       (exec (set_cell_value row_idx label val) (mkState doc n out))).
Proof.
  intros Ta. pose proof Ta as [F L].
  destruct (dict_get t "cells") as [c|] eqn:G.
  - assert (D : (exists cs, c = VList cs) \/ forall l, c <> VList l).
    { destruct c; try (right; discriminate). left. eauto. }
    destruct D as [[cs ->]|D].
    + unfold exec.
      rewrite (set_cell_value_sim doc r t cs _ _ _ _ _ Ta G).
      cbn [snd the_document]. apply with_cells_kept with (t := t); auto.
      simpl. rewrite G. apply cell_write_kept.
    + rewrite (set_cell_value_bad_cells doc r t c _ _ _ _ _ Ta G D).
      apply document_kept_refl.
  - unfold exec. rewrite (set_cell_value_no_cells doc r t _ _ _ _ _ Ta G).
    cbn [snd the_document]. apply with_cells_kept with (t := t); auto.
    simpl. rewrite G. intros j c N. destruct j; discriminate.
Qed.

Lemma set_cell_value_kept (s : state) (row_idx label val : value) :
  document_kept (the_document s)
    (the_document (exec (set_cell_value row_idx label val) s)).
Proof.
  destruct s as [doc n out]. cbn [the_document].
  destruct (find_or_create_table_effect doc)
    as [(r & F & E)|[E|(d & K & l & -> & F & Sel & Gk & E)]].
  - destruct (find_table_some _ _ F) as [t Ta].
    now apply set_cell_value_found_kept with (r := r) (t := t).
  - destruct (E n out) as (e & n' & E').
    unfold exec. rewrite (set_cell_value_raise _ _ _ _ _ _ E').
    apply document_kept_refl.
  - destruct (new_table_dict (VFloat (time_time n))) as (t & Et & Ty & Ce).
    pose proof (appended_table_at d K l t F Sel Gk Ty) as Ta.
    specialize (E n out). rewrite Et in E.
    unfold exec.
    rewrite (set_cell_value_via _ _ _ _ _ _ E (proj1 Ta)).
    eapply document_kept_trans; [now apply (append_kept d K l (VDict t))|].
    now apply set_cell_value_found_kept with (r := mkRef K (List.length l))
      (t := t).
Qed.

Lemma handler_kept (input_data : list value) :
  forall w docs w',
  handler input_data w = (Ok docs, w') ->
  Forall2 document_kept input_data docs.
Proof.
  induction input_data as [|d rest IH]; intros w docs w' H; simpl in H.
  - inversion H. constructor.
  - pose proof (copy_kept (mkState d (fst w) (snd w))) as Kd.
    unfold exec in Kd.
    destruct (copy_invoice_date_to_line_items (mkState d (fst w) (snd w)))
      as [[r|e] s]; [|discriminate].
    destruct (handler rest (ticks s, stdout s)) as [[ds|e] w2] eqn:Hr;
      [|discriminate].
    inversion H; subst. constructor; eauto.
Qed.

Lemma find_cell_loop_first (cs : list value) (row_idx label : value) :
  forall j0 j, find_cell_loop cs row_idx label j0 = Ok (Some j) ->
  forall i c, (j0 + i < j)%nat -> nth_error cs i = Some c ->
  py_eq (cell_field c "row") row_idx && py_eq (cell_field c "label") label
  = false.
Proof.
  induction cs as [|x cs IH]; intros j0 j H i c Hi N;
    [destruct i; discriminate|].
  cbn [find_cell_loop] in H.
  destruct x as [| | | | | |d]; cbn [py_get rbind] in H; try discriminate.
  destruct i as [|i]; simpl in N.
  - inversion N; subst c. cbn [cell_field].
    destruct (py_eq match dict_get d "row" with
                    | Some v => v | None => VNone end row_idx); auto.
    destruct (py_eq match dict_get d "label" with
                    | Some v => v | None => VNone end label); auto.
    inversion H. lia.
  - assert (H' : find_cell_loop cs row_idx label (S j0) = Ok (Some j)).
    { destruct (py_eq match dict_get d "row" with
                      | Some v => v | None => VNone end row_idx); auto.
      destruct (py_eq match dict_get d "label" with
                      | Some v => v | None => VNone end label); auto.
      inversion H. lia. }
    apply (IH _ _ H' i c); auto. lia.
Qed.

Lemma load_update_other (r r' : ref) (f : value -> value) (doc : value) :
  r' <> r -> load r' (update r f doc) = load r' doc.
Proof.
  intros Hne. unfold load, update. destruct doc as [| | | | | |d]; auto.
  destruct (dict_get d (ref_key r)) as [[| | | | |l|]|] eqn:G; auto.
  destruct (string_dec (ref_key r) (ref_key r')) as [E|E].
  - rewrite <- E, dict_get_set_eq, G.
    apply nth_update_nth_ne. intros Ei. apply Hne.
    destruct r, r'. simpl in *. congruence.
  - now rewrite dict_get_set_ne.
Qed.

Lemma cell_field_update_other (r : ref) (f : value -> value) (doc : value)
  (K : string) :
  K <> ref_key r -> cell_field (update r f doc) K = cell_field doc K.
Proof.
  intros Hne. unfold update. destruct doc as [| | | | | |d]; auto.
  destruct (dict_get d (ref_key r)) as [[| | | | |l|]|] eqn:G; auto.
  simpl. now rewrite dict_get_set_ne by congruence.
Qed.

(** C9. When the scan of [set_cell_value] finds a cell with the row and
    the label, the operation sets the text of that cell, the first such
    cell, and nothing else: the other fields of the cell, the other
    cells, the other fields of the table, the other elements and the
    other keys of the document are what they were. And no operation
    removes anything: after [find_or_create_table], [set_cell_value], the
    copy operation and [handler], every element of the document is where
    it was, and every cell of it is where it was. *)
Theorem set_cell_value_frame :
  (forall doc r t cs row_idx label val n out j,
     table_at doc r t ->
     dict_get t "cells" = Some (VList cs) ->
     find_cell_loop cs row_idx label 0 = Ok (Some j) ->
     let cs' := update_nth j (fun c => py_setitem c "text" val) cs in
     let doc' := with_cells r cs' doc in
     set_cell_value row_idx label val (mkState doc n out)
     = (Ok (VBool true), mkState doc' n out)
     /\ (forall i c, (i < j)%nat -> nth_error cs i = Some c ->
         py_eq (cell_field c "row") row_idx
         && py_eq (cell_field c "label") label = false)
     /\ the_cells doc' = cs'
     /\ (forall i, i <> j -> nth_error cs' i = nth_error cs i)
     /\ (forall key, key <> "text" ->
         cell_field (nth j cs' VNone) key = cell_field (nth j cs VNone) key)
     /\ cell_field (nth j cs' VNone) "text" = val
     /\ (forall key, key <> "cells" ->
         cell_field (load r doc') key = cell_field (load r doc) key)
     /\ (forall r', r' <> r -> load r' doc' = load r' doc)
     /\ (forall K, K <> ref_key r -> cell_field doc' K = cell_field doc K))
  /\ (forall s,
        document_kept (the_document s)
          (the_document (exec find_or_create_table s)))
  /\ (forall s row_idx label val,
        document_kept (the_document s)
          (the_document (exec (set_cell_value row_idx label val) s)))
  /\ (forall s,
        document_kept (the_document s)
          (the_document (exec copy_invoice_date_to_line_items s)))
  /\ (forall input_data w, exists docs w',
        handler input_data w = (Ok docs, w') /\
        Forall2 document_kept input_data docs).
Proof.
  split; [|split; [|split; [|split]]].
  - intros doc r t cs row_idx label val n out j Ta G F cs' doc'.
    destruct (find_cell_loop_some _ _ _ _ _ F) as (i & d & Hj & Hi & Hn & _).
    simpl in Hj. subst i.
    repeat split.
    + rewrite (set_cell_value_sim doc r t cs _ _ _ _ _ Ta G).
      unfold cell_write. now rewrite F.
    + intros i c Hlt N. apply (find_cell_loop_first cs _ _ 0 j F i c); auto.
    + apply (with_cells_cells doc r t cs' Ta).
    + intros i Hne. subst cs'. rewrite nth_error_update_nth.
      destruct (Nat.eqb_spec j i); congruence.
    + intros key Hk. subst cs'. rewrite nth_update_nth_eq by auto.
      apply cell_field_setitem_ne. congruence.
    + subst cs'. rewrite nth_update_nth_eq by auto. rewrite Hn. simpl.
      now rewrite dict_get_set_eq.
    + intros key Hk. destruct (with_cells_table_at doc r t cs' Ta) as [_ L'].
      destruct Ta as [_ L]. subst doc'. rewrite L', L. simpl.
      now rewrite dict_get_set_ne by congruence.
    + intros r' Hne. now apply load_update_other.
    + intros K Hne. now apply cell_field_update_other.
  - apply find_or_create_table_kept.
  - apply set_cell_value_kept.
  - apply copy_kept.
  - intros input_data w.
    destruct (handler_ok input_data w) as (docs & w' & H & _).
    exists docs, w'. split; auto. now apply (handler_kept input_data w docs w').
Qed.

(** ** A document without a table *)

Lemma find_or_create_table_creates (d : dict) (K : string) (l : list value)
  (n : nat) (out : list line) :
  find_table (VDict d) = Ok None ->
  select_boxes (VDict d) = Ok (K, VList l) ->
  dict_get d K = Some (VList l) ->
  find_or_create_table (mkState (VDict d) n out) =
  (Ok (mkRef K (List.length l)),
   mkState (VDict (dict_set d K
              (VList (l ++ [new_table (VFloat (time_time n))]))))
     (S n) out).
Proof.
  intros F Sel G.
  destruct (select_boxes_inv _ _ _ Sel) as (d0 & E & HK & _).
  inversion E; subst d0; clear E.
  unfold find_or_create_table, bind, get_document, lift, py_time.
  simpl. rewrite F. simpl.
  destruct HK as [[-> T]|[-> T]]; rewrite T;
    unfold append_box, bind, get_document, lift, modify_document, ret;
    simpl; rewrite G; simpl; now rewrite ?G.
Qed.

Lemma copy_body_creates (d : dict) (K : string) (l : list value)
  (v : value) (n : nat) (out : list line) :
  find_table (VDict d) = Ok None ->
  select_boxes (VDict d) = Ok (K, VList l) ->
  dict_get d K = Some (VList l) ->
  get_field_value (VDict d) (VStr "invoice_date") = Ok v ->
  truthy v = true ->
  copy_body (mkState (VDict d) n out) =
  (Ok tt,
   mkState (VDict (dict_set d K
              (VList (l ++ [new_table (VFloat (time_time n))]))))
     (S n) out).
Proof.
  intros F Sel Gk G T.
  pose proof (find_or_create_table_creates d K l n out F Sel Gk) as E.
  destruct (new_table_dict (VFloat (time_time n))) as (t & Et & Ty & Ce).
  rewrite Et in *.
  destruct (appended_table_at d K l t F Sel Gk Ty) as [_ L].
  unfold copy_body, bind, get_document, lift.
  cbn [the_document]. rewrite G. cbn [negb]. rewrite T. cbn [negb].
  rewrite E. cbn [the_document]. rewrite L.
  unfold group_cells_by_row, py_in, py_get.
  destruct t; [discriminate|]. cbn [truthy negb rbind].
  rewrite Ce. reflexivity.
Qed.

(** X1. In a well-formed document that has a non-empty invoice date and no
    table, the copy operation creates the table exactly once: it appends
    one empty table to the authoritative list and leaves the rest of the
    document as it is, and a second run appends nothing. *)
Theorem copy_creates_one_table (doc : value) (n : nat) (out : list line)
  (b : value) (text : string) :
  is_document doc = true ->
  field_element "invoice_date" doc = Some b ->
  ocr_text b = VStr text ->
  text <> "" ->
  find_table doc = Ok None ->
  let s1 := exec copy_invoice_date_to_line_items (mkState doc n out) in
  exists K,
    list_at K (the_document s1)
    = elements doc ++ [new_table (VFloat (time_time n))]
    /\ the_cells (the_document s1) = []
    /\ (forall K', K' <> K ->
        cell_field (the_document s1) K' = cell_field doc K')
    /\ the_document (exec copy_invoice_date_to_line_items s1)
       = the_document s1.
Proof.
  intros D Fe Ot Ne F s1.
  assert (G : get_field_value doc (VStr "invoice_date") = Ok (VStr text))
    by now rewrite (get_field_value_typed doc _ D), Fe, Ot.
  assert (T : truthy (VStr text) = true).
  { simpl. apply negb_true_iff, String.eqb_neq. exact Ne. }
  destruct (is_document_inv doc D) as (d & K & l & -> & Sel & Ty & Gk).
  assert (El : elements (VDict d) = l) by (unfold elements; now rewrite Sel).
  destruct Gk as [Gk|[_ ->]].
  2:{ unfold field_element in Fe. rewrite El in Fe. discriminate. }
  pose proof (copy_body_creates d K l _ n out F Sel Gk G T) as E.
  destruct (copy_returns_document (mkState (VDict d) n out)) as (_ & D1 & _).
  destruct (copy_returns_document s1) as (_ & D2 & _).
  assert (E1 : the_document s1
               = VDict (dict_set d K
                   (VList (l ++ [new_table (VFloat (time_time n))])))).
  { subst s1. rewrite D1. unfold exec. now rewrite E. }
  exists K. rewrite El. repeat split.
  - rewrite E1. unfold list_at. now rewrite dict_get_set_eq.
  - rewrite E1.
    destruct (new_table_dict (VFloat (time_time n))) as (t & Et & Tt & Ce).
    rewrite Et.
    destruct (appended_table_at d K l t F Sel Gk Tt) as [F' L].
    unfold the_cells. rewrite F', L. simpl. now rewrite Ce.
  - intros K' Hne. rewrite E1. simpl.
    now rewrite dict_get_set_ne by congruence.
  - rewrite D2.
    assert (Hs : the_document s1
                 = the_document (exec copy_body (mkState (VDict d) n out)))
      by (subst s1; exact D1).
    clear E1 D1 D2. clearbody s1. destruct s1 as [doc1 n1 out1].
    cbn [the_document] in *. rewrite Hs. apply copy_body_twice.
Qed.

(** ** The scan of the field reader *)

Lemma py_get_cell_field (b : value) (key : string) :
  is_dict b = true -> py_get b key VNone = Ok (cell_field b key).
Proof. destruct b; try discriminate. reflexivity. Qed.

Lemma get_field_value_loop_skip (lbl : string) (pre rest : list value) :
  forallb (passed_over lbl) pre = true ->
  get_field_value_loop (pre ++ rest) (VStr lbl)
  = get_field_value_loop rest (VStr lbl).
Proof.
  induction pre as [|b pre IH]; simpl; auto.
  intros H. apply andb_prop in H as [Hb Hpre].
  apply andb_prop in Hb as [Hd Hn]. apply negb_true_iff in Hn.
  rewrite !py_get_cell_field by auto. simpl.
  unfold is_field_labelled in Hn.
  destruct (py_eq (cell_field b "type") (VStr "field")); simpl in *; auto.
  rewrite Hn. auto.
Qed.

(** X3. The field reader scans the authoritative list from the front and
    stops at the first field element with the label: it returns that
    element's text whatever follows it in the list; an item that is not a
    record, met before any such element, makes it raise [AttributeError];
    and a list of records none of which is such an element gives the
    empty string. *)
Theorem get_field_value_scan (doc : value) (K lbl : string)
  (l : list value) :
  select_boxes doc = Ok (K, VList l) ->
  (forall pre x post,
      l = pre ++ x :: post -> forallb (passed_over lbl) pre = true ->
      is_dict x = true -> is_field_labelled lbl x = true ->
      get_field_value doc (VStr lbl) = Ok (ocr_text x))
  /\ (forall pre x post,
      l = pre ++ x :: post -> forallb (passed_over lbl) pre = true ->
      is_dict x = false ->
      get_field_value doc (VStr lbl) = Raise AttributeError)
  /\ (forallb (passed_over lbl) l = true ->
      get_field_value doc (VStr lbl) = Ok (VStr "")).
Proof.
  intros Sel. unfold get_field_value. rewrite Sel. simpl.
  split; [|split].
  - intros pre x post -> Hpre Hd Hx.
    rewrite get_field_value_loop_skip by auto. simpl.
    rewrite !py_get_cell_field by auto. simpl.
    unfold is_field_labelled in Hx. apply andb_prop in Hx as [-> ->].
    destruct x; try discriminate. reflexivity.
  - intros pre x post -> Hpre Hd.
    rewrite get_field_value_loop_skip by auto. simpl.
    destruct x; try discriminate; reflexivity.
  - intros Hl. rewrite <- (app_nil_r l).
    now rewrite get_field_value_loop_skip.
Qed.

(** ** Which list is written *)

(** X5. The moderated list takes precedence: when a document has a
    moderated list that is not empty, the copy operation leaves what the
    document holds under [predicted_boxes] as it is; when the moderated
    list is absent or empty, it leaves what the document holds under
    [moderated_boxes] as it is. *)
Theorem copy_respects_precedence (d : dict) (n : nat) (out : list line) :
  let m := match dict_get d "moderated_boxes" with
           | Some v => v
           | None => VNone
           end in
  let doc' := the_document
                (exec copy_invoice_date_to_line_items
                   (mkState (VDict d) n out)) in
  (truthy m = true ->
   cell_field doc' "predicted_boxes" = cell_field (VDict d) "predicted_boxes")
  /\ (truthy m = false ->
      cell_field doc' "moderated_boxes"
      = cell_field (VDict d) "moderated_boxes").
Proof.
  intros m doc'. subst doc'.
  destruct (copy_returns_document (mkState (VDict d) n out)) as (_ & -> & _).
  assert (Key : forall K bs, select_boxes (VDict d) = Ok (K, bs) ->
            (truthy m = true -> K = "moderated_boxes")
            /\ (truthy m = false -> K = "predicted_boxes")).
  { intros K bs Sel. destruct (select_boxes_inv _ _ _ Sel) as (d0 & E & HK & _).
    inversion E; subst d0. subst m.
    destruct HK as [[-> T]|[-> T]]; split; auto; congruence. }
  destruct (copy_body_effect (VDict d))
    as [U|[(r0 & t & cs & v & rows & Ta & Gc & G & T & Gr & E)
          |(d' & K & l & v & Ed & F & Sel & Gk & G & T & E)]].
  - rewrite U. auto.
  - rewrite E. cbn [the_document]. destruct Ta as [F0 L].
    destruct (find_table_inv _ _ F0) as (d0 & l & t0 & _ & _ & Sel & _).
    destruct (Key _ _ Sel) as [K1 K2]. unfold with_cells.
    split; intros Tm; apply cell_field_update_other.
    + rewrite (K1 Tm). discriminate.
    + rewrite (K2 Tm). discriminate.
  - rewrite E. cbn [the_document]. inversion Ed; subst d'.
    destruct (Key _ _ Sel) as [K1 K2].
    split; intros Tm; simpl; rewrite dict_get_set_ne; auto.
    + rewrite (K1 Tm). discriminate.
    + rewrite (K2 Tm). discriminate.
Qed.

(** ** The batch, run again *)

(** X6. [handler] is idempotent on the documents: it returns a list of
    documents, and run again on that list, from any clock reading and
    any output, it returns the very same list. *)
Theorem handler_twice (input_data : list value) (w : world) :
  exists docs w1,
    handler input_data w = (Ok docs, w1)
    /\ forall w2, fst (handler docs w2) = Ok docs.
Proof.
  revert w. induction input_data as [|d rest IH]; intros w; simpl.
  - exists [], w. auto.
  - destruct (copy_returns_document (mkState d (fst w) (snd w)))
      as (Ret & Doc & _).
    pose proof (copy_body_twice d (fst w) (fst w) (snd w) (snd w)) as Tw.
    unfold exec in *.
    destruct (copy_invoice_date_to_line_items (mkState d (fst w) (snd w)))
      as [res s]. simpl in Ret, Doc. subst res.
    destruct (IH (ticks s, stdout s)) as (docs & w1 & -> & Again).
    eexists _, _. split; [reflexivity|].
    intros w2. simpl.
    destruct (copy_returns_document
                (mkState (the_document s) (fst w2) (snd w2)))
      as (Ret2 & Doc2 & _).
    pose proof (copy_body_twice d (fst w) (fst w2) (snd w) (snd w2)) as Tw2.
    unfold exec in *. cbn zeta in Tw2. rewrite <- Doc in Tw2.
    destruct (copy_invoice_date_to_line_items
                (mkState (the_document s) (fst w2) (snd w2))) as [res2 s2].
    simpl in Ret2, Doc2. subst res2.
    specialize (Again (ticks s2, stdout s2)).
    destruct (handler docs (ticks s2, stdout s2)) as [[ds|e] w3];
      simpl in Again; [|discriminate].
    inversion Again; subst. simpl. now rewrite Doc2, Tw2.
Qed.

(** ** Writing a cell and reading it back *)

Lemma py_eq_refl_hashable (v : value) : hashable v = true -> py_eq v v = true.
Proof.
  destruct v; simpl; try discriminate; intros _; auto.
  - apply Qeq_bool_refl'.
  - apply Z.eqb_refl.
  - apply Qeq_bool_refl'.
  - apply String.eqb_refl.
Qed.

Lemma py_get_setitem_ne (c : value) (k k' : string) (v dflt : value) :
  k <> k' -> py_get (py_setitem c k v) k' dflt = py_get c k' dflt.
Proof.
  intros Hk. destruct c; simpl; auto. now rewrite dict_get_set_ne.
Qed.

Lemma find_cell_loop_set_text (cs : list value) (k label v : value) :
  forall j j0,
  find_cell_loop (update_nth j (fun c => py_setitem c "text" v) cs)
    k label j0
  = find_cell_loop cs k label j0.
Proof.
  induction cs as [|c cs IH]; intros [|j] j0; simpl; auto.
  - now rewrite !py_get_setitem_ne by discriminate.
  - now rewrite !IH.
Qed.

Lemma cell_write_read_back (row_idx label val : value) (n n' : nat)
  (cs cs' : list value) (b : value) :
  py_eq row_idx row_idx = true -> py_eq label label = true ->
  cell_write row_idx label val n cs = (Ok b, (cs', n')) ->
  b = VBool true /\
  exists j c,
    find_cell_loop cs' row_idx label 0 = Ok (Some j) /\
    nth_error cs' j = Some c /\
    cell_field c "text" = val /\
    py_eq (cell_field c "row") row_idx = true /\
    py_eq (cell_field c "label") label = true.
Proof.
  intros Rr Rl. unfold cell_write.
  destruct (find_cell_loop cs row_idx label 0) as [[j|]|e] eqn:F;
    try discriminate.
  - intros H. inversion H; subst; clear H. split; auto.
    destruct (find_cell_loop_some _ _ _ _ _ F)
      as (i & d & Hj & Hi & Hn & Hr & Hl).
    simpl in Hj. subst i.
    exists j, (VDict (dict_set d "text" val)). repeat split.
    + now rewrite find_cell_loop_set_text.
    + rewrite nth_error_update_nth, Nat.eqb_refl.
      rewrite (nth_error_nth' cs VNone Hi), Hn. reflexivity.
    + simpl. now rewrite dict_get_set_eq.
    + simpl in *. now rewrite dict_get_set_ne by discriminate.
    + simpl in *. now rewrite dict_get_set_ne by discriminate.
  - destruct (max_col_loop cs row_idx (VInt 0)) as [m|e]; try discriminate.
    destruct (py_add m 1) as [col|e]; try discriminate.
    intros H. inversion H; subst; clear H. split; auto.
    eexists (List.length cs), _. repeat split.
    + rewrite find_cell_loop_app, F. simpl. now rewrite Rr, Rl.
    + rewrite nth_error_app2 by lia. rewrite Nat.sub_diag. reflexivity.
    + reflexivity.
    + exact Rr.
    + exact Rl.
Qed.

Lemma update_nth_last {A} (f : A -> A) (l : list A) (x : A) :
  update_nth (List.length l) f (l ++ [x]) = l ++ [f x].
Proof. induction l as [|y l IH]; simpl; auto. now rewrite IH. Qed.

(** A second write to the same row and label leaves what it would have
    left without the first. *)
Lemma cell_write_overwrite (row_idx label v1 v2 : value) (n n1 : nat)
  (cs cs1 : list value) (b : value) :
  py_eq row_idx row_idx = true -> py_eq label label = true ->
  cell_write row_idx label v1 n cs = (Ok b, (cs1, n1)) ->
  cell_write row_idx label v2 n1 cs1 = cell_write row_idx label v2 n cs.
Proof.
  intros Rr Rl. unfold cell_write.
  destruct (find_cell_loop cs row_idx label 0) as [[j|]|e] eqn:F;
    try discriminate.
  - intros H. inversion H; subst; clear H.
    rewrite find_cell_loop_set_text, F. rewrite update_nth_twice.
    rewrite (update_nth_ext j _ (fun cell => py_setitem cell "text" v2)
               cs VNone); [reflexivity|apply py_setitem_twice].
  - destruct (max_col_loop cs row_idx (VInt 0)) as [m|e]; try discriminate.
    destruct (py_add m 1) as [col|e]; try discriminate.
    intros H. inversion H; subst; clear H.
    rewrite find_cell_loop_app, F. simpl. rewrite Rr, Rl. simpl.
    rewrite Nat.add_0_l || idtac.
    now rewrite update_nth_last.
Qed.

(** A table whose [cells] is not a list makes [set_cell_value] raise. *)
Lemma set_cell_value_bad_cells_raise (doc : value) (r : ref) (t : dict)
  (c row_idx label val : value) (n : nat) (out : list line) :
  table_at doc r t ->
  dict_get t "cells" = Some c ->
  (forall l, c <> VList l) ->
  exists e s',
    set_cell_value row_idx label val (mkState doc n out) = (Raise e, s').
Proof.
  intros [F L] G Hc. unfold set_cell_value, bind at 1.
  rewrite (find_or_create_table_found _ _ _ _ F).
  unfold table_cells, set_cell_text, append_cell, bind,
    get_document, lift, modify_document, py_time, ret, raise. simpl.
  rewrite L. simpl. rewrite G.
  destruct c as [| | | |s|l|d]; simpl; eauto.
  - destruct s; simpl; eauto.
    repeat (progress (rewrite ?L, ?G; simpl)). eauto.
  - now destruct (Hc l).
  - destruct d as [|[k v] d]; simpl; eauto.
    repeat (progress (rewrite ?L, ?G; simpl)). eauto.
Qed.

(** [set_cell_value] raises whatever the value, or it is a write into
    the cells of the table the document has or is given. *)
Lemma set_cell_value_shape (doc : value) (n : nat) (out : list line)
  (row_idx label : value) :
  (forall val, exists e s',
      set_cell_value row_idx label val (mkState doc n out) = (Raise e, s'))
  \/ exists doc0 n0 r t cs,
       table_at doc0 r t /\
       forall val,
       set_cell_value row_idx label val (mkState doc n out) =
       (fst (cell_write row_idx label val n0 cs),
        mkState
          (with_cells r (fst (snd (cell_write row_idx label val n0 cs))) doc0)
          (snd (snd (cell_write row_idx label val n0 cs))) out).
Proof.
  assert (Found : forall doc0 n0 r t,
    table_at doc0 r t ->
    (forall val, exists e s',
        set_cell_value row_idx label val (mkState doc0 n0 out) = (Raise e, s'))
    \/ exists cs,
         forall val,
         set_cell_value row_idx label val (mkState doc0 n0 out) =
         (fst (cell_write row_idx label val n0 cs),
          mkState
            (with_cells r (fst (snd (cell_write row_idx label val n0 cs)))
               doc0)
            (snd (snd (cell_write row_idx label val n0 cs))) out)).
  { intros doc0 n0 r t Ta.
    destruct (dict_get t "cells") as [c|] eqn:G.
    - assert (D : (exists cs, c = VList cs) \/ forall l, c <> VList l).
      { destruct c; try (right; discriminate). left. eauto. }
      destruct D as [[cs ->]|D].
      + right. exists cs. intros val. now apply set_cell_value_sim with (t := t).
      + left. intros val.
        now apply set_cell_value_bad_cells_raise with (r := r) (t := t) (c := c).
    - right. exists []. intros val.
      now rewrite (set_cell_value_no_cells doc0 r t _ _ _ _ _ Ta G). }
  destruct (find_or_create_table_effect doc)
    as [(r & F & E)|[E|(d & K & l & -> & F & Sel & Gk & E)]].
  - destruct (find_table_some _ _ F) as [t Ta].
    destruct (Found doc n r t Ta) as [R|[cs Sim]]; [now left|].
    right. exists doc, n, r, t, cs. auto.
  - left. intros val. destruct (E n out) as (e & n' & E').
    rewrite (set_cell_value_raise _ _ _ _ _ _ E'). eauto.
  - destruct (new_table_dict (VFloat (time_time n))) as (t & Et & Ty & Ce).
    pose proof (appended_table_at d K l t F Sel Gk Ty) as Ta.
    specialize (E n out). rewrite Et in E.
    destruct (Found _ (S n) _ t Ta) as [R|[cs Sim]].
    + left. intros val.
      rewrite (set_cell_value_via _ _ _ _ _ _ E (proj1 Ta)). apply R.
    + right. eexists _, (S n), _, t, cs. split; [exact Ta|].
      intros val.
      rewrite (set_cell_value_via _ _ _ _ _ _ E (proj1 Ta)). apply Sim.
Qed.

(** X7. A write is read back: when [set_cell_value] returns, for a row
    index and a label that are scalars, it returns [True], and the scan
    for the row and the label in the cells of the document's table then
    finds a cell, of that row and label, whose text is the value
    written. *)
Theorem set_cell_value_read_back (s s1 : state)
  (row_idx label val b : value) :
  hashable row_idx = true -> hashable label = true ->
  set_cell_value row_idx label val s = (Ok b, s1) ->
  b = VBool true /\
  exists j c,
    find_cell_loop (the_cells (the_document s1)) row_idx label 0
    = Ok (Some j) /\
    nth_error (the_cells (the_document s1)) j = Some c /\
    cell_field c "text" = val /\
    py_eq (cell_field c "row") row_idx = true /\
    py_eq (cell_field c "label") label = true.
Proof.
  intros Hr Hl H. destruct s as [doc n out].
  destruct (set_cell_value_shape doc n out row_idx label)
    as [R|(doc0 & n0 & r & t & cs & Ta & Sim)].
  - destruct (R val) as (e & s' & E). rewrite E in H. discriminate.
  - rewrite Sim in H.
    destruct (cell_write row_idx label val n0 cs) as [res [cs1 n1]] eqn:W.
    simpl in H. inversion H; subst. cbn [the_document].
    rewrite (with_cells_cells _ _ _ _ Ta).
    apply (cell_write_read_back row_idx label val n0 n1 cs cs1 b);
      auto using py_eq_refl_hashable.
Qed.

(** X8. The last write wins: after a write that returned, a second write
    to the same row and label, both scalars, leaves the state that this
    second write alone would have left, clock included; the first write
    leaves no trace.  In particular the same write made twice is the
    write made once. *)
Theorem set_cell_value_last_write_wins (s s1 : state)
  (row_idx label v1 v2 b : value) :
  hashable row_idx = true -> hashable label = true ->
  set_cell_value row_idx label v1 s = (Ok b, s1) ->
  set_cell_value row_idx label v2 s1 = set_cell_value row_idx label v2 s
  /\ set_cell_value row_idx label v1 s1 = (Ok b, s1).
Proof.
  intros Hr Hl H.
  assert (A : forall v2,
    set_cell_value row_idx label v2 s1 = set_cell_value row_idx label v2 s).
  { clear v2. intros v2. destruct s as [doc n out].
    destruct (set_cell_value_shape doc n out row_idx label)
      as [R|(doc0 & n0 & r & t & cs & Ta & Sim)].
    - destruct (R v1) as (e & s' & E). rewrite E in H. discriminate.
    - rewrite Sim in H. rewrite (Sim v2).
      destruct (cell_write row_idx label v1 n0 cs) as [res [cs1 n1]] eqn:W.
      simpl in H. inversion H; subst.
      rewrite (set_cell_value_sim _ r (dict_set t "cells" (VList cs1)) cs1).
      + rewrite with_cells_twice.
        now rewrite (cell_write_overwrite row_idx label v1 v2 n0 n1 cs cs1 b)
          by auto using py_eq_refl_hashable.
      + now apply with_cells_table_at.
      + apply dict_get_set_eq. }
  split; [apply A|]. now rewrite A.
Qed.

(** ** Equality of dict keys *)

Lemma Qeq_bool_inject_Z (n m : Z) :
  Qeq_bool (inject_Z n) (inject_Z m) = (n =? m).
Proof. unfold Qeq_bool. simpl. now rewrite !Z.mul_1_r. Qed.

Lemma py_eq_hashable (a b : value) :
  hashable a = true -> hashable b = true ->
  py_eq a b =
  match num a, num b with
  | Some x, Some y => Qeq_bool x y
  | None, None =>
      match a, b with
      | VNone, VNone => true
      | VStr s, VStr t => String.eqb s t
      | _, _ => false
      end
  | _, _ => false
  end.
Proof.
  destruct a, b; simpl; try discriminate; intros _ _; auto.
  symmetry. apply Qeq_bool_inject_Z.
Qed.

Lemma Qeq_bool_sym (x y : Q) : Qeq_bool x y = Qeq_bool y x.
Proof.
  apply eq_true_iff_eq. rewrite !Qeq_bool_iff. split; intros H; now symmetry.
Qed.

Lemma py_eq_sym (a b : value) :
  hashable a = true -> hashable b = true -> py_eq a b = py_eq b a.
Proof.
  intros Ha Hb. rewrite (py_eq_hashable a b), (py_eq_hashable b a) by auto.
  destruct (num a), (num b); auto using Qeq_bool_sym.
  destruct a, b; auto using String.eqb_sym.
Qed.

Lemma py_eq_trans (a b c : value) :
  hashable a = true -> hashable b = true -> hashable c = true ->
  py_eq a b = true -> py_eq b c = true -> py_eq a c = true.
Proof.
  intros Ha Hb Hc.
  rewrite (py_eq_hashable a b), (py_eq_hashable b c), (py_eq_hashable a c)
    by auto.
  destruct (num a), (num b), (num c); try discriminate.
  - rewrite !Qeq_bool_iff. intros H1 H2. now rewrite H1.
  - destruct a, b, c; try discriminate; auto.
    intros H1 H2. apply String.eqb_eq in H1, H2. subst.
    apply String.eqb_refl.
Qed.

(** ** The distinct keys of a list *)

Lemma distinct_keys_incl (l : list value) (k : value) :
  In k (distinct_keys l) -> In k l.
Proof.
  revert k. induction l as [|a l IH]; simpl; auto.
  intros k [H|H]; auto. apply filter_In in H as [H _]. auto.
Qed.

Lemma distinct_keys_hashable (l : list value) :
  Forall (fun k => hashable k = true) l ->
  Forall (fun k => hashable k = true) (distinct_keys l).
Proof.
  rewrite !Forall_forall. intros H k Hin. now apply H, distinct_keys_incl.
Qed.

Lemma distinct_filter (f : value -> bool) (l : list value) :
  distinct l = true -> distinct (filter f l) = true.
Proof.
  induction l as [|a l IH]; simpl; auto.
  intros H. apply andb_prop in H as [Ha Hl].
  destruct (f a); simpl; auto.
  rewrite IH by auto. rewrite andb_true_r.
  rewrite forallb_forall in *. intros y Hy.
  apply filter_In in Hy as [Hy _]. auto.
Qed.

Lemma distinct_keys_distinct (l : list value) :
  distinct (distinct_keys l) = true.
Proof.
  induction l as [|a l IH]; simpl; auto.
  rewrite distinct_filter by auto. rewrite andb_true_r.
  apply forallb_forall. intros y Hy. now apply filter_In in Hy as [_ Hy].
Qed.

Lemma distinct_keys_snoc (l : list value) (x : value) :
  distinct_keys (l ++ [x])
  = if existsb (fun y => py_eq y x) l then distinct_keys l
    else distinct_keys l ++ [x].
Proof.
  induction l as [|a l IH]; simpl; auto.
  rewrite IH. destruct (py_eq a x) eqn:E; simpl.
  - destruct (existsb (fun y => py_eq y x) l); auto.
    rewrite filter_app. simpl. rewrite E. simpl. now rewrite app_nil_r.
  - destruct (existsb (fun y => py_eq y x) l); auto.
    rewrite filter_app. simpl. now rewrite E.
Qed.

(** Every key of the list has its equal among the distinct ones. *)
Lemma distinct_keys_repr (l : list value) (y : value) :
  Forall (fun k => hashable k = true) l -> In y l ->
  exists k, In k (distinct_keys l) /\ py_eq k y = true.
Proof using.
  induction 1 as [|a l Ha Hl IH]; simpl; [intros []|].
  intros [->|Hin].
  - exists y. split; auto. now apply py_eq_refl_hashable.
  - destruct (IH Hin) as (k & Hk & E).
    assert (Hhk : hashable k = true).
    { pose proof (distinct_keys_hashable l Hl) as Hd.
      rewrite Forall_forall in Hd. auto. }
    assert (Hhy : hashable y = true)
      by (rewrite Forall_forall in Hl; auto).
    destruct (py_eq a k) eqn:Eak.
    + exists a. split; auto. now apply py_eq_trans with (b := k).
    + exists k. split; auto. right. apply filter_In. split; auto.
      now rewrite Eak.
Qed.

Lemma existsb_distinct_keys (l : list value) (x : value) :
  Forall (fun k => hashable k = true) l -> hashable x = true ->
  existsb (fun k => py_eq k x) (distinct_keys l)
  = existsb (fun y => py_eq y x) l.
Proof.
  intros Hl Hx. apply eq_true_iff_eq. rewrite !existsb_exists. split.
  - intros (k & Hin & E). exists k. split; auto.
    now apply distinct_keys_incl.
  - intros (y & Hin & E).
    destruct (distinct_keys_repr l y Hl Hin) as (k & Hk & Eky).
    exists k. split; auto.
    apply py_eq_trans with (b := y); auto.
    + pose proof (distinct_keys_hashable l Hl) as Hd.
      rewrite Forall_forall in Hd. auto.
    + rewrite Forall_forall in Hl. auto.
Qed.

(** ** The loop of the grouping on any cells *)

Lemma rows_mem_keyed (B : value -> list value) (ks : list value)
  (x : value) :
  rows_mem (map (fun k => (k, B k)) ks) x = existsb (fun k => py_eq k x) ks.
Proof. induction ks as [|a ks IH]; simpl; auto. now rewrite IH. Qed.

Lemma rows_append_keyed (B : value -> list value) (ks : list value)
  (x c : value) :
  Forall (fun k => hashable k = true) ks -> hashable x = true ->
  distinct ks = true ->
  rows_append (map (fun k => (k, B k)) ks) x c
  = map (fun k => (k, if py_eq k x then B k ++ [c] else B k)) ks.
Proof.
  intros Hh Hx. induction Hh as [|a ks Ha Hks IH]; simpl; auto.
  intros D. apply andb_prop in D as [Da Dks].
  destruct (py_eq a x) eqn:E.
  - f_equal. apply map_ext_in. intros k' Hin.
    destruct (py_eq k' x) eqn:E'; auto.
    rewrite forallb_forall in Da. specialize (Da k' Hin).
    assert (Hk' : hashable k' = true)
      by (rewrite Forall_forall in Hks; auto).
    assert (py_eq a k' = true).
    { apply py_eq_trans with (b := x); auto.
      now rewrite py_eq_sym by auto. }
    rewrite H in Da. discriminate.
  - now rewrite IH.
Qed.

Lemma groupable_row (c : value) :
  groupable c = true ->
  py_get c "row" (VInt 0) = Ok (row_key c) /\ hashable (row_key c) = true.
Proof.
  unfold groupable. intros H. apply andb_prop in H as [Hd Hh].
  destruct c; try discriminate. auto.
Qed.

Lemma groupable_keys (cs : list value) :
  Forall (fun c => groupable c = true) cs ->
  Forall (fun k => hashable k = true) (map row_key cs).
Proof.
  induction 1 as [|c cs Hc _ IH]; simpl; constructor; auto.
  now apply groupable_row.
Qed.

Lemma filter_in_group_none (cs : list value) (x : value) :
  Forall (fun c => groupable c = true) cs -> hashable x = true ->
  existsb (fun y => py_eq y x) (map row_key cs) = false ->
  filter (in_group x) cs = [].
Proof.
  intros Hcs Hx. induction Hcs as [|c cs Hc _ IH]; simpl; auto.
  rewrite orb_false_iff. intros [E H]. unfold in_group at 1.
  rewrite py_eq_sym, E by (auto; now apply groupable_row). auto.
Qed.

Lemma rows_of_snoc (pre : list value) (c : value) :
  Forall (fun c => groupable c = true) pre -> groupable c = true ->
  rows_append
    (if negb (rows_mem (rows_of pre) (row_key c))
     then rows_of pre ++ [(row_key c, [])] else rows_of pre)
    (row_key c) c
  = rows_of (pre ++ [c]).
Proof.
  intros Hpre Hc. destruct (groupable_row c Hc) as [_ Hr].
  pose proof (groupable_keys pre Hpre) as Hk.
  set (r := row_key c) in *.
  match goal with |- rows_append ?X _ _ = _ =>
    assert (R0 : X =
      map (fun k => (k, filter (in_group k) pre))
        (distinct_keys (map row_key (pre ++ [c]))))
  end.
  { unfold rows_of. rewrite rows_mem_keyed, existsb_distinct_keys by auto.
    rewrite map_app. simpl. fold r. rewrite distinct_keys_snoc.
    destruct (existsb (fun y => py_eq y r) (map row_key pre)) eqn:M;
      simpl; auto.
    rewrite map_app. simpl. now rewrite (filter_in_group_none _ _ Hpre Hr M). }
  rewrite R0, rows_append_keyed; auto.
  - unfold rows_of. apply map_ext. intros k.
    rewrite filter_app. simpl. change (in_group k c) with (py_eq k r).
    destruct (py_eq k r); auto. now rewrite app_nil_r.
  - apply distinct_keys_hashable. rewrite map_app. apply Forall_app.
    split; [exact Hk|]. repeat constructor. exact Hr.
  - apply distinct_keys_distinct.
Qed.

Lemma group_cells_loop_any (cs : list value) :
  forall pre, Forall (fun c => groupable c = true) pre ->
  group_cells_loop cs (rows_of pre)
  = match find (fun c => negb (groupable c)) cs with
    | None => Ok (rows_of (pre ++ cs))
    | Some c => Raise (if is_dict c then TypeError else AttributeError)
    end.
Proof.
  induction cs as [|c cs IH]; intros pre Hpre; simpl.
  - now rewrite app_nil_r.
  - destruct (groupable c) eqn:Hc; simpl.
    + destruct (groupable_row c Hc) as [G Hh]. rewrite G. simpl.
      unfold rows_lacks. rewrite Hh. simpl.
      rewrite rows_of_snoc, IH by (auto; apply Forall_app; auto).
      now rewrite <- app_assoc.
    + unfold groupable in Hc. destruct c; simpl in *; auto.
      unfold rows_lacks.
      destruct (dict_get d "row") as [v|]; simpl in *; [|discriminate].
      now rewrite Hc.
Qed.

(** X9. [group_cells_by_row] on any table whose [cells] is a list.  When
    every cell is a record whose row can be a dict key, it returns one
    group per distinct row, in first-seen order, each holding the cells
    of that row in table order; rows are equal as Python dict keys are
    (1, 1.0 and True are one row), and a cell without a row counts for
    row 0.  Otherwise it raises at the first cell that is not such a
    record: [AttributeError] for a cell that is not a record,
    [TypeError] for a row that is a list or a dict. *)
Theorem group_cells_by_row_any (t : dict) (cs : list value) :
  dict_get t "cells" = Some (VList cs) ->
  group_cells_by_row (VDict t)
  = match find (fun c => negb (groupable c)) cs with
    | None => Ok (rows_of cs)
    | Some c => Raise (if is_dict c then TypeError else AttributeError)
    end.
Proof.
  intros G. rewrite (group_cells_by_row_cells t cs G).
  exact (group_cells_loop_any cs [] (Forall_nil _)).
Qed.

(** ** The groups are a partition of the cells *)

Lemma filter_eq_key_none (ks : list value) (a x : value) :
  Forall (fun k => hashable k = true) ks ->
  hashable a = true -> hashable x = true ->
  py_eq a x = true ->
  forallb (fun y => negb (py_eq a y)) ks = true ->
  filter (fun k => py_eq k x) ks = [].
Proof.
  intros Hks Ha Hx E. induction Hks as [|k ks Hk _ IH]; simpl; auto.
  intros D. apply andb_prop in D as [Dk Dks].
  destruct (py_eq k x) eqn:E'; auto.
  assert (py_eq a k = true).
  { apply py_eq_trans with (b := x); auto. now rewrite py_eq_sym by auto. }
  rewrite H in Dk. discriminate.
Qed.

Lemma distinct_one_key (ks : list value) (k x : value) :
  Forall (fun k => hashable k = true) ks -> hashable x = true ->
  distinct ks = true -> In k ks -> py_eq k x = true ->
  filter (fun k => py_eq k x) ks = [k].
Proof using.
  intros Hks Hx. induction Hks as [|a ks Ha Hks IH]; simpl;
    [intros _ []|].
  intros D Hin E. apply andb_prop in D as [Da Dks].
  assert (Hk : hashable k = true).
  { destruct Hin as [->|Hin]; auto. rewrite Forall_forall in Hks. auto. }
  destruct (py_eq a x) eqn:Eax.
  - rewrite (filter_eq_key_none ks a x) by auto.
    destruct Hin as [->|Hin]; auto.
    rewrite forallb_forall in Da. specialize (Da k Hin).
    assert (py_eq a k = true).
    { apply py_eq_trans with (b := x); auto. now rewrite py_eq_sym by auto. }
    rewrite H in Da. discriminate.
  - destruct Hin as [->|Hin]; [congruence|]. auto.
Qed.

Lemma length_groups_cons (ks : list value) (c : value) (cs : list value) :
  List.length (List.concat (map (fun k => filter (in_group k) (c :: cs)) ks))
  = (List.length (filter (fun k => in_group k c) ks)
     + List.length (List.concat (map (fun k => filter (in_group k) cs) ks)))%nat.
Proof.
  induction ks as [|a ks IH]; [reflexivity|].
  cbn [map List.concat]. rewrite !length_app, IH. cbn [filter].
  destruct (in_group a c); simpl; lia.
Qed.

Lemma length_groups (ks : list value) (cs : list value) :
  Forall (fun k => hashable k = true) ks -> distinct ks = true ->
  Forall (fun c => groupable c = true) cs ->
  (forall c, In c cs -> exists k, In k ks /\ in_group k c = true) ->
  List.length (List.concat (map (fun k => filter (in_group k) cs) ks))
  = List.length cs.
Proof.
  intros Hks D Hcs. induction Hcs as [|c cs Hc _ IH]; intros Cover.
  - simpl. clear. induction ks as [|a ks IHk]; simpl; auto.
  - rewrite length_groups_cons.
    destruct (Cover c (or_introl eq_refl)) as (k & Hin & E).
    unfold in_group in *.
    rewrite (distinct_one_key ks k (row_key c)); auto.
    + simpl. f_equal. apply IH. intros c' Hc'. apply Cover. now right.
    + now apply groupable_row.
Qed.

Lemma find_none_groupable (cs : list value) :
  find (fun c => negb (groupable c)) cs = None ->
  Forall (fun c => groupable c = true) cs.
Proof.
  induction cs as [|c cs IH]; simpl; auto.
  destruct (groupable c) eqn:G; simpl; [|discriminate]. auto.
Qed.

Lemma rows_of_keys (cs : list value) :
  map fst (rows_of cs) = distinct_keys (map row_key cs).
Proof. unfold rows_of. rewrite map_map. simpl. apply map_id. Qed.

Lemma in_rows_of (cs : list value) (k : value) (g : list value) :
  In (k, g) (rows_of cs) <->
  In k (distinct_keys (map row_key cs)) /\ g = filter (in_group k) cs.
Proof.
  unfold rows_of. rewrite in_map_iff. split.
  - intros (k' & E & Hin). inversion E; subst. auto.
  - intros [Hin ->]. eauto.
Qed.

(** X10. The groups [group_cells_by_row] returns are a partition of the
    cells of the table: no two groups have the same key, no group is
    empty, every cell is in a group and in no group of another key, and
    the groups hold as many cells in all as the table has. *)
Theorem group_cells_by_row_partition (t : dict) (cs : list value)
  (rows : rows_dict) :
  dict_get t "cells" = Some (VList cs) ->
  group_cells_by_row (VDict t) = Ok rows ->
  distinct (map fst rows) = true
  /\ Forall (fun kg => snd kg <> []) rows
  /\ (forall c, In c cs ->
      exists k g, In (k, g) rows /\ In c g /\
        forall k' g', In (k', g') rows -> In c g' -> k' = k)
  /\ List.length (List.concat (map snd rows)) = List.length cs.
Proof.
  intros G H. rewrite (group_cells_by_row_cells t cs G) in H.
  pose proof (group_cells_loop_any cs [] (Forall_nil _)) as L.
  change (rows_of []) with (@nil (value * list value)) in L.
  cbn [app] in L. rewrite L in H. clear L.
  destruct (find (fun c => negb (groupable c)) cs) eqn:Fn; [discriminate|].
  simpl in H. inversion H; subst rows. clear H.
  pose proof (find_none_groupable cs Fn) as Hcs.
  pose proof (groupable_keys cs Hcs) as Hk.
  pose proof (distinct_keys_hashable _ Hk) as Hd.
  assert (Cover : forall c, In c cs ->
            exists k, In k (distinct_keys (map row_key cs))
                      /\ in_group k c = true).
  { intros c Hin. apply (distinct_keys_repr _ (row_key c) Hk).
    now apply in_map. }
  split; [|split; [|split]].
  - rewrite rows_of_keys. apply distinct_keys_distinct.
  - apply Forall_forall. intros [k g] Hin. apply in_rows_of in Hin as [Hin ->].
    simpl. pose proof (distinct_keys_incl _ _ Hin) as Hin'.
    apply in_map_iff in Hin' as (c & E & Hc). intros Hnil.
    assert (In c (filter (in_group k) cs)).
    { apply filter_In. split; auto. unfold in_group. rewrite E.
      apply py_eq_refl_hashable. rewrite Forall_forall in Hd. auto. }
    rewrite Hnil in H. contradiction.
  - intros c Hin. destruct (Cover c Hin) as (k & Hkin & E).
    exists k, (filter (in_group k) cs). split; [now apply in_rows_of|].
    split; [apply filter_In; auto|].
    intros k' g' Hin' Hc'. apply in_rows_of in Hin' as [Hk' ->].
    apply filter_In in Hc' as [_ E'].
    assert (Hr : hashable (row_key c) = true).
    { rewrite Forall_forall in Hcs. now apply groupable_row, Hcs. }
    pose proof (distinct_one_key _ k (row_key c) Hd Hr
                  (distinct_keys_distinct _) Hkin E) as One.
    assert (In k' (filter (fun k0 => py_eq k0 (row_key c))
                     (distinct_keys (map row_key cs))))
      by (apply filter_In; auto).
    rewrite One in H. destruct H as [H|[]]. now symmetry.
  - unfold rows_of. rewrite map_map. simpl.
    apply length_groups; auto. apply distinct_keys_distinct.
Qed.

(** ** What the script prints *)

Lemma quiet_ret {A} (a : A) : quiet (ret a).
Proof. now intros s. Qed.

Lemma quiet_raise {A} (e : exn) : quiet (@raise A e).
Proof. now intros s. Qed.

Lemma quiet_lift {A} (r : result A) : quiet (lift r).
Proof. now intros s. Qed.

Lemma quiet_get_document : quiet get_document.
Proof. now intros s. Qed.

Lemma quiet_modify_document (f : value -> value) : quiet (modify_document f).
Proof. now intros s. Qed.

Lemma quiet_py_time : quiet py_time.
Proof. now intros s. Qed.

Lemma quiet_bind {A B} (m : M A) (k : A -> M B) :
  quiet m -> (forall a, quiet (k a)) -> quiet (bind m k).
Proof.
  intros Hm Hk s. unfold bind. specialize (Hm s).
  destruct (m s) as [[a|e] s']; simpl in *; auto.
  now rewrite Hk.
Qed.

Create HintDb quiet.

#[local] Hint Resolve quiet_ret quiet_raise quiet_lift quiet_get_document
  quiet_modify_document quiet_py_time : quiet.

Ltac quiet_step :=
  first [ apply quiet_bind; [|intros ?]
        | match goal with
          | |- quiet (match ?x with _ => _ end) => destruct x
          | |- quiet (if ?x then _ else _) => destruct x
          end
        | solve [auto with quiet] ].

Lemma quiet_append_box (key : string) (box : value) :
  quiet (append_box key box).
Proof using.
  unfold append_box.
  apply quiet_bind; [apply quiet_get_document|intros document].
  apply quiet_bind; [apply quiet_lift|intros boxes].
  destruct boxes; try apply quiet_raise.
  apply quiet_bind; [apply quiet_modify_document|intros _; apply quiet_ret].
Qed.

Lemma quiet_find_or_create_table : quiet find_or_create_table.
Proof.
  unfold find_or_create_table. repeat quiet_step; apply quiet_append_box.
Qed.

Lemma quiet_set_cell_value (row_idx label val : value) :
  quiet (set_cell_value row_idx label val).
Proof.
  unfold set_cell_value, table_cells, set_cell_text, append_cell.
  apply quiet_bind; [apply quiet_find_or_create_table|intros table].
  repeat quiet_step.
Qed.

Lemma quiet_copy_loop (keys : list value) (v : value) :
  quiet (copy_loop keys v).
Proof.
  induction keys as [|k keys IH]; simpl; [apply quiet_ret|].
  apply quiet_bind; [apply quiet_lift|intros positive].
  apply quiet_bind; [|intros _; exact IH].
  destruct positive; [|apply quiet_ret].
  apply quiet_bind; [apply quiet_set_cell_value|intros _; apply quiet_ret].
Qed.

Lemma copy_body_quiet (s : state) (v : value) :
  get_field_value (the_document s) (VStr "invoice_date") = Ok v ->
  truthy v = true ->
  stdout (snd (copy_body s)) = stdout s.
Proof.
  intros G T.
  assert (Q : quiet
    (bind find_or_create_table (fun table =>
     bind get_document (fun document =>
     bind (lift (group_cells_by_row (load table document))) (fun rows =>
     copy_loop (map fst rows) v))))).
  { apply quiet_bind; [apply quiet_find_or_create_table|intros table].
    apply quiet_bind; [apply quiet_get_document|intros document].
    apply quiet_bind; [apply quiet_lift|intros rows].
    apply quiet_copy_loop. }
  specialize (Q s).
  unfold copy_body, bind at 1 2, get_document at 1, lift at 1.
  cbn [fst snd]. rewrite G, T. exact Q.
Qed.

(** What the copy operation leaves on the output. *)
Lemma copy_stdout (s : state) :
  stdout (exec copy_invoice_date_to_line_items s)
  = match get_field_value (the_document s) (VStr "invoice_date") with
    | Raise e => Error_copying e :: stdout s
    | Ok v =>
        if truthy v then
          match fst (copy_body s) with
          | Ok _ => stdout s
          | Raise e => Error_copying e :: stdout s
          end
        else Warning_field_not_found :: stdout s
    end.
Proof.
  destruct s as [doc n out]. cbn [the_document ticks stdout].
  unfold exec, copy_invoice_date_to_line_items, try_except, bind,
    print, get_document.
  destruct (get_field_value doc (VStr "invoice_date")) as [v|e] eqn:G.
  - destruct (truthy v) eqn:T.
    + pose proof (copy_body_quiet (mkState doc n out) v G T) as Q.
      destruct (copy_body (mkState doc n out)) as [[u|e] s1];
        simpl in *; now rewrite Q.
    + now rewrite (copy_body_falsy _ _ _ _ G T).
  - now rewrite (copy_body_raise _ _ _ _ G).
Qed.

(** X11. What the copy operation returns and prints.  It always returns
    the document and never raises.  When the field reader raises, it
    prints the error and leaves the rest of the state as it is; when the
    reader gives a value that counts as false (no field, an empty text,
    [None], zero), it prints the warning and leaves the rest of the
    state as it is; otherwise it prints nothing when its [try] block
    returns, and one line, the error, when the block raises. *)
Theorem copy_output (s : state) :
  let s' := exec copy_invoice_date_to_line_items s in
  fst (copy_invoice_date_to_line_items s) = Ok (the_document s')
  /\ match get_field_value (the_document s) (VStr "invoice_date") with
     | Raise e =>
         s' = mkState (the_document s) (ticks s)
                (Error_copying e :: stdout s)
     | Ok v =>
         if truthy v then
           stdout s' = match fst (copy_body s) with
                       | Ok _ => stdout s
                       | Raise e => Error_copying e :: stdout s
                       end
         else
           s' = mkState (the_document s) (ticks s)
                  (Warning_field_not_found :: stdout s)
     end.
Proof.
  intros s'. subst s'. split.
  - destruct (copy_returns_document s) as (-> & <- & _). reflexivity.
  - destruct s as [doc n out]. cbn [the_document ticks stdout].
    destruct (get_field_value doc (VStr "invoice_date")) as [v|e] eqn:G.
    + destruct (truthy v) eqn:T.
      * pose proof (copy_body_quiet (mkState doc n out) v G T) as Q.
        unfold exec, copy_invoice_date_to_line_items, try_except, bind,
          print, get_document.
        destruct (copy_body (mkState doc n out)) as [[u|e] s1];
          simpl in *; now rewrite Q.
      * unfold exec, copy_invoice_date_to_line_items, try_except, bind,
          print, get_document.
        now rewrite (copy_body_falsy _ _ _ _ G T).
    + unfold exec, copy_invoice_date_to_line_items, try_except, bind,
        print, get_document.
      now rewrite (copy_body_raise _ _ _ _ G).
Qed.

(** ** The copy operation keeps a document well formed *)

Lemma is_element_list_in (d : dict) (K : string) (l : list value) :
  is_document (VDict d) = true -> dict_get d K = Some (VList l) ->
  K = "moderated_boxes" \/ K = "predicted_boxes" ->
  forallb is_element l = true.
Proof.
  simpl. intros D G [->| ->]; rewrite G in D; simpl in D;
    apply andb_prop in D as [D1 D2]; auto.
Qed.

Lemma is_document_set (d : dict) (K : string) (l l' : list value) :
  is_document (VDict d) = true -> dict_get d K = Some (VList l) ->
  (forallb is_element l = true -> forallb is_element l' = true) ->
  is_document (VDict (dict_set d K (VList l'))) = true.
Proof.
  intros D G H. pose proof D as D'. simpl in D'.
  apply andb_prop in D' as [D1 D2]. simpl.
  destruct (String.eqb K "moderated_boxes") eqn:E1.
  - apply String.eqb_eq in E1. subst K.
    rewrite dict_get_set_eq, dict_get_set_ne by discriminate.
    rewrite D2, andb_true_r. simpl. apply H.
    apply (is_element_list_in d "moderated_boxes"); auto.
  - apply String.eqb_neq in E1. rewrite (dict_get_set_ne d K) by auto.
    rewrite D1. simpl.
    destruct (String.eqb K "predicted_boxes") eqn:E2.
    + apply String.eqb_eq in E2. subst K. rewrite dict_get_set_eq. simpl.
      apply H. apply (is_element_list_in d "predicted_boxes"); auto.
    + apply String.eqb_neq in E2. now rewrite dict_get_set_ne by auto.
Qed.

Lemma forallb_update_nth {A} (p : A -> bool) (f : A -> A) (i : nat)
  (l : list A) :
  (forall x, p x = true -> p (f x) = true) ->
  forallb p l = true -> forallb p (update_nth i f l) = true.
Proof.
  intros Hf. revert i. induction l as [|x l IH]; intros [|i]; simpl; auto;
    intros H; apply andb_prop in H as [Hx Hl]; apply andb_true_intro; auto.
Qed.

Lemma is_document_with_cells (doc : value) (r : ref) (cs : list value) :
  is_document doc = true ->
  Forall (fun c => is_cell c = true) cs ->
  is_document (with_cells r cs doc) = true.
Proof.
  intros D Ty. unfold with_cells, update.
  destruct doc as [| | | | | |d]; auto.
  destruct (dict_get d (ref_key r)) as [[| | | | |l|]|] eqn:G; auto.
  apply is_document_set with (l := l); auto.
  apply forallb_update_nth. intros b Hb.
  destruct b; try discriminate. simpl. rewrite dict_get_set_eq.
  apply forallb_forall. rewrite Forall_forall in Ty. auto.
Qed.

(** The [try] block on a document of the data model returns, and
    leaves a document of the data model. *)
Lemma copy_body_on_document (doc : value) (n : nat) (out : list line) :
  is_document doc = true ->
  fst (copy_body (mkState doc n out)) = Ok tt
  /\ is_document (the_document (exec copy_body (mkState doc n out))) = true.
Proof.
  intros D.
  pose proof (get_field_value_typed doc "invoice_date" D) as G.
  set (v := match field_element "invoice_date" doc with
            | Some b => ocr_text b
            | None => VStr ""
            end) in G.
  destruct (truthy v) eqn:T.
  2:{ unfold exec. rewrite (copy_body_falsy _ _ _ _ G T). auto. }
  destruct (is_document_table doc D) as [F|(r & t & Ta & El)].
  - destruct (is_document_inv doc D) as (d & K & l & -> & Sel & Ty & Gk).
    destruct Gk as [Gk|[_ ->]].
    2:{ unfold get_field_value in G. rewrite Sel in G. simpl in G.
        inversion G as [G']. rewrite <- G' in T. discriminate. }
    unfold exec. rewrite (copy_body_creates d K l v n out F Sel Gk G T).
    split; auto. cbn [snd the_document].
    apply is_document_set with (l := l); auto.
    intros Hl. rewrite forallb_app, Hl. reflexivity.
  - destruct (is_element_cells t El) as [Ty Gc].
    remember (cells_of (VDict t)) as cs eqn:Ecs.
    destruct Gc as [Gc|Gc].
    + unfold exec. rewrite (copy_body_table _ _ _ _ _ _ Ta G T).
      rewrite (group_cells_by_row_no_cells t Gc). simpl. auto.
    + pose proof (group_cells_by_row_typed t _ Gc Ty) as Gr.
      unfold exec. rewrite (copy_body_rewrite _ _ _ _ _ _ Ta Gc G T Gr).
      cbn [fst snd the_document].
      unfold rows_spec. rewrite map_map. simpl.
      change (map (fun x : Z => VInt x)) with (map VInt).
      destruct (rows_write_typed v (first_seen (map row_z cs)) n cs Ty)
        as (cs' & n' & W & Ty').
      rewrite W. split; auto. cbn [fst snd].
      now apply is_document_with_cells.
Qed.

(** What the copy operation prints for a document of the data model. *)
Lemma copy_stdout_on_document (doc : value) (n : nat) (out : list line) :
  is_document doc = true ->
  stdout (exec copy_invoice_date_to_line_items (mkState doc n out))
  = if truthy (field_text doc) then out else Warning_field_not_found :: out.
Proof.
  intros D.
  pose proof (get_field_value_typed doc "invoice_date" D) as G.
  destruct (copy_body_on_document doc n out D) as [B1 _].
  rewrite (copy_stdout (mkState doc n out)). cbn [the_document stdout].
  rewrite G, B1. reflexivity.
Qed.

(** X12. On a document of the data model (element lists of records,
    cells whose row and column are integers where present) the copy
    operation never fails: its [try] block returns, so that no error is
    printed; the warning is printed exactly when the document has no
    invoice date field or the field's text counts as false; and the
    document it leaves is again a document of the data model. *)
Theorem copy_succeeds_on_documents (doc : value) (n : nat)
  (out : list line) :
  is_document doc = true ->
  let s' := exec copy_invoice_date_to_line_items (mkState doc n out) in
  let v := match field_element "invoice_date" doc with
           | Some b => ocr_text b
           | None => VStr ""
           end in
  fst (copy_body (mkState doc n out)) = Ok tt
  /\ stdout s' = (if truthy v then out else Warning_field_not_found :: out)
  /\ is_document (the_document s') = true.
Proof.
  intros D s' v. subst s'.
  destruct (copy_body_on_document doc n out D) as [B1 B2].
  destruct (copy_returns_document (mkState doc n out)) as (_ & Doc & _).
  rewrite Doc. split; [exact B1|split; [|exact B2]].
  pose proof (get_field_value_typed doc "invoice_date" D) as G. fold v in G.
  rewrite (copy_stdout (mkState doc n out)). cbn [the_document stdout].
  rewrite G, B1. reflexivity.
Qed.

(** ** The cells the copy operation does not write *)

Lemma py_gt_num_pos (r : value) (p : Q) :
  num r = Some p -> (0 < p)%Q -> py_gt r (VInt 0) = Ok true.
Proof.
  assert (L : forall q, (0 < q)%Q -> negb (Qle_bool q (inject_Z 0)) = true).
  { intros q Hq. apply negb_true_iff.
    destruct (Qle_bool q (inject_Z 0)) eqn:E; auto.
    apply Qle_bool_iff in E. exfalso. now apply (Qlt_not_le 0 q). }
  destruct r; simpl; try discriminate; intros H Hp; inversion H; subst.
  - now rewrite L.
  - f_equal. apply Z.ltb_lt. unfold Qlt in Hp. simpl in Hp. lia.
  - now rewrite L.
Qed.

Lemma py_gt_eq_pos (r k : value) :
  py_eq r k = true -> py_gt k (VInt 0) = Ok true ->
  py_gt r (VInt 0) = Ok true.
Proof.
  intros E Hk.
  destruct (py_gt_pos_num k Hk) as (q & N & Hq).
  destruct (py_eq_num r k q E N) as (p & Np & Hp).
  apply (py_gt_num_pos r p Np). now rewrite Hp.
Qed.

Lemma Forall2_nth_error_l {A B} (R : A -> B -> Prop) (l : list A)
  (l' : list B) :
  Forall2 R l l' ->
  forall j a, nth_error l j = Some a ->
  exists b, nth_error l' j = Some b /\ R a b.
Proof.
  induction 1 as [|x y l l' Hxy _ IH]; intros [|j] a; simpl;
    try discriminate.
  - intros E. inversion E; subst. eauto.
  - apply IH.
Qed.

(** X13. The copy operation leaves every cell of another column, and
    every cell of a row that is not above the header, exactly as it was
    and where it was; the cells it adds, after those the table had, are
    all cells of the [line_item_start_date] column in rows above the
    header; and it removes no cell. *)
Theorem copy_leaves_other_cells (s : state) :
  let cs := the_cells (the_document s) in
  let cs' :=
    the_cells (the_document (exec copy_invoice_date_to_line_items s)) in
  (forall j c,
      nth_error cs j = Some c ->
      py_eq (cell_field c "label") (VStr "line_item_start_date") = false
      \/ py_gt (cell_field c "row") (VInt 0) <> Ok true ->
      nth_error cs' j = Some c)
  /\ (forall j c,
      nth_error cs' j = Some c -> (List.length cs <= j)%nat ->
      cell_field c "label" = VStr "line_item_start_date"
      /\ py_gt (cell_field c "row") (VInt 0) = Ok true)
  /\ (List.length cs <= List.length cs')%nat.
Proof.
  intros cs cs'. subst cs cs'.
  destruct (copy_cells_rewritten s) as (keys & v & pre & ext & -> & T & Fr).
  pose proof (Forall2_length T) as Len.
  split; [|split].
  - intros j c N H.
    destruct (Forall2_nth_error_l _ _ _ T j c N) as (c' & N' & Tc).
    rewrite nth_error_app1 by (apply nth_error_Some; congruence).
    rewrite N'. f_equal.
    destruct Tc as [->|[-> (k & Hk & Er & El)]]; auto.
    destruct H as [H|H]; [congruence|].
    destruct H. now apply py_gt_eq_pos with (k := k).
  - intros j c N Hj. rewrite Len in Hj.
    rewrite nth_error_app2 in N by auto.
    apply nth_error_In in N. rewrite Forall_forall in Fr.
    destruct (Fr c N) as (k & now & col & _ & Hk & ->). auto.
  - rewrite length_app. lia.
Qed.

(** ** A write that fails *)

(** X14. A write that fails writes nothing: when [set_cell_value]
    raises, and when [find_or_create_table] raises, the document is
    exactly what it was before the call, and nothing has been printed. *)
Theorem set_cell_value_all_or_nothing (s s1 : state) (e : exn)
  (row_idx label val : value) :
  (set_cell_value row_idx label val s = (Raise e, s1) ->
   the_document s1 = the_document s /\ stdout s1 = stdout s)
  /\ (find_or_create_table s = (Raise e, s1) ->
      the_document s1 = the_document s /\ stdout s1 = stdout s).
Proof.
  destruct s as [doc n out]. cbn [the_document stdout].
  assert (Fc : forall e s1,
    find_or_create_table (mkState doc n out) = (Raise e, s1) ->
    the_document s1 = doc /\ stdout s1 = out).
  { clear e s1. intros e s1 H.
    destruct (find_or_create_table_effect doc)
      as [(r & F & E)|[E|(d & K & l & -> & F & Sel & Gk & E)]].
    - rewrite E in H. discriminate.
    - destruct (E n out) as (e' & n' & E'). rewrite E' in H.
      inversion H; subst. auto.
    - rewrite E in H. discriminate. }
  split; [|apply Fc].
  intros H.
  pose proof (quiet_set_cell_value row_idx label val (mkState doc n out))
    as Q. rewrite H in Q. cbn [snd stdout] in Q. split; [|exact Q].
  assert (Found : forall doc0 n0 r t s1,
    table_at doc0 r t ->
    set_cell_value row_idx label val (mkState doc0 n0 out) = (Raise e, s1) ->
    the_document s1 = doc0).
  { clear H Q s1. intros doc0 n0 r t s1 Ta H.
    pose proof Ta as [F L].
    destruct (dict_get t "cells") as [c|] eqn:G.
    - assert (D : (exists cs, c = VList cs) \/ forall l, c <> VList l).
      { destruct c; try (right; discriminate). left. eauto. }
      destruct D as [[cs ->]|D].
      + rewrite (set_cell_value_sim doc0 r t cs _ _ _ _ _ Ta G) in H.
        destruct (cell_write row_idx label val n0 cs) as [[b|e'] [cs1 n1]]
          eqn:W; simpl in H; [discriminate|].
        inversion H; subst. cbn [the_document].
        destruct (cell_write_raise _ _ _ _ _ _ _ _ W) as [-> _].
        now apply with_cells_same with (t := t).
      + pose proof (set_cell_value_bad_cells doc0 r t c row_idx label val
                      n0 out Ta G D) as B.
        unfold exec in B. now rewrite H in B.
    - rewrite (set_cell_value_no_cells doc0 r t _ _ _ _ _ Ta G) in H.
      discriminate. }
  destruct (find_or_create_table_effect doc)
    as [(r & F & E)|[E|(d & K & l & -> & F & Sel & Gk & E)]].
  - destruct (find_table_some _ _ F) as [t Ta].
    now apply (Found doc n r t s1 Ta).
  - destruct (E n out) as (e' & n' & E').
    rewrite (set_cell_value_raise _ _ _ _ _ _ E') in H.
    inversion H; subst. reflexivity.
  - exfalso.
    destruct (new_table_dict (VFloat (time_time n))) as (t & Et & Ty & Ce).
    pose proof (appended_table_at d K l t F Sel Gk Ty) as Ta.
    specialize (E n out). rewrite Et in E.
    rewrite (set_cell_value_via _ _ _ _ _ _ E (proj1 Ta)) in H.
    rewrite (set_cell_value_sim _ _ t [] _ _ _ _ _ Ta Ce) in H.
    simpl in H. discriminate.
Qed.

(** ** The cells the copy operation adds to a well-formed table *)

Lemma find_cell_loop_has_target (cs : list value) (k : Z) :
  Forall (fun c => is_cell c = true) cs ->
  forall j0, exists o,
    find_cell_loop cs (VInt k) (VStr "line_item_start_date") j0 = Ok o /\
    has_target k cs = match o with Some _ => true | None => false end.
Proof.
  induction 1 as [|c cs Hc _ IH]; intros j0; simpl; eauto.
  destruct (is_cell_dict c Hc) as [d ->].
  rewrite !py_get_cell_field by reflexivity. cbn [rbind].
  unfold on_row.
  destruct (py_eq (cell_field (VDict d) "row") (VInt k)); cbn [andb orb].
  - destruct (py_eq (cell_field (VDict d) "label")
                (VStr "line_item_start_date")); cbn [orb]; eauto.
  - apply IH.
Qed.

Lemma update_nth_app_l {A} (j : nat) (f : A -> A) (l l' : list A) :
  (j < List.length l)%nat ->
  update_nth j f (l ++ l') = update_nth j f l ++ l'.
Proof.
  revert j. induction l as [|x l IH]; intros [|j]; simpl; intros H;
    try lia; auto.
  now rewrite IH by lia.
Qed.

Lemma find_cell_loop_stamped (ks : list Z) (k : Z) (label : value)
  (cs : list value) (v : value) :
  ~ In k ks ->
  forall m j,
  find_cell_loop (stamped_cells ks m cs v) (VInt k) label j = Ok None.
Proof.
  induction ks as [|k' ks IH]; intros Hn m j; simpl; auto.
  destruct (Z.eqb_spec k' k) as [->|Hne].
  - destruct Hn. now left.
  - apply IH. intros Hin. apply Hn. now right.
Qed.

Lemma row_cols_stamped (ks : list Z) (k : Z) (cs : list value) (v : value) :
  ~ In k ks -> forall m, row_cols k (stamped_cells ks m cs v) = [].
Proof.
  induction ks as [|k' ks IH]; intros Hn m; simpl; auto.
  unfold row_cols. cbn [filter]. unfold on_row at 1. simpl.
  destruct (Z.eqb_spec k' k) as [->|Hne].
  - destruct Hn. now left.
  - apply IH. intros Hin. apply Hn. now right.
Qed.

Lemma row_cols_app (k : Z) (l l' : list value) :
  row_cols k (l ++ l') = row_cols k l ++ row_cols k l'.
Proof. unfold row_cols. now rewrite filter_app, map_app. Qed.

Lemma touched_col_z (v c c' : value) : touched v c c' -> col_z c' = col_z c.
Proof.
  intros [->|[-> _]]; auto. destruct c; simpl; auto.
  now rewrite dict_get_set_ne by discriminate.
Qed.

Lemma row_cols_touched (v : value) (k : Z) (cs pre : list value) :
  Forall2 (touched v) cs pre -> row_cols k pre = row_cols k cs.
Proof.
  unfold row_cols. induction 1 as [|c c' cs pre T _ IH]; simpl; auto.
  assert (E : on_row k c' = on_row k c).
  { unfold on_row. destruct T as [->|[-> _]]; auto.
    now rewrite cell_field_setitem_ne by discriminate. }
  rewrite E. destruct (on_row k c); simpl; auto.
  now rewrite IH, (touched_col_z v c c' T).
Qed.

Lemma touched_typed (v : value) (cs pre : list value) :
  Forall2 (touched v) cs pre ->
  Forall (fun c => is_cell c = true) cs ->
  Forall (fun c => is_cell c = true) pre.
Proof.
  induction 1 as [|c c' cs pre T _ IH]; intros Ty; constructor;
    inversion Ty; subst; auto.
  destruct T as [->|[-> _]]; auto. now rewrite is_cell_setitem_text.
Qed.

Lemma stamped_cells_typed (ks : list Z) (cs : list value) (v : value) :
  forall m, Forall (fun c => is_cell c = true) (stamped_cells ks m cs v).
Proof. induction ks as [|k ks IH]; intros m; simpl; constructor; auto. Qed.

Lemma stamped_cells_length (ks : list Z) (cs : list value) (v : value) :
  forall m, List.length (stamped_cells ks m cs v) = List.length ks.
Proof. induction ks as [|k ks IH]; intros m; simpl; auto. Qed.

Lemma stamped_cells_snoc (ks : list Z) (k : Z) (cs : list value)
  (v : value) :
  forall m,
  stamped_cells (ks ++ [k]) m cs v
  = stamped_cells ks m cs v
    ++ [new_cell (VStr "line_item_start_date") (VInt k)
          (VFloat (time_time (m + List.length ks)))
          (VInt (fold_left Z.max (row_cols k cs) 0 + 1)) v].
Proof.
  induction ks as [|k' ks IH]; intros m; simpl.
  - now rewrite Nat.add_0_r.
  - rewrite IH. now rewrite Nat.add_succ_r.
Qed.

Lemma rows_write_skip (k : Z) (keys : list value) (v : value) (n : nat)
  (cells : list value) :
  (0 <? k) = false ->
  rows_write (VInt k :: keys) v n cells = rows_write keys v n cells.
Proof. intros H. simpl. now rewrite H. Qed.

Lemma rows_write_step (k : Z) (keys : list value) (v b : value)
  (n n' : nat) (cells cells' : list value) :
  (0 <? k) = true ->
  cell_write (VInt k) (VStr "line_item_start_date") v n cells
  = (Ok b, (cells', n')) ->
  rows_write (VInt k :: keys) v n cells = rows_write keys v n' cells'.
Proof. intros H W. simpl. now rewrite H, W. Qed.

Lemma filter_snoc {A} (f : A -> bool) (l : list A) (x : A) :
  filter f (l ++ [x]) = if f x then filter f l ++ [x] else filter f l.
Proof.
  rewrite filter_app. simpl. destruct (f x); auto. apply app_nil_r.
Qed.

(** The copy loop on the rows [rest], after the rows [done]. *)
Lemma rows_write_exact (v : value) (cs : list value) (n : nat) :
  Forall (fun c => is_cell c = true) cs ->
  forall rest done pre,
  NoDup (done ++ rest) ->
  Forall2 (touched v) cs pre ->
  exists pre',
    Forall2 (touched v) cs pre' /\
    rows_write (map VInt rest) v
      (n + List.length (filter (wants_cell cs) done))
      (pre ++ stamped_cells (filter (wants_cell cs) done) n cs v)
    = (Ok tt,
       (pre' ++ stamped_cells (filter (wants_cell cs) (done ++ rest)) n cs v,
        (n + List.length (filter (wants_cell cs) (done ++ rest)))%nat)).
Proof.
  intros Ty. induction rest as [|k rest IH]; intros done pre ND T.
  - simpl. exists pre. rewrite app_nil_r. auto.
  - assert (Eq : done ++ k :: rest = (done ++ [k]) ++ rest)
      by (rewrite <- app_assoc; reflexivity).
    assert (Nk : ~ In k (filter (wants_cell cs) done)).
    { intros Hin. apply filter_In in Hin as [Hin _].
      apply NoDup_remove_2 in ND. apply ND. apply in_or_app. now left. }
    rewrite Eq in ND |- *. cbn [map].
    pose proof (filter_snoc (wants_cell cs) done k) as Fs.
    destruct (0 <? k) eqn:Pos.
    2:{ rewrite rows_write_skip by exact Pos.
        assert (Wk : wants_cell cs k = false)
          by (unfold wants_cell; now rewrite Pos).
        rewrite Wk in Fs.
        specialize (IH (done ++ [k]) pre ND T). rewrite Fs in IH.
        exact IH. }
    pose proof (Forall2_length T) as Len.
    destruct (find_cell_loop_has_target cs k Ty 0) as (o & F & Ht).
    destruct o as [j|].
    + (* the row has its cell: the text is written in place *)
      assert (Wk : wants_cell cs k = false)
        by (unfold wants_cell; now rewrite Pos, Ht).
      rewrite Wk in Fs.
      assert (Fp : find_cell_loop pre (VInt k) (VStr "line_item_start_date") 0
                   = Ok (Some j))
        by now rewrite (find_cell_loop_touched v cs pre _ _ T).
      destruct (find_cell_loop_some _ _ _ _ _ Fp)
        as (i & d & Hj & Hi & Hn & Hr & Hl).
      simpl in Hj. subst i.
      assert (W : cell_write (VInt k) (VStr "line_item_start_date") v
                    (n + List.length (filter (wants_cell cs) done))
                    (pre ++ stamped_cells (filter (wants_cell cs) done) n cs v)
                  = (Ok (VBool true),
                     (update_nth j (fun cell => py_setitem cell "text" v) pre
                      ++ stamped_cells (filter (wants_cell cs) done) n cs v,
                      (n + List.length (filter (wants_cell cs) done))%nat))).
      { unfold cell_write. rewrite find_cell_loop_app, Fp.
        now rewrite update_nth_app_l by exact Hi. }
      rewrite (rows_write_step _ _ _ _ _ _ _ _ Pos W).
      assert (T' : Forall2 (touched v) cs
                     (update_nth j (fun cell => py_setitem cell "text" v) pre)).
      { apply Forall2_touched_trans with (l2 := pre); auto.
        apply Forall2_touched_update. right. split; auto.
        exists (VInt k). rewrite Hn. repeat split; auto.
        simpl. now rewrite Pos. }
      specialize (IH (done ++ [k]) _ ND T'). rewrite Fs in IH. exact IH.
    + (* the row has no such cell: one is appended *)
      assert (Wk : wants_cell cs k = true)
        by (unfold wants_cell; now rewrite Pos, Ht).
      rewrite Wk in Fs.
      assert (Fp : find_cell_loop pre (VInt k) (VStr "line_item_start_date") 0
                   = Ok None)
        by now rewrite (find_cell_loop_touched v cs pre _ _ T).
      assert (Typ : Forall (fun c => is_cell c = true)
                      (pre ++ stamped_cells (filter (wants_cell cs) done)
                                n cs v)).
      { apply Forall_app. split; [now apply (touched_typed v cs)|].
        apply stamped_cells_typed. }
      assert (W : cell_write (VInt k) (VStr "line_item_start_date") v
                    (n + List.length (filter (wants_cell cs) done))
                    (pre ++ stamped_cells (filter (wants_cell cs) done) n cs v)
                  = (Ok (VBool true),
                     (pre ++ stamped_cells
                               (filter (wants_cell cs) done ++ [k]) n cs v,
                      S (n + List.length (filter (wants_cell cs) done))))).
      { unfold cell_write. rewrite find_cell_loop_app, Fp.
        rewrite find_cell_loop_stamped by exact Nk.
        rewrite (max_col_loop_typed _ k Typ 0).
        rewrite row_cols_app, (row_cols_touched v k cs pre T).
        rewrite row_cols_stamped by exact Nk. rewrite app_nil_r.
        cbn [py_add]. rewrite stamped_cells_snoc, app_assoc. reflexivity. }
      rewrite (rows_write_step _ _ _ _ _ _ _ _ Pos W).
      specialize (IH (done ++ [k]) pre ND T). rewrite Fs in IH.
      rewrite length_app in IH. cbn [List.length] in IH.
      replace (n + (List.length (filter (wants_cell cs) done) + 1))%nat
        with (S (n + List.length (filter (wants_cell cs) done))) in IH by lia.
      exact IH.
Qed.

Lemma firstn_length_app {A} (l l' : list A) :
  firstn (List.length l) (l ++ l') = l.
Proof. induction l as [|x l IH]; simpl; [now destruct l'|]. now rewrite IH. Qed.

Lemma skipn_length_app {A} (l l' : list A) :
  skipn (List.length l) (l ++ l') = l'.
Proof. induction l as [|x l IH]; simpl; auto. Qed.

Lemma touched_kept_or_written (v : value) (cs pre : list value) :
  Forall2 (touched v) cs pre -> Forall2 (kept_or_written v) cs pre.
Proof.
  induction 1 as [|c c' cs pre T _ IH]; constructor; auto.
  destruct T as [->|[-> _]]; [now left|now right].
Qed.

(** X15. The cells after the copy operation, for a document of the data
    model that has a table and an invoice date that counts as true.
    The cells the table had are all there, in place, each as it was or
    with the invoice date as its text.  After them comes exactly one
    new cell for each row above the header that had no cell of the
    [line_item_start_date] column, in the order in which these rows
    first occur in the table: the cell has that label and row, the
    invoice date as its text, for column one more than the greatest of
    0 and the columns of the cells of its row, and an identifier made
    from its own reading of the clock.  The clock has been read once
    for each new cell and not otherwise. *)
Theorem copy_adds_one_cell_per_row (doc : value) (r : ref) (n : nat)
  (out : list line) (b : value) :
  is_document doc = true ->
  find_table doc = Ok (Some r) ->
  field_element "invoice_date" doc = Some b ->
  truthy (ocr_text b) = true ->
  let cs := the_cells doc in
  let s' := exec copy_invoice_date_to_line_items (mkState doc n out) in
  let cs' := the_cells (the_document s') in
  Forall2 (kept_or_written (ocr_text b)) cs (firstn (List.length cs) cs')
  /\ skipn (List.length cs) cs'
     = stamped_cells (rows_to_fill cs) n cs (ocr_text b)
  /\ ticks s' = (n + List.length (rows_to_fill cs))%nat.
Proof.
  intros D F Fe T cs s' cs'. subst cs s' cs'.
  pose proof (get_field_value_typed doc "invoice_date" D) as G.
  rewrite Fe in G. set (v := ocr_text b) in *.
  destruct (copy_returns_document (mkState doc n out)) as (_ & -> & ->).
  destruct (is_document_table doc D) as [F0|(r0 & t & Ta & El)];
    [congruence|].
  destruct (is_element_cells t El) as [Ty Gc].
  assert (C : the_cells doc = cells_of (VDict t)).
  { destruct Ta as [F1 L]. unfold the_cells. now rewrite F1, L. }
  rewrite C. remember (cells_of (VDict t)) as cs eqn:Ecs.
  destruct Gc as [Gc|Gc].
  - assert (N : cs = []) by (subst cs; simpl; now rewrite Gc).
    unfold exec. rewrite (copy_body_table _ _ _ _ _ _ Ta G T).
    rewrite (group_cells_by_row_no_cells t Gc). cbn [map copy_loop ret snd].
    cbn [the_document ticks]. rewrite C, N. simpl.
    repeat split; auto.
  - pose proof (group_cells_by_row_typed t _ Gc Ty) as Gr.
    unfold exec. rewrite (copy_body_rewrite _ _ _ _ _ _ Ta Gc G T Gr).
    cbn [snd the_document ticks]. rewrite (with_cells_cells _ _ _ _ Ta).
    unfold rows_spec. rewrite map_map. cbn [fst].
    change (map (fun x : Z => VInt x)) with (map VInt).
    destruct (rows_write_exact v cs n Ty (first_seen (map row_z cs)) [] cs
                (first_seen_NoDup _) (Forall2_touched_refl v cs))
      as (pre' & T' & W).
    cbn [filter List.length stamped_cells app] in W.
    rewrite Nat.add_0_r, app_nil_r in W. rewrite W. cbn [fst snd].
    fold (rows_to_fill cs).
    rewrite (Forall2_length T').
    rewrite firstn_length_app, skipn_length_app.
    repeat split; auto. now apply touched_kept_or_written.
Qed.

(** ** The batch on documents of the data model *)

(** X16. On a batch of documents of the data model [handler] prints no
    error: it returns the documents, each again a document of the data
    model, and what it has printed is one warning for each document
    whose invoice date is missing or counts as false, and nothing
    else. *)
Theorem handler_on_documents (input_data : list value) (w : world) :
  Forall (fun d => is_document d = true) input_data ->
  exists docs w',
    handler input_data w = (Ok docs, w')
    /\ Forall (fun d => is_document d = true) docs
    /\ snd w' = warnings input_data (snd w).
Proof.
  intros H. revert w. induction H as [|d rest Hd _ IH]; intros w.
  - exists [], w. repeat split; constructor.
  - cbn [handler].
    destruct (copy_returns_document (mkState d (fst w) (snd w)))
      as (Ret & Doc & _).
    pose proof (copy_stdout_on_document d (fst w) (snd w) Hd) as Out.
    destruct (copy_body_on_document d (fst w) (snd w) Hd) as [_ Ty].
    rewrite <- Doc in Ty. unfold exec in *.
    destruct (copy_invoice_date_to_line_items (mkState d (fst w) (snd w)))
      as [res s]. cbn [fst snd] in *. subst res.
    destruct (IH (ticks s, stdout s)) as (docs & w' & -> & Tys & W).
    eexists _, _. split; [reflexivity|]. split; [now constructor|].
    rewrite W. cbn [snd warnings fold_left]. now rewrite Out.
Qed.

(** ** The table, found without the script *)

Lemma find_table_loop_first_index (l : list value) :
  forall j0 o, find_table_loop l j0 = Ok o ->
  o = option_map (Nat.add j0) (first_index is_table l).
Proof using.
  induction l as [|box rest IH]; intros j0 o; simpl.
  - intros H. now inversion H.
  - destruct box as [| | | | | |d]; simpl; try discriminate.
    unfold is_table at 1. cbn [cell_field].
    destruct (py_eq
                match dict_get d "type" with Some v => v | None => VNone end
                (VStr "table")).
    + intros H. inversion H. simpl. now rewrite Nat.add_0_r.
    + intros H. rewrite (IH _ _ H).
      destruct (first_index is_table rest); simpl; auto.
Qed.

Lemma select_boxes_key (doc : value) (K : string) (bs : value) :
  select_boxes doc = Ok (K, bs) -> K = authoritative_key doc.
Proof using.
  intros Sel. destruct (select_boxes_inv _ _ _ Sel) as (d & -> & HK & _).
  simpl. destruct (dict_get d "moderated_boxes") as [m|];
    destruct HK as [[-> T]|[-> T]]; simpl in T; try rewrite T; auto;
    discriminate.
Qed.

Lemma elements_authoritative (doc : value) :
  elements doc = authoritative_list doc.
Proof using.
  unfold elements, authoritative_list, authoritative_key, list_at,
    select_boxes.
  destruct doc as [| | | | | |d]; simpl; auto.
  destruct (dict_get d "moderated_boxes") as [m|] eqn:Gm; simpl.
  - destruct (truthy m); simpl.
    + rewrite Gm. now destruct m.
    + now destruct (dict_get d "predicted_boxes") as [[]|].
  - now destruct (dict_get d "predicted_boxes") as [[]|].
Qed.

Lemma find_first_index (p : value -> bool) (l : list value) :
  find p l = match first_index p l with
             | Some i => nth_error l i
             | None => None
             end.
Proof using.
  induction l as [|x l IH]; simpl; auto.
  destruct (p x); auto. rewrite IH.
  now destruct (first_index p l).
Qed.

(** The table the script finds is the first table element of the
    authoritative list. *)
Lemma find_table_first (doc : value) (r : ref) :
  find_table doc = Ok (Some r) ->
  ref_key r = authoritative_key doc
  /\ first_index is_table (authoritative_list doc) = Some (ref_idx r)
  /\ nth_error (authoritative_list doc) (ref_idx r) = Some (load r doc)
  /\ (ref_idx r < List.length (authoritative_list doc))%nat.
Proof using.
  intros F.
  destruct (find_table_inv _ _ F)
    as (d & l & t & -> & G & Sel & FL & Hlt & N & Ty).
  pose proof (select_boxes_key _ _ _ Sel) as K.
  assert (L : authoritative_list (VDict d) = l).
  { unfold authoritative_list. rewrite <- K. unfold list_at. now rewrite G. }
  rewrite L. split; [exact K|].
  pose proof (find_table_loop_first_index l 0 _ FL) as Fi.
  split; [|split; auto].
  - destruct (first_index is_table l); simpl in Fi; congruence.
  - rewrite (nth_error_nth' l VNone Hlt). unfold load. now rewrite G.
Qed.

(** When the script finds no table, the authoritative list has none. *)
Lemma find_table_none_first (doc : value) :
  find_table doc = Ok None ->
  first_index is_table (authoritative_list doc) = None.
Proof using.
  intros F. unfold find_table in F.
  destruct (select_boxes doc) as [[K bs]|] eqn:Sel; simpl in F;
    [|discriminate].
  pose proof (select_boxes_key _ _ _ Sel) as HK.
  destruct (select_boxes_inv _ _ _ Sel) as (d & -> & _ & Hbs).
  unfold authoritative_list. rewrite <- HK. unfold list_at.
  destruct (dict_get d K) as [[| | | | |l|]|]; auto.
  subst bs. simpl in F.
  destruct (find_table_loop l 0) as [o|] eqn:FL; simpl in F;
    [|discriminate].
  pose proof (find_table_loop_first_index l 0 _ FL) as Fi.
  destruct (first_index is_table l); simpl in Fi; auto.
  subst o. discriminate.
Qed.

(** The copy operation leaves the table where it is. *)
Lemma copy_keeps_table (s : state) (r : ref) :
  find_table (the_document s) = Ok (Some r) ->
  find_table (the_document (exec copy_invoice_date_to_line_items s))
  = Ok (Some r).
Proof.
  intros F. destruct (copy_returns_document s) as (_ & -> & _).
  destruct s as [doc n out]. cbn [the_document] in *.
  destruct (copy_body_effect doc)
    as [U|[(r0 & t & cs & v & rows & Ta & Gc & G & T & Gr & E)
          |(d & K & l & v & -> & F0 & _)]].
  - now rewrite U.
  - rewrite E. cbn [the_document].
    assert (r0 = r) by (destruct Ta as [F0 _]; congruence). subst r0.
    now apply (with_cells_table_at doc r t).
  - congruence.
Qed.

Lemma first_table_found (doc t : value) :
  is_document doc = true -> first_table doc = Some t ->
  exists r, find_table doc = Ok (Some r) /\ load r doc = t.
Proof using.
  intros D Ft. unfold first_table in Ft. rewrite find_first_index in Ft.
  destruct (is_document_table doc D) as [F|(r & t0 & [F L] & _)].
  - now rewrite (find_table_none_first doc F) in Ft.
  - destruct (find_table_first doc r F) as (_ & Fi & N & _).
    rewrite Fi, N in Ft. inversion Ft. eauto.
Qed.

Lemma find_table_first_table (doc : value) (r : ref) :
  find_table doc = Ok (Some r) -> first_table doc = Some (load r doc).
Proof using.
  intros F. destruct (find_table_first doc r F) as (_ & Fi & N & _).
  unfold first_table. now rewrite find_first_index, Fi.
Qed.

(** ** The invoice date in every data row *)

(** C1. In a document of the data model in which the first field element
    labelled invoice_date of the authoritative list has a non-empty
    text, and whose authoritative list holds a table element: after the
    copy operation the first table element of the authoritative list
    has, for every row index above 0 that some cell of the table
    carried, a cell labelled line_item_start_date whose text is the
    invoice date; the cells of row 0 of that table are what they were,
    so that row 0 gains no such cell; and the operation returns the
    document it leaves.  The table is the first element of type table
    of the list, read off the document and not through the script's
    search. *)
Theorem copy_fills_data_rows (doc : value) (n : nat) (out : list line)
  (b t : value) (text : string) :
  is_document doc = true ->
  find (is_field_labelled "invoice_date") (authoritative_list doc) = Some b ->
  ocr_text b = VStr text ->
  text <> "" ->
  first_table doc = Some t ->
  let doc' :=
    the_document (exec copy_invoice_date_to_line_items (mkState doc n out)) in
  fst (copy_invoice_date_to_line_items (mkState doc n out)) = Ok doc'
  /\ authoritative_key doc' = authoritative_key doc
  /\ exists t',
       first_table doc' = Some t'
       /\ (forall c r,
             In c (cells_of t) -> cell_field c "row" = VInt r -> 0 < r ->
             exists c', In c' (cells_of t') /\
               cell_field c' "row" = VInt r /\
               cell_field c' "label" = VStr "line_item_start_date" /\
               cell_field c' "text" = VStr text)
       /\ filter is_header (cells_of t') = filter is_header (cells_of t).
Proof.
  intros D Fe Ot Ne Ft doc'.
  assert (Fe' : field_element "invoice_date" doc = Some b)
    by (unfold field_element; now rewrite elements_authoritative).
  destruct (copy_fills_cells doc n out b text D Fe' Ot Ne) as (Ret & Rows & Hd).
  fold doc' in Ret, Rows, Hd.
  destruct (first_table_found doc t D Ft) as (r & F & L).
  pose proof (copy_keeps_table (mkState doc n out) r F) as F'.
  cbn [the_document] in F'. fold doc' in F'.
  assert (C : the_cells doc = cells_of t)
    by (unfold the_cells; now rewrite F, L).
  assert (C' : the_cells doc' = cells_of (load r doc'))
    by (unfold the_cells; now rewrite F').
  rewrite C, C' in *.
  split; [exact Ret|split].
  - destruct (find_table_first doc r F) as (K & _).
    destruct (find_table_first doc' r F') as (K' & _). congruence.
  - exists (load r doc'). split; [now apply find_table_first_table|].
    split; [exact Rows|exact Hd].
Qed.

(** ** The copy operation and the rest of the document *)

(** X2. The copy operation writes to the cells of the first table
    element of the authoritative list and to nothing else.  Whatever
    the document holds under a key other than that of the authoritative
    list is what it was.  When the list has a table element, the list
    keeps its length, every other element of it is what it was, and the
    first table keeps every field but its cells.  When the list has no
    table element, every element it had is still where it was.  The
    list and its first table are read off the document, not through the
    script's search. *)
Theorem copy_writes_first_table_only (s : state) :
  let doc := the_document s in
  let doc' := the_document (exec copy_invoice_date_to_line_items s) in
  let l := authoritative_list doc in
  let l' := list_at (authoritative_key doc) doc' in
  (forall K, K <> authoritative_key doc ->
     cell_field doc' K = cell_field doc K)
  /\ (forall i,
        first_index is_table l = Some i ->
        List.length l' = List.length l
        /\ (forall j, j <> i -> nth_error l' j = nth_error l j)
        /\ (forall key, key <> "cells" ->
            cell_field (nth i l' VNone) key = cell_field (nth i l VNone) key))
  /\ (first_index is_table l = None ->
      forall j x, nth_error l j = Some x -> nth_error l' j = Some x).
Proof.
  intros doc doc' l l'. subst doc doc' l l'.
  destruct (copy_returns_document s) as (_ & -> & _).
  destruct s as [doc n out]. cbn [the_document].
  destruct (copy_body_effect doc)
    as [U|[(r0 & t & cs & v & rows & Ta & Gc & G & T & Gr & E)
          |(d & K & l & v & -> & F & Sel & Gk & G & T & E)]].
  - rewrite U. fold (authoritative_list doc). repeat split; auto.
  - rewrite E. cbn [the_document]. destruct Ta as [F0 L].
    destruct (find_table_first doc r0 F0) as (Kr & Fi & Nn & Hlt).
    unfold with_cells. split; [|split].
    + intros K HK. apply cell_field_update_other. congruence.
    + intros i Hi. rewrite Fi in Hi. inversion Hi; subst i. clear Hi.
      rewrite list_at_update, <- Kr, String.eqb_refl.
      fold (authoritative_list doc) in *. rewrite Kr.
      fold (authoritative_list doc).
      split; [apply update_nth_length|split].
      * intros j Hj. rewrite nth_error_update_nth.
        destruct (Nat.eqb_spec (ref_idx r0) j); auto. congruence.
      * intros key Hk. rewrite nth_update_nth_eq by exact Hlt.
        apply cell_field_setitem_ne. congruence.
    + intros Hn. congruence.
  - rewrite E. cbn [the_document].
    pose proof (select_boxes_key _ _ _ Sel) as HK.
    pose proof (find_table_none_first _ F) as Fn.
    split; [|split].
    + intros K' HK'. simpl. rewrite dict_get_set_ne; auto. congruence.
    + intros i Hi. congruence.
    + intros _ j x N. unfold authoritative_list in N. rewrite <- HK in *.
      unfold list_at in *. rewrite dict_get_set_eq. rewrite Gk in N.
      rewrite nth_error_app1; auto. apply nth_error_Some. congruence.
Qed.

(** ** The table, found again *)

(** X4. A call of [find_or_create_table] that returns leaves a document
    in which the next call finds the same table and changes nothing.
    The element returned sits in the authoritative list, is of type
    table, and is the first element of type table of that list: no
    element before it is a table.  The call has left the state as it
    was, or the authoritative list had no table element and the call
    has appended one new table at its end, at the cost of one reading
    of the clock.  The authoritative list and its first table are read
    off the document, not through the script's search. *)
Theorem find_or_create_table_stable (s s1 : state) (r : ref) :
  find_or_create_table s = (Ok r, s1) ->
  find_or_create_table s1 = (Ok r, s1)
  /\ ref_key r = authoritative_key (the_document s1)
  /\ first_index is_table (authoritative_list (the_document s1))
     = Some (ref_idx r)
  /\ nth_error (authoritative_list (the_document s1)) (ref_idx r)
     = Some (load r (the_document s1))
  /\ find_table (the_document s1) = Ok (Some r)
  /\ cell_field (load r (the_document s1)) "type" = VStr "table"
  /\ (s1 = s
      \/ (first_index is_table (authoritative_list (the_document s)) = None
          /\ ref_key r = authoritative_key (the_document s)
          /\ find_table (the_document s) = Ok None
          /\ list_at (ref_key r) (the_document s1)
             = list_at (ref_key r) (the_document s)
               ++ [new_table (VFloat (time_time (ticks s)))]
          /\ ref_idx r = List.length (list_at (ref_key r) (the_document s))
          /\ ticks s1 = S (ticks s)
          /\ stdout s1 = stdout s)).
Proof.
  destruct s as [doc n out]. intros H.
  assert (A : find_table (the_document s1) = Ok (Some r)
              /\ (s1 = mkState doc n out
                  \/ (first_index is_table (authoritative_list doc) = None
                      /\ ref_key r = authoritative_key doc
                      /\ find_table doc = Ok None
                      /\ list_at (ref_key r) (the_document s1)
                         = list_at (ref_key r) doc
                           ++ [new_table (VFloat (time_time n))]
                      /\ ref_idx r = List.length (list_at (ref_key r) doc)
                      /\ ticks s1 = S n /\ stdout s1 = out))).
  { destruct (find_or_create_table_effect doc)
      as [(r0 & F & E)|[E|(d & K & l & -> & F & Sel & Gk & E)]].
    - rewrite E in H. inversion H; subst. auto.
    - destruct (E n out) as (e & n' & E'). rewrite E' in H. discriminate.
    - rewrite E in H. inversion H; subst. clear H.
      destruct (new_table_dict (VFloat (time_time n))) as (t & Et & Ty & Ce).
      rewrite Et.
      destruct (appended_table_at d K l t F Sel Gk Ty) as [F' L].
      split; [exact F'|]. right.
      split; [now apply find_table_none_first|].
      split; [exact (select_boxes_key _ _ _ Sel)|].
      cbn [the_document ref_key ref_idx ticks stdout].
      unfold list_at. rewrite dict_get_set_eq, Gk. auto. }
  destruct A as [F A]. cbn [the_document ticks stdout].
  destruct (find_table_first _ _ F) as (Kr & Fi & Nn & _).
  split; [|split; [exact Kr|split; [exact Fi|split; [exact Nn|
    split; [exact F|split; [|exact A]]]]]].
  - destruct s1 as [doc1 n1 out1]. now apply find_or_create_table_found.
  - destruct (find_table_inv _ _ F) as (d & l & t & E & G & _ & _ & _ & N & Ty).
    rewrite E. unfold load. rewrite G, N. simpl. now rewrite Ty.
Qed.

End Script.

(** * The theorems at work on the sample documents *)

(** The two data rows of the example get their cell in column 2. *)
Example copy_sample_invoice :
  map (fun c => (cell_field c "row", cell_field c "label",
                 cell_field c "col", cell_field c "text"))
    (the_cells
       (the_document
          (exec (copy_invoice_date_to_line_items sample_format sample_time
                   sample_add) (mkState sample_invoice 0 []))))
  = [(VInt 0, VStr "item", VNone, VNone);
     (VInt 1, VStr "item", VInt 1, VNone);
     (VInt 2, VStr "item", VInt 1, VNone);
     (VInt 1, VStr "line_item_start_date", VInt 2, VStr "2024-01-15");
     (VInt 2, VStr "line_item_start_date", VInt 2, VStr "2024-01-15")].
Proof. vm_compute. reflexivity. Qed.

Lemma copy_twice_and_unique_witness :
  unique_slots (the_cells sample_invoice) = true
  /\ unique_slots
       (the_cells
          (the_document
             (repeat_copy sample_format sample_time sample_add 3
                (mkState sample_invoice 0 [])))) = true.
Proof.
  split; [reflexivity|].
  apply (proj2 (copy_twice_and_unique sample_format sample_time sample_add
                  (mkState sample_invoice 0 []))).
  reflexivity.
Defined.

(** C2 fails as it is written: a table that arrives with two cells for one
    (row, label) pair still has both after the copy operation. *)
Lemma copy_keeps_duplicates :
  let cells :=
    the_cells
      (the_document
         (exec (copy_invoice_date_to_line_items sample_format sample_time
                  sample_add) (mkState duplicate_invoice 0 []))) in
  unique_slots cells = false
  /\ exists c c',
       nth_error cells 0 = Some c /\ nth_error cells 1 = Some c' /\
       cell_field c "row" = VInt 1 /\ cell_field c' "row" = VInt 1 /\
       cell_field c "label" = VStr "item" /\
       cell_field c' "label" = VStr "item".
Proof.
  split; [vm_compute; reflexivity|].
  exists (item_cell 1 1 "item"), (item_cell 1 2 "item").
  vm_compute. repeat split; reflexivity.
Qed.

Lemma find_or_create_table_without_lists_witness :
  dict_get [] "moderated_boxes" = None
  /\ dict_get [] "predicted_boxes" = None
  /\ find_or_create_table sample_format sample_time (mkState (VDict []) 0 [])
     = (Raise KeyError, mkState (VDict []) 1 []).
Proof.
  split; [reflexivity|]. split; [reflexivity|].
  apply (find_or_create_table_without_lists sample_format sample_time []);
    reflexivity.
Defined.

Lemma copy_without_invoice_date_witness :
  field_element "invoice_date" undated_invoice = None
  /\ the_document
       (exec (copy_invoice_date_to_line_items sample_format sample_time
                sample_add) (mkState undated_invoice 0 []))
     = undated_invoice.
Proof.
  split; [reflexivity|].
  apply (copy_without_invoice_date sample_format sample_time sample_add
           (mkState undated_invoice 0 [])).
  left. reflexivity.
Defined.

Lemma handler_processes_every_document_witness :
  fst (copy_body sample_format sample_time sample_add
         (mkState malformed_invoice 0 [])) = Raise TypeError
  /\ fst (copy_invoice_date_to_line_items sample_format sample_time
            sample_add (mkState malformed_invoice 0 []))
     = Ok (the_document
             (exec (copy_body sample_format sample_time sample_add)
                (mkState malformed_invoice 0 []))).
Proof.
  split; [vm_compute; reflexivity|].
  rewrite (proj2 (proj2 (handler_processes_every_document sample_format
                           sample_time sample_add))
             (mkState malformed_invoice 0 []) TypeError
             (exec (copy_body sample_format sample_time sample_add)
                (mkState malformed_invoice 0 []))).
  - reflexivity.
  - vm_compute. reflexivity.
Defined.

(** A batch of a malformed and a well-formed document: the first is
    returned as far as it was written, the second with its two new
    cells, and the error is printed. *)
Example handler_isolates_failure :
  exists d1 d2 n,
    handler sample_format sample_time sample_add
      [malformed_invoice; sample_invoice] (0%nat, [])
    = (Ok [d1; d2], (n, [Error_copying TypeError]))
    /\ List.length (the_cells d1) = 4%nat
    /\ map (fun c => (cell_field c "row", cell_field c "label",
                      cell_field c "text")) (skipn 3 (the_cells d2))
       = [(VInt 1, VStr "line_item_start_date", VStr "2024-01-15");
          (VInt 2, VStr "line_item_start_date", VStr "2024-01-15")].
Proof.
  eexists _, _, _. split; [vm_compute; reflexivity|].
  split; vm_compute; reflexivity.
Qed.

Lemma set_cell_value_new_column_witness :
  (* a row with cells in columns 1 and 2 gets its new cell in column 3 *)
  map (fun c => cell_field c "col")
    (the_cells
       (the_document
          (exec (set_cell_value sample_format sample_time sample_add
                   (VInt 1) (VStr "line_item_start_date") (VStr "2024-01-15"))
             (mkState two_column_invoice 0 []))))
  = [VInt 1; VInt 2; VInt 3]
  (* and a row without cells gets it in column 1 *)
  /\ map (fun c => cell_field c "col")
       (the_cells
          (the_document
             (exec (set_cell_value sample_format sample_time sample_add
                      (VInt 5) (VStr "line_item_start_date")
                      (VStr "2024-01-15"))
                (mkState two_column_invoice 0 []))))
     = [VInt 1; VInt 2; VInt 1].
Proof.
  assert (Ta : table_at two_column_invoice (mkRef "predicted_boxes" 1)
                 [("type", VStr "table"); ("cells", VList two_columns)])
    by (split; reflexivity).
  split.
  - destruct (set_cell_value_new_column sample_format sample_time sample_add
                two_column_invoice _ _ 1 (VStr "line_item_start_date")
                (VStr "2024-01-15") 0%nat [] Ta)
      as (col & E & _ & Hmax).
    + reflexivity.
    + reflexivity.
    + simpl. intros x [<-|[<-|[]]]; lia.
    + unfold exec. rewrite E. cbn [snd the_document].
      rewrite (with_cells_cells _ _ _ _ Ta).
      rewrite (Hmax 2).
      * reflexivity.
      * split; [simpl; auto|]. simpl. intros x [<-|[<-|[]]]; lia.
  - destruct (set_cell_value_new_column sample_format sample_time sample_add
                two_column_invoice _ _ 5 (VStr "line_item_start_date")
                (VStr "2024-01-15") 0%nat [] Ta)
      as (col & E & Hnil & _).
    + reflexivity.
    + reflexivity.
    + simpl. intros x [].
    + unfold exec. rewrite E. cbn [snd the_document].
      rewrite (with_cells_cells _ _ _ _ Ta).
      rewrite Hnil; reflexivity.
Defined.

Lemma group_cells_by_row_spec_witness :
  group_cells_by_row (table_box (sample_cells ++ [rowless_cell]))
  = Ok [(VInt 0, [header_cell; rowless_cell]);
        (VInt 1, [item_cell 1 1 "item"]);
        (VInt 2, [item_cell 2 1 "item"])].
Proof.
  unfold table_box.
  rewrite (proj1 (proj2 (proj2 group_cells_by_row_spec)
             [("type", VStr "table");
              ("cells", VList (sample_cells ++ [rowless_cell]))]
             (sample_cells ++ [rowless_cell]) eq_refl
             ltac:(repeat constructor))).
  reflexivity.
Defined.

Lemma set_cell_value_frame_witness :
  set_cell_value sample_format sample_time sample_add
    (VInt 1) (VStr "price") (VStr "9.50") (mkState two_column_invoice 0 [])
  = (Ok (VBool true),
     mkState
       (with_cells (mkRef "predicted_boxes" 1)
          [item_cell 1 1 "item";
           VDict [("row", VInt 1); ("label", VStr "price"); ("col", VInt 2);
                  ("text", VStr "9.50")]]
          two_column_invoice) 0 []).
Proof.
  apply (proj1 (set_cell_value_frame sample_format sample_time sample_add)
           two_column_invoice (mkRef "predicted_boxes" 1)
           [("type", VStr "table"); ("cells", VList two_columns)]
           two_columns (VInt 1) (VStr "price") (VStr "9.50") 0%nat [] 1%nat).
  - split; reflexivity.
  - reflexivity.
  - reflexivity.
Defined.

Lemma cell_without_row_is_header_witness :
  group_cells_by_row (table_box [rowless_cell]) = Ok [(VInt 0, [rowless_cell])]
  /\ nth_error
       (the_cells
          (the_document
             (exec (copy_invoice_date_to_line_items sample_format sample_time
                      sample_add)
                (mkState
                   (VDict [("predicted_boxes",
                            VList [sample_field;
                                   table_box [rowless_cell;
                                              item_cell 1 1 "item"]])])
                   0 [])))) 0
     = Some rowless_cell.
Proof.
  split.
  - apply (proj1 (proj2 (cell_without_row_is_header sample_format sample_time
                           sample_add))).
    + reflexivity.
    + repeat constructor.
  - apply (proj2 (proj2 (cell_without_row_is_header sample_format sample_time
                           sample_add))); reflexivity.
Defined.

Lemma copy_creates_one_table_witness :
  is_document tableless_invoice = true
  /\ find_table tableless_invoice = Ok None
  /\ exists K,
       list_at K
         (the_document
            (exec (copy_invoice_date_to_line_items sample_format sample_time
                     sample_add) (mkState tableless_invoice 0 [])))
       = [sample_field; new_table sample_format (VFloat (sample_time 0))].
Proof.
  split; [reflexivity|]. split; [reflexivity|].
  destruct (copy_creates_one_table sample_format sample_time sample_add
              tableless_invoice 0 [] sample_field "2024-01-15")
    as (K & E & _); try reflexivity; try discriminate.
  exists K. exact E.
Defined.

Lemma get_field_value_scan_witness :
  select_boxes scan_invoice
  = Ok ("predicted_boxes", VList [table_box []; sample_field; VStr "junk"])
  /\ get_field_value scan_invoice (VStr "invoice_date")
     = Ok (VStr "2024-01-15").
Proof.
  split; [reflexivity|].
  apply (proj1 (get_field_value_scan scan_invoice "predicted_boxes"
                  "invoice_date" _ eq_refl)
           [table_box []] sample_field [VStr "junk"]); reflexivity.
Defined.

Lemma set_cell_value_read_back_witness :
  hashable (VInt 1) = true /\ hashable (VStr "price") = true
  /\ exists j c,
       find_cell_loop
         (the_cells
            (the_document
               (exec (set_cell_value sample_format sample_time sample_add
                        (VInt 1) (VStr "price") (VStr "9.99"))
                  (mkState two_column_invoice 0 []))))
         (VInt 1) (VStr "price") 0 = Ok (Some j)
       /\ nth_error
            (the_cells
               (the_document
                  (exec (set_cell_value sample_format sample_time sample_add
                           (VInt 1) (VStr "price") (VStr "9.99"))
                     (mkState two_column_invoice 0 [])))) j = Some c
       /\ cell_field c "text" = VStr "9.99".
Proof.
  split; [reflexivity|]. split; [reflexivity|].
  destruct (set_cell_value_read_back sample_format sample_time sample_add
              (mkState two_column_invoice 0 [])
              (exec (set_cell_value sample_format sample_time sample_add
                       (VInt 1) (VStr "price") (VStr "9.99"))
                 (mkState two_column_invoice 0 []))
              (VInt 1) (VStr "price") (VStr "9.99") (VBool true)
              eq_refl eq_refl eq_refl)
    as (_ & j & c & F & N & Tx & _).
  exists j, c. auto.
Defined.

Lemma set_cell_value_last_write_wins_witness :
  let write v :=
    set_cell_value sample_format sample_time sample_add
      (VInt 2) (VStr "price") (VStr v) in
  fst (write "1.00" (mkState sample_invoice 0 [])) = Ok (VBool true)
  /\ write "2.00" (exec (write "1.00") (mkState sample_invoice 0 []))
     = write "2.00" (mkState sample_invoice 0 []).
Proof.
  intros write. split; [reflexivity|].
  apply (set_cell_value_last_write_wins sample_format sample_time sample_add
           (mkState sample_invoice 0 [])
           (exec (write "1.00") (mkState sample_invoice 0 []))
           (VInt 2) (VStr "price") (VStr "1.00") (VStr "2.00") (VBool true));
    reflexivity.
Defined.

Lemma group_cells_by_row_any_witness :
  dict_get mixed_table "cells" = Some (VList mixed_cells)
  /\ group_cells_by_row (VDict mixed_table)
     = Ok [(VInt 1, [VDict [("row", VInt 1)]; VDict [("row", VFloat 1)];
                     VDict [("row", VBool true)]]);
           (VInt 0, [rowless_cell])].
Proof.
  split; [reflexivity|].
  exact (group_cells_by_row_any mixed_table mixed_cells eq_refl).
Defined.

Lemma group_cells_by_row_partition_witness :
  dict_get mixed_table "cells" = Some (VList mixed_cells)
  /\ exists rows,
       group_cells_by_row (VDict mixed_table) = Ok rows
       /\ distinct (map fst rows) = true
       /\ List.length (List.concat (map snd rows)) = 4%nat.
Proof.
  split; [reflexivity|]. eexists. split; [reflexivity|].
  destruct (group_cells_by_row_partition mixed_table mixed_cells _
              eq_refl eq_refl) as (D & _ & _ & L).
  split; [exact D|exact L].
Defined.

Lemma copy_succeeds_on_documents_witness :
  is_document sample_invoice = true
  /\ stdout
       (exec (copy_invoice_date_to_line_items sample_format sample_time
                sample_add) (mkState sample_invoice 0 [])) = []
  /\ is_document
       (the_document
          (exec (copy_invoice_date_to_line_items sample_format sample_time
                   sample_add) (mkState sample_invoice 0 []))) = true.
Proof.
  split; [reflexivity|].
  exact (proj2 (copy_succeeds_on_documents sample_format sample_time
                  sample_add sample_invoice 0 [] eq_refl)).
Defined.

Lemma set_cell_value_all_or_nothing_witness :
  let s := mkState bad_column_invoice 0 [] in
  let write :=
    set_cell_value sample_format sample_time sample_add
      (VInt 1) (VStr "price") (VStr "9.99") in
  fst (write s) = Raise TypeError
  /\ the_document (exec write s) = bad_column_invoice
  /\ stdout (exec write s) = [].
Proof.
  intros s write. split; [reflexivity|].
  apply (proj1 (set_cell_value_all_or_nothing sample_format sample_time
                  sample_add s (exec write s) TypeError
                  (VInt 1) (VStr "price") (VStr "9.99"))).
  reflexivity.
Defined.

Lemma copy_adds_one_cell_per_row_witness :
  let s' :=
    exec (copy_invoice_date_to_line_items sample_format sample_time
            sample_add) (mkState sample_invoice 0 []) in
  is_document sample_invoice = true
  /\ find_table sample_invoice = Ok (Some (mkRef "predicted_boxes" 1))
  /\ skipn 3 (the_cells (the_document s'))
     = [new_cell sample_format (VStr "line_item_start_date") (VInt 1)
          (VFloat (sample_time 0)) (VInt 2) (VStr "2024-01-15");
        new_cell sample_format (VStr "line_item_start_date") (VInt 2)
          (VFloat (sample_time 1)) (VInt 2) (VStr "2024-01-15")]
  /\ ticks s' = 2%nat.
Proof.
  intros s'. split; [reflexivity|]. split; [reflexivity|].
  exact (proj2 (copy_adds_one_cell_per_row sample_format sample_time
                  sample_add sample_invoice (mkRef "predicted_boxes" 1) 0 []
                  sample_field eq_refl eq_refl eq_refl eq_refl)).
Defined.

Lemma handler_on_documents_witness :
  Forall (fun d => is_document d = true) [sample_invoice; undated_invoice]
  /\ snd (snd (handler sample_format sample_time sample_add
                 [sample_invoice; undated_invoice] (0%nat, [])))
     = [Warning_field_not_found].
Proof.
  assert (H : Forall (fun d => is_document d = true)
                [sample_invoice; undated_invoice])
    by (repeat constructor).
  split; [exact H|].
  destruct (handler_on_documents sample_format sample_time sample_add
              [sample_invoice; undated_invoice] (0%nat, []) H)
    as (docs & w' & E & _ & W).
  rewrite E. exact W.
Defined.

Lemma copy_fills_data_rows_witness :
  is_document sample_invoice = true
  /\ find (is_field_labelled "invoice_date")
       (authoritative_list sample_invoice) = Some sample_field
  /\ ocr_text sample_field = VStr "2024-01-15"
  /\ "2024-01-15" <> ""
  /\ first_table sample_invoice = Some (table_box sample_cells)
  /\ (let doc' :=
        the_document
          (exec (copy_invoice_date_to_line_items sample_format sample_time
                   sample_add) (mkState sample_invoice 0 [])) in
      authoritative_key doc' = authoritative_key sample_invoice
      /\ exists t',
           first_table doc' = Some t'
           /\ (forall c r,
                 In c sample_cells ->
                 cell_field c "row" = VInt r -> 0 < r ->
                 exists c', In c' (cells_of t') /\
                   cell_field c' "row" = VInt r /\
                   cell_field c' "label" = VStr "line_item_start_date" /\
                   cell_field c' "text" = VStr "2024-01-15")
           /\ filter is_header (cells_of t') = filter is_header sample_cells).
Proof.
  assert (Ne : "2024-01-15" <> "") by discriminate.
  split; [reflexivity|]. split; [reflexivity|]. split; [reflexivity|].
  split; [exact Ne|]. split; [reflexivity|].
  exact (proj2 (copy_fills_data_rows sample_format sample_time sample_add
                  sample_invoice 0 [] sample_field (table_box sample_cells)
                  "2024-01-15" eq_refl eq_refl eq_refl Ne eq_refl)).
Defined.

(** C1 fails as it is written: a document that has an invoice date field
    with a non-empty text, behind an invoice date field with an empty
    one, and a table with data rows, gets the warning and no cell. *)
Lemma copy_skips_shadowed_date :
  let s' :=
    exec (copy_invoice_date_to_line_items sample_format sample_time
            sample_add) (mkState shadowed_invoice 0 []) in
  is_document shadowed_invoice = true
  /\ In sample_field (authoritative_list shadowed_invoice)
  /\ is_field_labelled "invoice_date" sample_field = true
  /\ ocr_text sample_field = VStr "2024-01-15"
  /\ first_table shadowed_invoice = Some (table_box sample_cells)
  /\ In (item_cell 1 1 "item") (cells_of (table_box sample_cells))
  /\ cell_field (item_cell 1 1 "item") "row" = VInt 1
  /\ the_document s' = shadowed_invoice
  /\ existsb
       (fun c => py_eq (cell_field c "label") (VStr "line_item_start_date"))
       (cells_of (table_box sample_cells)) = false
  /\ stdout s' = [Warning_field_not_found].
Proof.
  intros s'. split; [reflexivity|].
  split; [right; left; reflexivity|].
  split; [reflexivity|]. split; [reflexivity|]. split; [reflexivity|].
  split; [right; left; reflexivity|].
  split; [reflexivity|]. split; [reflexivity|]. split; reflexivity.
Qed.

Lemma find_or_create_table_stable_witness :
  let s := mkState tableless_invoice 0 [] in
  let s1 := exec (find_or_create_table sample_format sample_time) s in
  let r := mkRef "predicted_boxes" 1 in
  find_or_create_table sample_format sample_time s = (Ok r, s1)
  /\ find_or_create_table sample_format sample_time s1 = (Ok r, s1)
  /\ ref_key r = authoritative_key (the_document s1)
  /\ first_index is_table (authoritative_list (the_document s1))
     = Some 1%nat
  /\ ticks s1 = 1%nat.
Proof.
  intros s s1 r. split; [reflexivity|].
  destruct (find_or_create_table_stable sample_format sample_time s s1 r
              eq_refl) as (A & K & Fi & _).
  split; [exact A|]. split; [exact K|]. split; [exact Fi|reflexivity].
Defined.
